(** * cmr-stac: the WFS3/STAC request handlers of [search/lib/api/wfs.js]

    A shallow embedding of the handlers [getCollections], [getCollection],
    [findCloudCollections], [extractParams], [getItems], [getItem] and
    [getCatalog], and the properties of their paging, link-building,
    error and browse-catalog behaviour.

    JavaScript values are modelled by the type [jsval]; objects are
    association lists in insertion order.  The modules the handlers require
    ([cmr], [util], [convert], [stacExtension], [validator], [settings]) are
    records of functions; a call that can throw returns a [result].  The
    handlers run in a small state-and-exception monad whose state is the
    log of the calls made to the [cmr] module. *)

From Stdlib Require Import ZArith List String Ascii Bool Lia DecimalString.
Import ListNotations.
Local Open Scope string_scope.
Local Open Scope Z_scope.
Set Warnings "-register-all".

(* ================================================================== *)
(** ** JavaScript values *)
(* ================================================================== *)

(** Numbers are the integral ones; the results of [Number(...)], which may
    be fractional or NaN, have the type [jsnumber] below. *)
Inductive jsval : Type :=
| JUndefined
| JNull
| JBool (b : bool)
| JNum (z : Z)
| JStr (s : string)
| JArr (l : list jsval)
| JObj (o : list (string * jsval)).

(** A plain object: its own enumerable string-keyed properties, in
    insertion order, every key at most once.  Insertion order is the order
    in which JavaScript enumerates the keys that are not integer-like; the
    integer-like keys (["2"], ["10"]) would come first, in ascending
    order. *)
Definition jsobj : Type := list (string * jsval).

(** ToBoolean. *)
Definition truthy (v : jsval) : bool :=
  match v with
  | JUndefined | JNull => false
  | JBool b => b
  | JNum z => negb (z =? 0)
  | JStr s => negb (s =? "")%string
  | JArr _ | JObj _ => true
  end.

Definition Z_to_string (z : Z) : string := NilZero.string_of_int (Z.to_int z).

(** ToString, as a template literal and [URLSearchParams] apply it.  An
    array is joined with commas, [null] and [undefined] elements giving the
    empty string. *)
Fixpoint toString (v : jsval) : string :=
  match v with
  | JUndefined => "undefined"
  | JNull => "null"
  | JBool true => "true"
  | JBool false => "false"
  | JNum z => Z_to_string z
  | JStr s => s
  | JArr l =>
      String.concat ","
        ((fix elems (l : list jsval) : list string :=
            match l with
            | [] => []
            | x :: r =>
                match x with
                | JUndefined | JNull => ""
                | _ => toString x
                end :: elems r
            end) l)
  | JObj _ => "[object Object]"
  end.

(** The result of [Number(v)]: an integer, or some other number (a
    fraction, an infinity or NaN), which is never [===] to an array
    length. *)
Inductive jsnumber : Type :=
| NInt (z : Z)
| NOther.

(** [n === p] for an array length [n]. *)
Definition length_strict_eq (n : nat) (p : jsnumber) : bool :=
  match p with
  | NInt z => Z.of_nat n =? z
  | NOther => false
  end.

(** *** Property access on plain objects *)

(** [o[k]] *)
Fixpoint obj_get (k : string) (o : jsobj) : jsval :=
  match o with
  | [] => JUndefined
  | (k', v) :: r => if (k' =? k)%string then v else obj_get k r
  end.

(** [_.has(o, k)] *)
Fixpoint obj_has (k : string) (o : jsobj) : bool :=
  match o with
  | [] => false
  | (k', _) :: r => if (k' =? k)%string then true else obj_has k r
  end.

(** [o[k] = v]: an existing property keeps its place, a new one goes last. *)
Fixpoint obj_set (k : string) (v : jsval) (o : jsobj) : jsobj :=
  match o with
  | [] => [(k, v)]
  | (k', v') :: r =>
      if (k' =? k)%string then (k, v) :: r else (k', v') :: obj_set k v r
  end.

(** [delete o[k]] *)
Fixpoint obj_delete (k : string) (o : jsobj) : jsobj :=
  match o with
  | [] => []
  | (k', v) :: r =>
      if (k' =? k)%string then obj_delete k r else (k', v) :: obj_delete k r
  end.

(** [Object.assign(target, source)] *)
Definition obj_assign (target source : jsobj) : jsobj :=
  fold_left (fun t kv => obj_set (fst kv) (snd kv) t) source target.

(** *** Strings *)

Definition slash : ascii := "/"%char.

(** [s.split(c)] for a one-character separator. *)
Fixpoint split_char (c : ascii) (s : string) : list string :=
  match s with
  | EmptyString => [""]
  | String a r =>
      if Ascii.eqb a c then "" :: split_char c r
      else match split_char c r with
           | h :: t => String a h :: t
           | [] => [String a ""]
           end
  end.

(** [s.replace(/c/g, d)] for single characters. *)
Fixpoint replace_all_char (c d : ascii) (s : string) : string :=
  match s with
  | EmptyString => EmptyString
  | String a r => String (if Ascii.eqb a c then d else a) (replace_all_char c d r)
  end.

(** [s.replace(/^(p)/, '')] for a literal [p]. *)
Definition strip_prefix (p s : string) : string :=
  if prefix p s
  then substring (String.length p) (String.length s - String.length p) s
  else s.

(** [s.lastIndexOf(c)] counted from position [i] of the whole string; -1
    when [c] does not occur. *)
Fixpoint lastIndexOf_from (c : ascii) (s : string) (i : Z) : Z :=
  match s with
  | EmptyString => -1
  | String a r =>
      let later := lastIndexOf_from c r (i + 1) in
      if 0 <=? later then later
      else if Ascii.eqb a c then i else -1
  end.

Definition lastIndexOf (c : ascii) (s : string) : Z := lastIndexOf_from c s 0.

(** [s.slice(0, e)]: a negative [e] counts from the end of the string. *)
Definition slice0 (s : string) (e : Z) : string :=
  let len := Z.of_nat (String.length s) in
  let e' := if e <? 0 then Z.max (len + e) 0 else Z.min e len in
  substring 0 (Z.to_nat e') s.

(** No occurrence of [c] in [s]. *)
Fixpoint no_char (c : ascii) (s : string) : bool :=
  match s with
  | EmptyString => true
  | String a r => negb (Ascii.eqb a c) && no_char c r
  end.

(* ================================================================== *)
(** ** Exceptions and results *)
(* ================================================================== *)

(** A thrown [Error]: its [name], its [message], and whether it is an
    instance of [stacExtension.errors.InvalidSortPropertyError]. *)
Record exn : Type := mkExn
  { exn_name : string;
    exn_message : string;
    exn_invalidSort : bool }.

(** [String(err)], that is [Error.prototype.toString]. *)
Definition exn_toString (e : exn) : string :=
  if (exn_name e =? "")%string then exn_message e
  else if (exn_message e =? "")%string then exn_name e
  else exn_name e ++ ": " ++ exn_message e.

Definition TypeError (msg : string) : exn := mkExn "TypeError" msg false.
Definition Error (msg : string) : exn := mkExn "Error" msg false.

Inductive result (A : Type) : Type :=
| Ok (a : A)
| Throw (e : exn).
Arguments Ok {A} a.
Arguments Throw {A} e.

(* ================================================================== *)
(** ** The modules the handlers require *)
(* ================================================================== *)

(** What [cmr.findGranules] is given: the parameter object, or the
    [URLSearchParams] built for a POST search (an ordered list of pairs in
    which a name may repeat). *)
Inductive granuleQuery : Type :=
| QueryObject (o : jsobj)
| QuerySearchParams (p : list (string * string)).

(** [TemporalFacets], the answer of [cmr.getGranuleTemporalFacets]. *)
Record Facets : Type := mkFacets
  { years : list jsval;
    months : list jsval;
    days : list jsval;
    itemids : list jsval }.

(** [require('../cmr')]: the Catalog Service.  Each function answers from
    its arguments; no handler makes the same call twice. *)
Record Cmr : Type := mkCmr
  { convertParams : string -> jsobj -> result jsobj;
    findCollections : jsobj -> result (list jsobj);
    findGranules : granuleQuery -> result jsobj;
    stacIdToCmrCollectionId : string -> jsval -> result jsval;
    stacCollectionToCmrParams : string -> jsval -> result jsobj;
    getGranuleTemporalFacets :
      jsobj -> jsval -> jsval -> jsval -> result Facets }.

(** [request.apiGateway.event] *)
Record Event : Type := mkEvent
  { httpMethod : string;
    path : string }.

(** The answer of [generateNavLinks(event)]. *)
Record NavLinks : Type := mkNavLinks
  { currPage : Z;
    prevResultsLink : jsval;
    nextResultsLink : jsval }.

(** [require('../util')]: [generateAppUrl], [generateNavLinks] and
    [wfs.createLink(rel, href, title)]. *)
Record Util : Type := mkUtil
  { generateAppUrl : Event -> string -> string;
    generateNavLinks : Event -> NavLinks;
    createLink : string -> string -> string -> jsval }.

(** [require('../convert')] *)
Record Convert : Type := mkConvert
  { cmrCollToWFSColl : Event -> jsobj -> jsobj;
    cmrGranulesToStac : Event -> jsval -> jsval -> jsobj -> result jsval;
    cmrGranuleToStac : Event -> jsval -> result jsval }.

(** [require('../stac/extension')] *)
Record StacExtension : Type := mkStacExtension
  { prepare : jsval -> result jsobj;
    (* format(featureCollection, { fields, context: { searchResult, query } }) *)
    format : jsval -> jsval -> jsobj -> jsobj -> result jsval }.

(** The document of [getCollections]. *)
Record CollectionsResponse : Type := mkCollectionsResponse
  { cr_id : string;
    cr_stac_version : jsval;
    cr_description : string;
    cr_license : string;
    cr_type : string;
    cr_links : list jsval;
    cr_collections : list jsobj }.

(** [require('../validator')]: [assertValid(schemas.x, doc)], one function
    for each schema. *)
Record Validator : Type := mkValidator
  { assertValid_collections : CollectionsResponse -> result unit;
    assertValid_collection : jsobj -> result unit;
    assertValid_items : jsval -> result unit;
    assertValid_item : jsval -> result unit }.

(** [require('../settings')], [process.env] and the two built-in
    conversions the handlers apply to values from outside. *)
Record Settings : Type := mkSettings
  { cmrStacRelativeRootUrl : string;
    stac_version : jsval;
    BROWSE_PATH : option string;
    (* Number(s) for a string s *)
    StringToNumber : string -> jsnumber;
    parseInt : jsval -> jsval }.

(** [Number(v)] *)
Definition Number_ (st : Settings) (v : jsval) : jsnumber :=
  match v with
  | JUndefined => NOther
  | JNull => NInt 0
  | JBool b => NInt (if b then 1 else 0)
  | JNum z => NInt z
  | JStr s => StringToNumber st s
  | JArr _ => StringToNumber st (toString v)
  | JObj _ => NOther
  end.

(** *** The catalog document *)

(** Modelled from the spec: the class [Catalog] of [lib/stac/catalog] is
    not among the sources.  A catalog node is a document with identity
    (id, title, description), a STAC version tag and an ordered sequence of
    typed links (self, root, parent, child, item); each link-creating
    method appends one link of its type. *)
Record Catalog : Type := mkCatalog
  { cat_stac_version : jsval;
    cat_id : string;
    cat_title : string;
    cat_description : string;
    cat_links : list jsval }.

(** Modelled from the spec: the link objects of [Catalog]. *)
Definition mkLink (rel href : string) (title : option string) : jsval :=
  JObj (("rel", JStr rel) :: ("href", JStr href) ::
        match title with
        | Some t => [("title", JStr t)]
        | None => []
        end).

(** Modelled from the spec: the address a child or an item link of
    [Catalog] points to, which the spec leaves open. *)
Record CatalogUrls : Type := mkCatalogUrls
  { child_href : Catalog -> string -> string;
    item_href : Catalog -> string -> jsval -> jsval -> string }.

(** Modelled from the spec: [new Catalog()]. *)
Definition Catalog_new : Catalog :=
  mkCatalog JUndefined "" "" "" [].

Definition cat_push (l : jsval) (c : Catalog) : Catalog :=
  mkCatalog (cat_stac_version c) (cat_id c) (cat_title c) (cat_description c)
    (cat_links c ++ [l]).

(** Modelled from the spec: [cat.createRoot(href)]. *)
Definition createRoot (href : string) (c : Catalog) : Catalog :=
  cat_push (mkLink "root" href None) c.

(** Modelled from the spec: [cat.createSelf(href)]. *)
Definition createSelf (href : string) (c : Catalog) : Catalog :=
  cat_push (mkLink "self" href None) c.

(** Modelled from the spec: [cat.createParent(href)]. *)
Definition createParent (href : string) (c : Catalog) : Catalog :=
  cat_push (mkLink "parent" href None) c.

(** Modelled from the spec: [cat.addChild(title, relativePath)]. *)
Definition addChild (u : CatalogUrls) (title relpath : string) (c : Catalog)
  : Catalog :=
  cat_push (mkLink "child" (child_href u c relpath) (Some title)) c.

(** Modelled from the spec:
    [cat.addItem(title, providerId, collectionId, itemId)]. *)
Definition addItem (u : CatalogUrls) (title : jsval) (providerId : string)
    (collectionId itemId : jsval) (c : Catalog) : Catalog :=
  cat_push
    (mkLink "item" (item_href u c providerId collectionId itemId)
       (Some (toString title))) c.

(** The [rel] of a link. *)
Definition link_rel (l : jsval) : jsval :=
  match l with
  | JObj o => obj_get "rel" o
  | _ => JUndefined
  end.

Definition link_href (l : jsval) : jsval :=
  match l with
  | JObj o => obj_get "href" o
  | _ => JUndefined
  end.

Definition rel_is (r : string) (l : jsval) : bool :=
  match link_rel l with
  | JStr s => (s =? r)%string
  | _ => false
  end.

(** The links of type [r], in order, and whether there is one. *)
Definition links_of (r : string) (ls : list jsval) : list jsval :=
  filter (rel_is r) ls.

Definition has_link (r : string) (ls : list jsval) : bool :=
  existsb (rel_is r) ls.

(* ================================================================== *)
(** ** The handler monad *)
(* ================================================================== *)

(** The calls to the [cmr] module, in the order they are made. *)
Inductive call : Type :=
| CallConvertParams (provider : string) (params : jsobj)
| CallFindCollections (params : jsobj)
| CallFindGranules (q : granuleQuery)
| CallStacIdToCmrCollectionId (provider : string) (collection : jsval)
| CallStacCollectionToCmrParams (provider : string) (collection : jsval)
| CallGetGranuleTemporalFacets (params : jsobj) (year month day : jsval).

(** A computation reads and extends the call log and returns a value or
    throws. *)
Definition M (A : Type) : Type := list call -> result A * list call.

Definition ret {A} (a : A) : M A := fun log => (Ok a, log).

Definition throw {A} (e : exn) : M A := fun log => (Throw e, log).

Definition bind {A B} (m : M A) (k : A -> M B) : M B :=
  fun log =>
    match m log with
    | (Ok a, log') => k a log'
    | (Throw e, log') => (Throw e, log')
    end.

(** [try { m } catch (err) { h err }] *)
Definition try_catch {A} (m : M A) (h : exn -> M A) : M A :=
  fun log =>
    match m log with
    | (Ok a, log') => (Ok a, log')
    | (Throw e, log') => h e log'
    end.

(** A call of a function that may throw and is not logged. *)
Definition lift {A} (r : result A) : M A := fun log => (r, log).

(** A logged call to the [cmr] module. *)
Definition cmr_call {A} (c : call) (r : result A) : M A :=
  fun log => (r, (log ++ [c])%list).

Declare Scope js_scope.
Delimit Scope js_scope with js.
Notation "x <- m ;; k" := (bind m (fun x => k))
  (at level 61, m at next level, right associativity) : js_scope.
Notation "m ;;; k" := (bind m (fun _ => k))
  (at level 61, right associativity) : js_scope.
Local Open Scope js_scope.

(** What a handler sends: [response.status(s).json(doc)] with a document,
    or with a message string. *)
Inductive reply (D : Type) : Type :=
| Json (status : Z) (doc : D)
| JsonMsg (status : Z) (msg : string).
Arguments Json {D} status doc.
Arguments JsonMsg {D} status msg.

Definition reply_status {D} (r : reply D) : Z :=
  match r with
  | Json s _ => s
  | JsonMsg s _ => s
  end.

(** [request]: the path parameters, [request.params['0']] (the part of
    the path the wildcard matched), the query, the body and the event. *)
Record Request : Type := mkRequest
  { providerId : string;
    collectionId : jsval;
    itemId : jsval;
    star : string;
    query : jsobj;
    body : jsval;
    event : Event }.

(* ================================================================== *)
(** ** The handlers *)
(* ================================================================== *)

(** [new URLSearchParams(o)] for a plain object [o], and [p.append(k, v)]. *)
Definition URLSearchParams_new (o : jsobj) : list (string * string) :=
  map (fun kv => (fst kv, toString (snd kv))) o.

Definition usp_append (k : string) (v : jsval) (p : list (string * string))
  : list (string * string) :=
  (p ++ [(k, toString v)])%list.

(** The names that occur in a [URLSearchParams]. *)
Definition usp_has (k : string) (p : list (string * string)) : bool :=
  existsb (fun kv => (fst kv =? k)%string) p.

(** [Collection [c] not found for provider [p]] *)
Definition not_found_msg (collection : jsval) (provider : string) : string :=
  "Collection [" ++ toString collection ++ "] not found for provider ["
    ++ provider ++ "]".

(** [v[0]] *)
Definition index0 (v : jsval) : result jsval :=
  match v with
  | JArr l => Ok (hd JUndefined l)
  | JStr (String a _) => Ok (JStr (String a ""))
  | JUndefined | JNull =>
      Throw (TypeError "Cannot read properties of undefined (reading '0')")
  | _ => Ok JUndefined
  end.

(** The custom [Object.fromEntries]:
    [l.reduce((a, [k, v]) => ({ ...a, [k]: v }), {})]. *)
Definition fromEntries (l : list (string * jsval)) : jsobj :=
  fold_left (fun a kv => obj_set (fst kv) (snd kv) a) l [].

(** [params.map((val, idx) => [browseTemplate[idx], val])]; a position past
    the end of the template gives the key [undefined]. *)
Fixpoint template_entries (template : list string) (params : list string)
  : list (string * jsval) :=
  match params with
  | [] => []
  | val :: params' =>
      (hd "undefined" template, JStr val)
        :: template_entries (tl template) params'
  end.

Section Handlers.

Variable cmr : Cmr.
Variable util : Util.
Variable convert : Convert.
Variable stacExtension : StacExtension.
Variable validator : Validator.
Variable settings : Settings.
Variable urls : CatalogUrls.

(** [settings.cmrStacRelativeRootUrl === '/cloudstac'] *)
Definition cloudstac : bool :=
  (cmrStacRelativeRootUrl settings =? "/cloudstac")%string.

(** The awaited calls to the [cmr] module. *)
Definition call_convertParams (p : string) (o : jsobj) : M jsobj :=
  cmr_call (CallConvertParams p o) (convertParams cmr p o).
Definition call_findCollections (o : jsobj) : M (list jsobj) :=
  cmr_call (CallFindCollections o) (findCollections cmr o).
Definition call_findGranules (q : granuleQuery) : M jsobj :=
  cmr_call (CallFindGranules q) (findGranules cmr q).
Definition call_stacIdToCmrCollectionId (p : string) (c : jsval) : M jsval :=
  cmr_call (CallStacIdToCmrCollectionId p c) (stacIdToCmrCollectionId cmr p c).
Definition call_stacCollectionToCmrParams (p : string) (c : jsval)
  : M jsobj :=
  cmr_call (CallStacCollectionToCmrParams p c)
    (stacCollectionToCmrParams cmr p c).
Definition call_getGranuleTemporalFacets (o : jsobj) (y m d : jsval)
  : M Facets :=
  cmr_call (CallGetGranuleTemporalFacets o y m d)
    (getGranuleTemporalFacets cmr o y m d).

(** [collectionsResponse.links.push(l)] *)
Definition cr_push_link (l : jsval) (r : CollectionsResponse)
  : CollectionsResponse :=
  mkCollectionsResponse (cr_id r) (cr_stac_version r) (cr_description r)
    (cr_license r) (cr_type r) (cr_links r ++ [l])%list (cr_collections r).

(** [Number(request.query.limit || 10)] *)
Definition pageSize_of (request : Request) : jsnumber :=
  let limit := obj_get "limit" (query request) in
  Number_ settings (if truthy limit then limit else JNum 10).

(** Fetch a list of collections from CMR for a provider. *)
Definition getCollections (request : Request)
  : M (reply CollectionsResponse) :=
  try_catch
    (let pageSize := pageSize_of request in
     let event := event request in
     let nav := generateNavLinks util event in
     let provider := providerId request in
     cmrParams <- call_convertParams provider (query request) ;;
     let '(cmrParams, rootName, description) :=
       if cloudstac
       then (obj_assign cmrParams
               [("tag_key", JStr "gov.nasa.earthdatacloud.s3")],
             "CMR-CLOUDSTAC Root",
             "All cloud holding collections provided by " ++ provider)
       else (cmrParams, "CMR-STAC Root",
             "All collections provided by " ++ provider) in
     collections <- call_findCollections cmrParams ;;
     let collectionsResponse :=
       mkCollectionsResponse provider (stac_version settings) description
         "not-provided" "Catalog"
         [ createLink util "self"
             (generateAppUrl util event ("/" ++ provider ++ "/collections"))
             description;
           createLink util "root" (generateAppUrl util event "/") rootName ]
         (map (cmrCollToWFSColl convert event) collections) in
     let collectionsResponse :=
       if (currPage nav >? 1)
          && (Z.of_nat (List.length (cr_links collectionsResponse)) >? 1)
       then cr_push_link
              (JObj [("rel", JStr "prev"); ("href", prevResultsLink nav)])
              collectionsResponse
       else collectionsResponse in
     let collectionsResponse :=
       if length_strict_eq (List.length (cr_collections collectionsResponse))
            pageSize
       then cr_push_link
              (JObj [("rel", JStr "next"); ("href", nextResultsLink nav)])
              collectionsResponse
       else collectionsResponse in
     lift (assertValid_collections validator collectionsResponse) ;;;
     ret (Json 200 collectionsResponse))
    (fun e => ret (JsonMsg 400 (exn_message e))).

(** [process.env.BROWSE_PATH] as a condition. *)
Definition browse_enabled : bool :=
  match BROWSE_PATH settings with
  | Some s => negb (s =? "")%string
  | None => false
  end.

(** Fetch a collection from CMR. *)
Definition getCollection (request : Request) : M (reply jsobj) :=
  let event := event request in
  let providerId := providerId request in
  let collectionId := collectionId request in
  try_catch
    (cmrParams <- call_stacCollectionToCmrParams providerId collectionId ;;
     collections <- call_findCollections cmrParams ;;
     match collections with
     | [] => ret (JsonMsg 404 (not_found_msg collectionId providerId))
     | first :: _ =>
         let collectionResponse := cmrCollToWFSColl convert event first in
         collectionResponse <-
           (if browse_enabled
            then
              facets <- call_getGranuleTemporalFacets cmrParams
                          JUndefined JUndefined JUndefined ;;
              let path := "/" ++ providerId ++ "/collections/"
                            ++ toString collectionId in
              let browseLinks :=
                map (fun y =>
                       createLink util "child"
                         (generateAppUrl util event
                            (path ++ "/" ++ toString y))
                         (toString y ++ " catalog"))
                  (years facets) in
              (* the links of a collection document are an array *)
              match obj_get "links" collectionResponse with
              | JArr links =>
                  ret (obj_set "links" (JArr (links ++ browseLinks))
                         collectionResponse)
              | _ =>
                  throw (TypeError
                           "collectionResponse.links.concat is not a function")
              end
            else ret collectionResponse) ;;
         lift (assertValid_collection validator collectionResponse) ;;;
         ret (Json 200 collectionResponse)
     end)
    (fun err =>
       ret (JsonMsg 404
              ("Error [" ++ exn_toString err
                 ++ "] occurred when getting Collection "
                 ++ toString collectionId ++ " for provider " ++ providerId))).

(** The parameter object of [findCloudCollections] before the loop. *)
Definition cloud_params (providerId : string) (collectionConceptIds : jsval)
  : jsobj :=
  let params :=
    obj_assign
      (obj_assign [("provider_short_name", JStr providerId)]
         [("tag_key", JStr "gov.nasa.earthdatacloud.s3")])
      [("page_size", JNum 2000)] in
  if truthy collectionConceptIds
  then obj_set "concept_id" collectionConceptIds params
  else params.

(** [for (j ...) allCloudCollections.push(collections[j].id)] *)
Definition push_ids (collections : list jsobj) (all : list jsval)
  : list jsval :=
  fold_left (fun all c => (all ++ [obj_get "id" c])%list) collections all.

(** [for (let i = ...; i < 10000; i++) { ... }]: the loop from the value
    [i] of its counter on; [fuel] bounds the iterations that remain. *)
Fixpoint cloud_pages (fuel : nat) (i : Z) (params : jsobj)
    (allCloudCollections : list jsval) : M (list jsval) :=
  match fuel with
  | O => ret allCloudCollections
  | S fuel' =>
      if i <? 10000
      then
        let params := obj_set "page_num" (JNum i) params in
        collections <- call_findCollections params ;;
        let allCloudCollections := push_ids collections allCloudCollections in
        if Z.of_nat (List.length collections) <? 2000
        then ret allCloudCollections
        else cloud_pages fuel' (i + 1) params allCloudCollections
      else ret allCloudCollections
  end.

(** Fetch a list of cloud holding collections from CMR for the provider. *)
Definition findCloudCollections (providerId : string)
    (collectionConceptIds : jsval) : M (list jsval) :=
  cloud_pages (Z.to_nat 10000) 1
    (cloud_params providerId collectionConceptIds) [].

(** Extract parameters from the request object. *)
Definition extractParams (request : Request) : result jsobj :=
  let method := httpMethod (event request) in
  if (method =? "GET")%string
  then prepare stacExtension (JObj (query request))
  else if (method =? "POST")%string
  then prepare stacExtension (body request)
  else Throw (Error ("Invalid httpMethod " ++ method)).

(** The cloud-only branch of [getItems]. *)
Definition cloud_search (providerId : string) (cmrParams : jsobj)
  : M jsobj :=
  let collectionConceptIds := obj_get "collection_concept_id" cmrParams in
  let conceptIds := obj_get "concept_id" cmrParams in
  let cmrParams :=
    obj_delete "concept_id" (obj_delete "collection_concept_id" cmrParams) in
  allCloudCollections <-
    findCloudCollections providerId collectionConceptIds ;;
  let postSearchParams := URLSearchParams_new cmrParams in
  let postSearchParams :=
    if negb (Z.of_nat (List.length allCloudCollections) =? 0)
    then fold_left (fun p id => usp_append "collection_concept_id" id p)
           allCloudCollections postSearchParams
    else postSearchParams in
  postSearchParams <-
    (if truthy conceptIds
     then match conceptIds with
          | JArr ids =>
              ret (fold_left (fun p id => usp_append "concept_id" id p)
                     ids postSearchParams)
          | _ => throw (TypeError "conceptIds.forEach is not a function")
          end
     else ret postSearchParams) ;;
  call_findGranules (QuerySearchParams postSearchParams).

(** [getItems] from the conversion of the parameters on. *)
Definition search_items (request : Request) (fields : jsval)
    (params : jsobj) : M (reply jsval) :=
  let providerId := providerId request in
  let collectionId := collectionId request in
  let event := event request in
  cmrParams <- call_convertParams providerId params ;;
  let granulesResult : jsobj := [("granules", JArr []); ("hits", JNum 0)] in
  let collectionsRequested := obj_has "collections" params in
  let validCollections := obj_has "collection_concept_id" cmrParams in
  granulesResult <-
    (if (collectionsRequested && validCollections)
        || negb collectionsRequested
     then
       if cloudstac
       then cloud_search providerId cmrParams
       else call_findGranules (QueryObject cmrParams)
     else ret granulesResult) ;;
  let params :=
    if truthy collectionId then obj_delete "collections" params
    else params in
  featureCollection <-
    lift (cmrGranulesToStac convert event (obj_get "granules" granulesResult)
            (parseInt settings (obj_get "hits" granulesResult)) params) ;;
  lift (assertValid_items validator featureCollection) ;;;
  formatted <-
    lift (format stacExtension featureCollection fields granulesResult
            params) ;;
  ret (Json 200 formatted).

(** Fetch a list of granules from CMR. *)
Definition getItems (request : Request) : M (reply jsval) :=
  let providerId := providerId request in
  let collectionId := collectionId request in
  prepared <- lift (extractParams request) ;;
  let fields := obj_get "fields" prepared in
  let params := obj_delete "fields" prepared in
  try_catch
    (if truthy collectionId
     then
       cmrCollectionId <-
         call_stacIdToCmrCollectionId providerId collectionId ;;
       if negb (truthy cmrCollectionId)
       then ret (JsonMsg 404 (not_found_msg collectionId providerId))
       else
         if truthy (obj_get "collections" params)
         then ret (JsonMsg 404
                     ("Can not have collections param when there is collectionId ["
                        ++ toString collectionId ++ "] specified."))
         else search_items request fields
                (obj_set "collections" (JArr [collectionId]) params)
     else search_items request fields params)
    (fun err =>
       if exn_invalidSort err
       then ret (JsonMsg 422 (exn_message err))
       else ret (JsonMsg 400 (exn_message err))).

(** Fetch a granule from CMR. *)
Definition getItem (request : Request) : M (reply jsval) :=
  let providerId := providerId request in
  let collectionId := collectionId request in
  let conceptId := itemId request in
  let event := event request in
  cmrCollectionId <- call_stacIdToCmrCollectionId providerId collectionId ;;
  if negb (truthy cmrCollectionId)
  then ret (JsonMsg 404 (not_found_msg collectionId providerId))
  else
    let cmrParams :=
      obj_assign [("concept_id", conceptId)]
        [("collection_concept_id", cmrCollectionId)] in
    let postSearchParams := URLSearchParams_new cmrParams in
    granulesResult <- call_findGranules (QuerySearchParams postSearchParams) ;;
    first <- lift (index0 (obj_get "granules" granulesResult)) ;;
    granuleResponse <- lift (cmrGranuleToStac convert event first) ;;
    lift (assertValid_item validator granuleResponse) ;;;
    ret (Json 200 granuleResponse).

(** The links [getCatalog] adds for the facets. *)
Definition browse_links (request : Request) (year month day : jsval)
    (facets : Facets) (cat : Catalog) : Catalog :=
  let providerId := providerId request in
  let collectionId := collectionId request in
  if truthy day
  then fold_left (fun c id => addItem urls id providerId collectionId id c)
         (itemids facets) cat
  else if truthy month
  then fold_left
         (fun c d =>
            addChild urls
              (toString year ++ "-" ++ toString month ++ "-" ++ toString d
                 ++ " catalog")
              ("/" ++ toString d) c)
         (days facets) cat
  else if truthy year
  then fold_left
         (fun c m =>
            addChild urls (toString year ++ "-" ++ toString m ++ " catalog")
              ("/" ++ toString m) c)
         (months facets) cat
  else cat.

(** The address of the catalog of a request. *)
Definition catalog_selfUrl (request : Request) : string :=
  let event := event request in
  let path :=
    if cloudstac then strip_prefix "/cloudstac" (path event)
    else strip_prefix "/stac" (path event) in
  generateAppUrl util event path.

(** Create the browse catalog of a collection for a year, a month or a
    day. *)
Definition getCatalog (request : Request) : M (reply Catalog) :=
  match BROWSE_PATH settings with
  | None =>
      throw (TypeError "Cannot read properties of undefined (reading 'split')")
  | Some browse_path =>
      let browseTemplate := split_char slash browse_path in
      let params := split_char slash (star request) in
      let browseParams :=
        fromEntries (template_entries browseTemplate params) in
      let year := obj_get "year" browseParams in
      let month := obj_get "month" browseParams in
      let day := obj_get "day" browseParams in
      let providerId := providerId request in
      let collectionId := collectionId request in
      cmrCollectionId <-
        call_stacIdToCmrCollectionId providerId collectionId ;;
      if negb (truthy cmrCollectionId)
      then ret (JsonMsg 404 (not_found_msg collectionId providerId))
      else
        let event := event request in
        let date := replace_all_char slash "-"%char (star request) in
        let cat :=
          mkCatalog (stac_version settings)
            (toString collectionId ++ "-" ++ date)
            (toString collectionId ++ " " ++ date)
            (providerId ++ " sub-catalog for " ++ date)
            (cat_links Catalog_new) in
        let cat := createRoot (generateAppUrl util event "") cat in
        let selfUrl := catalog_selfUrl request in
        let cat := createSelf selfUrl cat in
        let cat :=
          createParent (slice0 selfUrl (lastIndexOf slash selfUrl)) cat in
        cmrParams <-
          call_stacCollectionToCmrParams providerId collectionId ;;
        facets <- call_getGranuleTemporalFacets cmrParams year month day ;;
        ret (Json 200 (browse_links request year month day facets cat))
  end.

End Handlers.

(* ================================================================== *)
(** ** The routes *)
(* ================================================================== *)

(** The handlers of the module. *)
Inductive handler : Type :=
| Handler_getCollections
| Handler_getCollection
| Handler_getItems
| Handler_getItem
| Handler_getCatalog.

(** A registration [routes.get(path, makeAsyncHandler(h))]. *)
Record Route : Type := mkRoute
  { route_method : string;
    route_path : string;
    route_handler : handler }.

(** Returns a router: the registrations of [createRoutes(cfg)], in order,
    for [cfg.BROWSE_PATH]. *)
Definition createRoutes (cfg_BROWSE_PATH : option string) : list Route :=
  ([mkRoute "GET" "/:providerId/collections" Handler_getCollections;
    mkRoute "GET" "/:providerId/collections/:collectionId"
      Handler_getCollection;
    mkRoute "GET" "/:providerId/collections/:collectionId/items"
      Handler_getItems;
    mkRoute "GET" "/:providerId/collections/:collectionId/items/:itemId"
      Handler_getItem]
   ++ match cfg_BROWSE_PATH with
      | Some _ =>
          [mkRoute "GET" "/:providerId/collections/:collectionId/*"
             Handler_getCatalog]
      | None => []
      end)%list.

(** [const routes = createRoutes(env)], with
    [env.BROWSE_PATH = process.env.BROWSE_PATH]. *)
Definition routes (settings : Settings) : list Route :=
  createRoutes (BROWSE_PATH settings).

(* ================================================================== *)
(** ** Paging of the cloud-holding collections: what the service answers *)
(* ================================================================== *)

(** The query [findCloudCollections] sends for page [i]. *)
Definition cloud_query (providerId : string) (collectionConceptIds : jsval)
    (i : Z) : jsobj :=
  obj_set "page_num" (JNum i) (cloud_params providerId collectionConceptIds).

(** The service answers the pages [i], [i+1], ... of the query [params]
    with the lists of records [pages]. *)
Fixpoint pages_served (cmr : Cmr) (params : jsobj) (i : Z)
    (pages : list (list jsobj)) : Prop :=
  match pages with
  | [] => True
  | p :: rest =>
      findCollections cmr (obj_set "page_num" (JNum i) params) = Ok p
      /\ pages_served cmr params (i + 1) rest
  end.

(** [pages], the first of which is page [i], end with the first page of
    fewer than 2000 records, or with page 9999 when there is none before. *)
Fixpoint stops_at (i : Z) (pages : list (list jsobj)) : Prop :=
  match pages with
  | [] => False
  | p :: rest =>
      match rest with
      | [] => i <= 9999 /\ (Z.of_nat (List.length p) < 2000 \/ i = 9999)
      | _ :: _ =>
          2000 <= Z.of_nat (List.length p) /\ i < 9999 /\ stops_at (i + 1) rest
      end
  end.

(** The numbers [i], [i+1], ..., [i+n-1]. *)
Fixpoint Zseq (i : Z) (n : nat) : list Z :=
  match n with
  | O => []
  | S n' => i :: Zseq (i + 1) n'
  end.

(** The ids of the records of some pages, in order. *)
Definition page_ids (pages : list (list jsobj)) : list jsval :=
  List.concat (map (map (obj_get "id")) pages).

(** The [prev] and [next] links of a request. *)
Definition prev_link (nav : NavLinks) : jsval :=
  JObj [("rel", JStr "prev"); ("href", prevResultsLink nav)].

Definition next_link (nav : NavLinks) : jsval :=
  JObj [("rel", JStr "next"); ("href", nextResultsLink nav)].

(** *** The granule search of the cloud-only mode *)

(** [conceptIds] can be gone through with [forEach] when the code does so:
    it is an array, or it is not truthy and is left alone. *)
Definition forEach_ok (conceptIds : jsval) : bool :=
  match conceptIds with
  | JArr _ => true
  | _ => negb (truthy conceptIds)
  end.

(** The [concept_id] pairs appended for [conceptIds]. *)
Definition concept_pairs (conceptIds : jsval) : list (string * string) :=
  match conceptIds with
  | JArr ids => map (fun id => ("concept_id", toString id)) ids
  | _ => []
  end.

(** The search parameters of the cloud-only mode for the translated query
    [cmrParams] and the resolved cloud-holding collections [cloud_ids]. *)
Definition cloud_post (cmrParams : jsobj) (cloud_ids : list jsval)
  : list (string * string) :=
  (URLSearchParams_new
     (obj_delete "concept_id" (obj_delete "collection_concept_id" cmrParams))
   ++ map (fun id => ("collection_concept_id", toString id)) cloud_ids
   ++ concept_pairs (obj_get "concept_id" cmrParams))%list.

(** The parameters [getItems] translates: those of the request without
    [fields], with the collection of the path when there is one. *)
Definition items_params (request : Request) (prepared : jsobj) : jsobj :=
  let params := obj_delete "fields" prepared in
  if truthy (collectionId request)
  then obj_set "collections" (JArr [collectionId request]) params
  else params.

(** The request passes the checks on the collection of its path: there is
    none, or it resolves to a concept id and no [collections] parameter
    comes with it. *)
Definition scope_resolved (cmr : Cmr) (request : Request) (prepared : jsobj)
  : Prop :=
  truthy (collectionId request) = false
  \/ (truthy (collectionId request) = true
      /\ truthy (obj_get "collections" prepared) = false
      /\ exists v : jsval,
           stacIdToCmrCollectionId cmr (providerId request)
             (collectionId request) = Ok v
           /\ truthy v = true).

(** The lookup of the collection of the path, when there is one. *)
Definition lookup_calls (request : Request) : list call :=
  if truthy (collectionId request)
  then [CallStacIdToCmrCollectionId (providerId request)
          (collectionId request)]
  else [].

(** *** The browse catalog *)

Definition link_title (l : jsval) : jsval :=
  match l with
  | JObj o => obj_get "title" o
  | _ => JUndefined
  end.

(** The type and the title of a link. *)
Definition link_kind (l : jsval) : jsval * jsval :=
  (link_rel l, link_title l).

(** The browse parameters [getCatalog] reads from the path. *)
Definition browse_params (browse_path : string) (request : Request) : jsobj :=
  fromEntries
    (template_entries (split_char slash browse_path)
       (split_char slash (star request))).

(** The catalog of a request before the links for the facets are added. *)
Definition catalog_base (util : Util) (settings : Settings)
    (request : Request) : Catalog :=
  let date := replace_all_char slash "-"%char (star request) in
  let selfUrl := catalog_selfUrl util settings request in
  mkCatalog (stac_version settings)
    (toString (collectionId request) ++ "-" ++ date)
    (toString (collectionId request) ++ " " ++ date)
    (providerId request ++ " sub-catalog for " ++ date)
    [mkLink "root" (generateAppUrl util (event request) "") None;
     mkLink "self" selfUrl None;
     mkLink "parent" (slice0 selfUrl (lastIndexOf slash selfUrl)) None].

(** A non-empty path segment. *)
Definition segment (s : string) : Prop :=
  s <> "" /\ no_char slash s = true.

(** The calls [getCatalog] makes for a found collection. *)
Definition catalog_calls (request : Request) (cmrParams : jsobj)
    (year month day : jsval) : list call :=
  [CallStacIdToCmrCollectionId (providerId request) (collectionId request);
   CallStacCollectionToCmrParams (providerId request) (collectionId request);
   CallGetGranuleTemporalFacets cmrParams year month day].

(** The kinds of the three links every catalog starts with. *)
Definition base_kinds : list (jsval * jsval) :=
  [(JStr "root", JUndefined); (JStr "self", JUndefined);
   (JStr "parent", JUndefined)].

(** The Catalog Service answers the lookups of the collection of the
    request, and the facets for [year], [month] and [day]. *)
Definition catalog_served (cmr : Cmr) (request : Request) (cmrParams : jsobj)
    (year month day : jsval) (facets : Facets) : Prop :=
  (exists v : jsval,
     stacIdToCmrCollectionId cmr (providerId request) (collectionId request)
     = Ok v
     /\ truthy v = true)
  /\ stacCollectionToCmrParams cmr (providerId request) (collectionId request)
     = Ok cmrParams
  /\ getGranuleTemporalFacets cmr cmrParams year month day = Ok facets.

(** *** The collections listing and the single collection *)

(** The tag of the cloud-holding collections. *)
Definition cloud_tag : jsval := JStr "gov.nasa.earthdatacloud.s3".

(** The query [getCollections] sends for the translated parameters
    [cmrParams]. *)
Definition collections_query (settings : Settings) (cmrParams : jsobj)
  : jsobj :=
  if cloudstac settings then obj_set "tag_key" cloud_tag cmrParams
  else cmrParams.

(** The browse links [getCollection] adds, one for each year. *)
Definition year_links (util : Util) (request : Request) (ys : list jsval)
  : list jsval :=
  let path := "/" ++ providerId request ++ "/collections/"
                ++ toString (collectionId request) in
  map (fun y =>
         createLink util "child"
           (generateAppUrl util (event request) (path ++ "/" ++ toString y))
           (toString y ++ " catalog"))
    ys.

(** The message of the [catch] block of [getCollection]. *)
Definition collection_error_msg (request : Request) (err : exn) : string :=
  "Error [" ++ exn_toString err ++ "] occurred when getting Collection "
    ++ toString (collectionId request) ++ " for provider "
    ++ providerId request.

(** *** The replies of the items handler *)

(** The reply of the [catch] block of [getItems] to the error [err]. *)
Definition error_reply (err : exn) : reply jsval :=
  JsonMsg (if exn_invalidSort err then 422 else 400) (exn_message err).

(** The search result [getItems] starts from. *)
Definition no_granules : jsobj := [("granules", JArr []); ("hits", JNum 0)].

(** The parameters [getItems] converts the granules with and echoes: those
    it translated, without the [collections] entry when the path names a
    collection. *)
Definition final_params (request : Request) (prepared : jsobj) : jsobj :=
  if truthy (collectionId request)
  then obj_delete "collections" (items_params request prepared)
  else items_params request prepared.

(** The granules of [granulesResult] are converted, validated and
    formatted into [formatted]. *)
Definition items_assembled (convert : Convert) (stacExtension : StacExtension)
    (validator : Validator) (settings : Settings) (request : Request)
    (prepared granulesResult : jsobj) (formatted : jsval) : Prop :=
  exists featureCollection : jsval,
    cmrGranulesToStac convert (event request)
      (obj_get "granules" granulesResult)
      (parseInt settings (obj_get "hits" granulesResult))
      (final_params request prepared) = Ok featureCollection
    /\ assertValid_items validator featureCollection = Ok tt
    /\ format stacExtension featureCollection (obj_get "fields" prepared)
         granulesResult (final_params request prepared) = Ok formatted.

(** The pages hold 2000 records or more each. *)
Definition all_full (pages : list (list jsobj)) : Prop :=
  Forall (fun p => 2000 <= Z.of_nat (List.length p)) pages.

(** The document [getCollections] builds for the collections the search
    returned. *)
Definition collections_document (util : Util) (convert : Convert)
    (settings : Settings) (request : Request) (collections : list jsobj)
  : CollectionsResponse :=
  let event := event request in
  let nav := generateNavLinks util event in
  let provider := providerId request in
  let rootName :=
    if cloudstac settings then "CMR-CLOUDSTAC Root" else "CMR-STAC Root" in
  let description :=
    if cloudstac settings
    then "All cloud holding collections provided by " ++ provider
    else "All collections provided by " ++ provider in
  let doc :=
    mkCollectionsResponse provider (stac_version settings) description
      "not-provided" "Catalog"
      [ createLink util "self"
          (generateAppUrl util event ("/" ++ provider ++ "/collections"))
          description;
        createLink util "root" (generateAppUrl util event "/") rootName ]
      (map (cmrCollToWFSColl convert event) collections) in
  let doc :=
    if (currPage nav >? 1) && (Z.of_nat (List.length (cr_links doc)) >? 1)
    then cr_push_link (prev_link nav) doc
    else doc in
  if length_strict_eq (List.length (cr_collections doc))
       (pageSize_of settings request)
  then cr_push_link (next_link nav) doc
  else doc.

(** The document [getCollection] builds, with its browse links, from the
    conversion [base] of the record and the facets. *)
Definition collection_with_years (util : Util) (request : Request)
    (base : jsobj) (links : list jsval) (facets : Facets) : jsobj :=
  obj_set "links" (JArr (links ++ year_links util request (years facets)))
    base.



(* ================================================================== *)
(** ** Stub services *)
(* ================================================================== *)

(** A collection record with the concept id of number [n]. *)
Definition stub_record (n : nat) : jsobj :=
  [("id", JStr ("C" ++ Z_to_string (Z.of_nat n) ++ "-PROV"))].

(** The [count] records numbered from [from]. *)
Definition stub_page (from count : nat) : list jsobj :=
  map stub_record (seq from count).

(** A service with 4500 cloud-holding collections: pages of 2000, 2000 and
    500 records. *)
Definition paged_findCollections (params : jsobj) : result (list jsobj) :=
  match obj_get "page_num" params with
  | JNum 1 => Ok (stub_page 0 2000)
  | JNum 2 => Ok (stub_page 2000 2000)
  | JNum 3 => Ok (stub_page 4000 500)
  | _ => Ok []
  end.

(** A service that answers every page with 2000 records. *)
Definition full_page : list jsobj := repeat (stub_record 0) 2000.

Definition endless_findCollections (params : jsobj) : result (list jsobj) :=
  Ok full_page.

(** A Catalog Service around a collection search [fc] and a lookup of
    concept ids [lookup]. *)
Definition stub_cmr (fc : jsobj -> result (list jsobj))
    (lookup : jsval -> jsval) : Cmr :=
  mkCmr (fun _ o =>
           Ok (match obj_get "collections" o with
               | JUndefined => o
               | ids => obj_set "collection_concept_id" ids
                          (obj_delete "collections" o)
               end))
        fc
        (fun _ => Ok [("granules", JArr []); ("hits", JStr "0")])
        (fun _ c => Ok (lookup c))
        (fun _ c => Ok [("short_name", c)])
        (fun _ _ _ _ => Ok (mkFacets [] [] [] [])).

(** [Number(s)] for the strings of decimal digits; the other strings are
    left as not integral. *)
Fixpoint digits_value (s : string) (acc : Z) : option Z :=
  match s with
  | EmptyString => Some acc
  | String a r =>
      let n := Z.of_nat (nat_of_ascii a) in
      if (48 <=? n) && (n <=? 57)
      then digits_value r (10 * acc + (n - 48))
      else None
  end.

Definition decimal_StringToNumber (s : string) : jsnumber :=
  match digits_value s 0 with
  | Some z => NInt z
  | None => NOther
  end.

(** Links as objects with [rel], [href], [title] and [type]; the request is
    for page [page]. *)
Definition stub_util (page : Z) : Util :=
  mkUtil (fun _ p => "https://cmr.example/stac" ++ p)
         (fun _ => mkNavLinks page (JStr "https://cmr.example/prev")
                     (JStr "https://cmr.example/next"))
         (fun rel href title =>
            JObj [("rel", JStr rel); ("href", JStr href);
                  ("title", JStr title); ("type", JStr "application/json")]).

Definition stub_convert : Convert :=
  mkConvert (fun _ c => ("links", JArr []) :: c)
            (fun _ granules _ _ =>
               Ok (JObj [("type", JStr "FeatureCollection");
                         ("features", granules)]))
            (fun _ g => Ok g).

Definition stub_stacExtension : StacExtension :=
  mkStacExtension
    (fun v => match v with
              | JObj o => Ok o
              | _ => Ok []
              end)
    (fun fc _ _ _ => Ok fc).

Definition stub_validator : Validator :=
  mkValidator (fun _ => Ok tt) (fun _ => Ok tt) (fun _ => Ok tt)
    (fun _ => Ok tt).

Definition stub_settings (root : string) : Settings :=
  mkSettings root (JStr "1.0.0") (Some "year/month/day")
    decimal_StringToNumber (fun v => v).

(** A GET request of a provider's collections with the query [q]. *)
Definition collections_request (q : jsobj) : Request :=
  mkRequest "PROV" JUndefined JUndefined "" q JUndefined
    (mkEvent "GET" "/stac/PROV/collections").

(** A service whose every collection search answers [n] records. *)
Definition count_findCollections (n : nat) (params : jsobj)
  : result (list jsobj) :=
  Ok (stub_page 0 n).

(** A GET request for the items of the collection [coll] of the path
    ([JUndefined] for a search over the provider) with the query [q]. *)
Definition items_request (coll : jsval) (q : jsobj) : Request :=
  mkRequest "PROV" coll JUndefined "" q JUndefined
    (mkEvent "GET" "/cloudstac/PROV/search").

(** A Catalog Service with granules of the months 01 and 02, of the days
    05, 06 and 07, and the granules G1 and G2. *)
Definition browse_facets : Facets :=
  mkFacets [JStr "2001"] [JStr "01"; JStr "02"]
    [JStr "05"; JStr "06"; JStr "07"] [JStr "G1-PROV"; JStr "G2-PROV"].

Definition browse_cmr : Cmr :=
  mkCmr (fun _ o => Ok o)
        (fun _ => Ok [stub_record 1])
        (fun _ => Ok [("granules", JArr []); ("hits", JStr "0")])
        (fun _ c => Ok (JStr "C1-PROV"))
        (fun _ c => Ok [("short_name", c)])
        (fun _ _ _ _ => Ok browse_facets).

Definition stub_urls : CatalogUrls :=
  mkCatalogUrls
    (fun _ relpath => "https://cmr.example/stac/browse" ++ relpath)
    (fun _ provider coll id =>
       "https://cmr.example/stac/" ++ provider ++ "/collections/"
         ++ toString coll ++ "/items/" ++ toString id).

(** A GET request for the browse catalog [date] of the collection C1.v1. *)
Definition catalog_request (date : string) : Request :=
  mkRequest "PROV" (JStr "C1.v1") JUndefined date [] JUndefined
    (mkEvent "GET" ("/stac/PROV/collections/C1.v1/" ++ date)).

(** *** Services that fail *)

Definition upstream_error : exn := Error "Request failed with status code 500".

Definition sort_error : exn :=
  mkExn "InvalidSortPropertyError" "Property [foo] is not sortable" true.

(** The Catalog Service [c] with one of its functions replaced. *)
Definition with_convertParams (f : string -> jsobj -> result jsobj) (c : Cmr)
  : Cmr :=
  mkCmr f (findCollections c) (findGranules c) (stacIdToCmrCollectionId c)
    (stacCollectionToCmrParams c) (getGranuleTemporalFacets c).

Definition with_findGranules (f : granuleQuery -> result jsobj) (c : Cmr)
  : Cmr :=
  mkCmr (convertParams c) (findCollections c) f (stacIdToCmrCollectionId c)
    (stacCollectionToCmrParams c) (getGranuleTemporalFacets c).

Definition with_lookup (f : string -> jsval -> result jsval) (c : Cmr) : Cmr :=
  mkCmr (convertParams c) (findCollections c) (findGranules c) f
    (stacCollectionToCmrParams c) (getGranuleTemporalFacets c).

Definition with_toParams (f : string -> jsval -> result jsobj) (c : Cmr)
  : Cmr :=
  mkCmr (convertParams c) (findCollections c) (findGranules c)
    (stacIdToCmrCollectionId c) f (getGranuleTemporalFacets c).

(** A collection search that fails. *)
Definition failing_findCollections (params : jsobj) : result (list jsobj) :=
  Throw upstream_error.

(** A collection search that answers a page of 2000 records and fails on
    the second page. *)
Definition second_page_fails (params : jsobj) : result (list jsobj) :=
  match obj_get "page_num" params with
  | JNum 1 => Ok full_page
  | _ => Throw upstream_error
  end.

(** A request with the method [m]. *)
Definition method_request (m : string) (coll : jsval) (q : jsobj) (b : jsval)
  : Request :=
  mkRequest "PROV" coll JUndefined "" q b (mkEvent m "/stac/PROV/search").

(** A request for the item [item] of the collection [coll]. *)
Definition item_request (coll item : jsval) : Request :=
  mkRequest "PROV" coll item "" [] JUndefined
    (mkEvent "GET" "/stac/PROV/collections/C1.v1/items/G1-PROV").

(** Settings without a browse path. *)
Definition plain_settings : Settings :=
  mkSettings "/stac" (JStr "1.0.0") None decimal_StringToNumber (fun v => v).

(** A request for the collection [coll]. *)
Definition collection_request (coll : jsval) : Request :=
  mkRequest "PROV" coll JUndefined "" [] JUndefined
    (mkEvent "GET" "/stac/PROV/collections/C1.v1").

(** An extension whose preparation refuses the sort of every request. *)
Definition strict_stacExtension : StacExtension :=
  mkStacExtension (fun _ => Throw sort_error) (fun fc _ _ _ => Ok fc).

(** A converter of granules that reads a property of the granule. *)
Definition missing_granule_error : exn :=
  TypeError "Cannot read properties of undefined (reading 'id')".

Definition strict_convert : Convert :=
  mkConvert (fun _ c => ("links", JArr []) :: c)
            (fun _ granules _ _ =>
               Ok (JObj [("type", JStr "FeatureCollection");
                         ("features", granules)]))
            (fun _ g => match g with
                        | JUndefined => Throw missing_granule_error
                        | _ => Ok g
                        end).

(** A granule search that finds the granules G1 and G2. *)
Definition two_granules (q : granuleQuery) : result jsobj :=
  Ok [("granules", JArr [JObj [("id", JStr "G1-PROV")];
                          JObj [("id", JStr "G2-PROV")]]);
      ("hits", JStr "2")].

(** A validator that refuses a listing without collections and a
    collection document without a license. *)
Definition validation_error : exn :=
  Error "data should have required property 'license'".

Definition picky_validator : Validator :=
  mkValidator
    (fun d => match cr_collections d with
              | [] => Throw validation_error
              | _ :: _ => Ok tt
              end)
    (fun d => if obj_has "license" d then Ok tt else Throw validation_error)
    (fun _ => Ok tt)
    (fun _ => Ok tt).

(* ================================================================== *)
(** ** Properties *)
(* ================================================================== *)

(** *** The handler monad *)

Lemma bind_ret_l {A B} (a : A) (k : A -> M B) (log : list call) :
  bind (ret a) k log = k a log.
Proof. reflexivity. Qed.

Lemma bind_ret_r {A} (m : M A) (log : list call) :
  bind m ret log = m log.
Proof. unfold bind, ret. destruct (m log) as [[a|e] l]; reflexivity. Qed.

Lemma bind_assoc {A B C} (m : M A) (k : A -> M B) (h : B -> M C)
    (log : list call) :
  bind (bind m k) h log = bind m (fun a => bind (k a) h) log.
Proof. unfold bind. destruct (m log) as [[a|e] l]; reflexivity. Qed.

Lemma bind_throw {A B} (e : exn) (k : A -> M B) (log : list call) :
  bind (throw e) k log = (Throw e, log).
Proof. reflexivity. Qed.

(** A call to the Catalog Service is logged whether it returns or throws. *)
Lemma cmr_call_log {A} (c : call) (r : result A) (log : list call) :
  snd (cmr_call c r log) = (log ++ [c])%list.
Proof. reflexivity. Qed.

(** Unfold the monad and the logged calls, in the goal or in [H]. *)
Ltac unfold_M :=
  unfold try_catch, bind, lift, ret, throw, call_convertParams,
    call_findCollections, call_findGranules, call_stacIdToCmrCollectionId,
    call_stacCollectionToCmrParams, call_getGranuleTemporalFacets, cmr_call.

Ltac unfold_M_in H :=
  unfold try_catch, bind, lift, ret, throw, call_convertParams,
    call_findCollections, call_findGranules, call_stacIdToCmrCollectionId,
    call_stacCollectionToCmrParams, call_getGranuleTemporalFacets, cmr_call
    in H.

(** *** Objects *)

Lemma obj_set_set (k : string) (v v' : jsval) (o : jsobj) :
  obj_set k v (obj_set k v' o) = obj_set k v o.
Proof.
  induction o as [|[k' w] r IH]; simpl.
  - rewrite String.eqb_refl. reflexivity.
  - destruct (k' =? k)%string eqn:E; simpl.
    + rewrite String.eqb_refl. reflexivity.
    + rewrite E, IH. reflexivity.
Qed.

Lemma obj_get_set_same (k : string) (v : jsval) (o : jsobj) :
  obj_get k (obj_set k v o) = v.
Proof.
  induction o as [|[k' w] r IH]; simpl.
  - rewrite String.eqb_refl. reflexivity.
  - destruct (k' =? k)%string eqn:E; simpl.
    + rewrite String.eqb_refl. reflexivity.
    + rewrite E. exact IH.
Qed.

Lemma obj_has_delete (k : string) (o : jsobj) :
  obj_has k (obj_delete k o) = false.
Proof.
  induction o as [|[k' w] r IH]; simpl; auto.
  destruct (k' =? k)%string eqn:E; simpl; auto.
  rewrite E. exact IH.
Qed.

Lemma obj_has_delete_other (k k' : string) (o : jsobj) :
  obj_has k o = false -> obj_has k (obj_delete k' o) = false.
Proof.
  induction o as [|[k0 w] r IH]; simpl; auto.
  destruct (k0 =? k)%string eqn:E; [discriminate|].
  intros H. destruct (k0 =? k')%string; simpl; auto.
  rewrite E. auto.
Qed.

Lemma obj_get_delete_other (k k' : string) (o : jsobj) :
  k <> k' -> obj_get k (obj_delete k' o) = obj_get k o.
Proof.
  intros N. induction o as [|[k0 w] r IH]; simpl; auto.
  destruct (k0 =? k')%string eqn:E'; simpl.
  - apply String.eqb_eq in E'. subst k0.
    destruct (k' =? k)%string eqn:E; auto.
    apply String.eqb_eq in E. congruence.
  - destruct (k0 =? k)%string; auto.
Qed.

Lemma usp_has_new (k : string) (o : jsobj) :
  usp_has k (URLSearchParams_new o) = obj_has k o.
Proof.
  unfold usp_has, URLSearchParams_new.
  induction o as [|[k' w] r IH]; simpl; auto.
  destruct (k' =? k)%string; simpl; auto.
Qed.

Lemma usp_has_app (k : string) (p q : list (string * string)) :
  usp_has k (p ++ q) = usp_has k p || usp_has k q.
Proof. unfold usp_has. apply existsb_app. Qed.

(** *** The paging loop *)

Lemma push_ids_app (cs : list jsobj) (all : list jsval) :
  push_ids cs all = (all ++ map (obj_get "id") cs)%list.
Proof.
  unfold push_ids. revert all.
  induction cs as [|c cs IH]; intros all; simpl.
  - rewrite app_nil_r. reflexivity.
  - rewrite IH, <- app_assoc. reflexivity.
Qed.

Lemma Zseq_length (i : Z) (n : nat) : List.length (Zseq i n) = n.
Proof. revert i. induction n; intros; simpl; auto. Qed.

Lemma cloud_query_page (providerId : string) (cids : jsval) (i : Z) :
  obj_get "page_size" (cloud_query providerId cids i) = JNum 2000
  /\ obj_get "page_num" (cloud_query providerId cids i) = JNum i
  /\ obj_get "tag_key" (cloud_query providerId cids i)
     = JStr "gov.nasa.earthdatacloud.s3"
  /\ obj_get "provider_short_name" (cloud_query providerId cids i)
     = JStr providerId.
Proof.
  unfold cloud_query, cloud_params.
  destruct (truthy cids); repeat split; reflexivity.
Qed.

Section Paging.

Variable cmr : Cmr.

Lemma cloud_pages_step (fuel : nat) (i : Z) (params : jsobj)
    (all : list jsval) (log : list call) (p : list jsobj) :
  i < 10000 ->
  findCollections cmr (obj_set "page_num" (JNum i) params) = Ok p ->
  cloud_pages cmr (S fuel) i params all log
  = if Z.of_nat (List.length p) <? 2000
    then (Ok (push_ids p all),
          (log ++ [CallFindCollections (obj_set "page_num" (JNum i) params)])%list)
    else cloud_pages cmr fuel (i + 1) (obj_set "page_num" (JNum i) params)
           (push_ids p all)
           (log ++ [CallFindCollections (obj_set "page_num" (JNum i) params)])%list.
Proof.
  intros Hi Hp. simpl.
  apply Z.ltb_lt in Hi. rewrite Hi.
  unfold bind, call_findCollections, cmr_call. rewrite Hp.
  destruct (Z.of_nat (List.length p) <? 2000); reflexivity.
Qed.

Lemma cloud_pages_done (fuel : nat) (params : jsobj) (all : list jsval)
    (log : list call) :
  cloud_pages cmr fuel 10000 params all log = (Ok all, log).
Proof. destruct fuel; reflexivity. Qed.

(** The loop, started at page [i] with enough fuel, fetches [pages] and
    returns their ids after those it was given. *)
Lemma cloud_pages_run (pages : list (list jsobj)) :
  forall (fuel : nat) (i : Z) (params : jsobj) (all : list jsval)
         (log : list call),
    (List.length pages <= fuel)%nat ->
    1 <= i ->
    pages_served cmr params i pages ->
    stops_at i pages ->
    cloud_pages cmr fuel i params all log
    = (Ok (all ++ page_ids pages)%list,
       (log ++ map (fun j => CallFindCollections
                               (obj_set "page_num" (JNum j) params))
                 (Zseq i (List.length pages)))%list)
      /\ i + Z.of_nat (List.length pages) <= 10000.
Proof.
  induction pages as [|p rest IH]; intros fuel i params all log Hf Hi Hs Hst.
  - destruct Hst.
  - destruct fuel as [|fuel]; [simpl in Hf; lia|].
    destruct Hs as [Hp Hrest].
    assert (Hlt : i < 10000).
    { simpl in Hst. destruct rest; lia. }
    rewrite (cloud_pages_step fuel i params all log p Hlt Hp).
    destruct rest as [|q rest'].
    + simpl in Hst. unfold page_ids. simpl. rewrite app_nil_r.
      rewrite push_ids_app.
      destruct (Z.of_nat (List.length p) <? 2000) eqn:E.
      * split; [reflexivity | lia].
      * apply Z.ltb_ge in E.
        destruct Hst as [_ [Hst|Hst]]; [lia|]. subst i.
        change (9999 + 1) with 10000.
        rewrite cloud_pages_done. split; [reflexivity | lia].
    + destruct Hst as (Hfull & Hi9 & Hst).
      assert (E : (Z.of_nat (List.length p) <? 2000) = false)
        by (apply Z.ltb_ge; lia).
      rewrite E.
      assert (Hserved : pages_served cmr
                          (obj_set "page_num" (JNum i) params) (i + 1)
                          (q :: rest')).
      { clear - Hrest. revert Hrest. generalize (i + 1). generalize (q :: rest').
        induction l as [|x l IHl]; intros z H; simpl in *; auto.
        destruct H as [H1 H2]. rewrite obj_set_set. split; auto. }
      destruct (IH fuel (i + 1) (obj_set "page_num" (JNum i) params)
                  (push_ids p all)
                  (log ++ [CallFindCollections
                             (obj_set "page_num" (JNum i) params)])%list)
        as [Hrun Hbound]; auto.
      * simpl in Hf |- *. lia.
      * lia.
      * rewrite Hrun. split.
        -- rewrite push_ids_app. unfold page_ids.
           change (List.length (p :: q :: rest'))
             with (S (List.length (q :: rest'))).
           cbn [Zseq map List.concat].
           rewrite <- !app_assoc. cbn [app].
           f_equal. f_equal. f_equal.
           apply map_ext. intros j. rewrite obj_set_set. reflexivity.
        -- change (List.length (p :: q :: rest'))
             with (S (List.length (q :: rest'))). lia.
Qed.

End Paging.

(** *** The resolver as a whole *)

Lemma stops_at_bound (pages : list (list jsobj)) :
  forall i, stops_at i pages -> i + Z.of_nat (List.length pages) <= 10000.
Proof.
  induction pages as [|p rest IH]; intros i H; [destruct H|].
  destruct rest as [|q rest'].
  - simpl in *. lia.
  - destruct H as (_ & _ & H). apply IH in H.
    change (List.length (p :: q :: rest')) with (S (List.length (q :: rest'))).
    lia.
Qed.

(** Pages that are all full, the last of them page 9999, stop the loop. *)
Lemma stops_at_full (pages : list (list jsobj)) :
  forall i,
    i <= 9999 ->
    Forall (fun p => 2000 <= Z.of_nat (List.length p)) pages ->
    i + Z.of_nat (List.length pages) = 10000 ->
    stops_at i pages.
Proof.
  induction pages as [|p rest IH]; intros i Hne Hall Hlen;
    [simpl in Hlen; lia|].
  inversion Hall as [|? ? Hp Hrest]; subst.
  destruct rest as [|q rest'].
  - simpl in *. lia.
  - change (List.length (p :: q :: rest'))
      with (S (List.length (q :: rest'))) in Hlen.
    assert (Hl : List.length (q :: rest') = S (List.length rest'))
      by reflexivity.
    split; [exact Hp|]. split; [lia|].
    apply IH; [lia | exact Hrest | lia].
Qed.

Lemma page_ids_length_full (pages : list (list jsobj)) :
  Forall (fun p => 2000 <= Z.of_nat (List.length p)) pages ->
  2000 * Z.of_nat (List.length pages) <= Z.of_nat (List.length (page_ids pages)).
Proof.
  unfold page_ids.
  induction 1 as [|p rest Hp Hrest IH]; simpl; [lia|].
  rewrite length_app, length_map. lia.
Qed.

Lemma pages_served_const (cmr : Cmr) (p : list jsobj) (params : jsobj) :
  (forall o, findCollections cmr o = Ok p) ->
  forall n i, pages_served cmr params i (repeat p n).
Proof.
  intros H. induction n as [|n IH]; intros i; simpl; auto.
Qed.

(** [findCloudCollections] on a service that answers [pages]. *)
Lemma findCloudCollections_run (cmr : Cmr) (providerId : string)
    (cids : jsval) (pages : list (list jsobj)) (log : list call) :
  pages_served cmr (cloud_params providerId cids) 1 pages ->
  stops_at 1 pages ->
  findCloudCollections cmr providerId cids log
  = (Ok (page_ids pages),
     (log ++ map (fun j => CallFindCollections (cloud_query providerId cids j))
               (Zseq 1 (List.length pages)))%list).
Proof.
  intros Hs Hst. unfold findCloudCollections.
  pose proof (stops_at_bound pages 1 Hst) as Hb.
  destruct (cloud_pages_run cmr pages (Z.to_nat 10000) 1
              (cloud_params providerId cids) [] log) as [Hrun _]; auto.
  - lia.
  - lia.
Qed.

(** A service that answers every page up to page 9999 gives pages on
    which the loop stops. *)
Lemma pages_exist (cmr : Cmr) (params : jsobj) :
  (forall j, 1 <= j <= 9999 ->
     exists p, findCollections cmr (obj_set "page_num" (JNum j) params) = Ok p) ->
  forall (n : nat) (i : Z),
    1 <= i -> i + Z.of_nat n = 9999 ->
    exists pages, pages_served cmr params i pages /\ stops_at i pages.
Proof.
  intros H. induction n as [|n IH]; intros i Hi Hn.
  - destruct (H i) as [p Hp]; [lia|].
    exists [p]. simpl. repeat split; auto; lia.
  - destruct (H i) as [p Hp]; [lia|].
    destruct (Z.of_nat (List.length p) <? 2000) eqn:E.
    + apply Z.ltb_lt in E. exists [p]. simpl. repeat split; auto; lia.
    + apply Z.ltb_ge in E.
      destruct (IH (i + 1)) as (pages & Hs & Hst); [lia | lia |].
      exists (p :: pages). split; [simpl; auto|].
      destruct pages as [|q rest]; [destruct Hst|].
      split; [exact E|]. split; [lia | exact Hst].
Qed.

(** [findCloudCollections] returns whenever the service answers: the loop
    never runs out of iterations before it stops by itself. *)
Lemma findCloudCollections_returns (cmr : Cmr) (providerId : string)
    (cids : jsval) (log : list call) :
  (forall j, 1 <= j <= 9999 ->
     exists p, findCollections cmr (cloud_query providerId cids j) = Ok p) ->
  exists pages,
    pages_served cmr (cloud_params providerId cids) 1 pages
    /\ stops_at 1 pages
    /\ fst (findCloudCollections cmr providerId cids log) = Ok (page_ids pages).
Proof.
  intros H.
  destruct (pages_exist cmr (cloud_params providerId cids) H (Z.to_nat 9998) 1)
    as (pages & Hs & Hst); [lia | lia |].
  exists pages. split; [exact Hs|]. split; [exact Hst|].
  rewrite (findCloudCollections_run cmr providerId cids pages log Hs Hst).
  reflexivity.
Qed.

(** C1. [findCloudCollections] asks for the pages 1, 2, ... of 2000 records
    one after the other, stops with the first page of fewer than 2000
    records, or with page 9999, and returns the ids of all the records it
    received, in the order the service gave them. *)
Theorem findCloudCollections_pages (cmr : Cmr) (providerId : string)
    (cids : jsval) (pages : list (list jsobj)) (log : list call) :
  pages_served cmr (cloud_params providerId cids) 1 pages ->
  stops_at 1 pages ->
  findCloudCollections cmr providerId cids log
  = (Ok (page_ids pages),
     (log ++ map (fun j => CallFindCollections (cloud_query providerId cids j))
               (Zseq 1 (List.length pages)))%list)
  /\ 1 <= Z.of_nat (List.length pages) <= 9999
  /\ forall j, obj_get "page_size" (cloud_query providerId cids j) = JNum 2000
               /\ obj_get "page_num" (cloud_query providerId cids j) = JNum j.
Proof.
  intros Hs Hst. split; [|split].
  - apply findCloudCollections_run; assumption.
  - pose proof (stops_at_bound pages 1 Hst).
    destruct pages; [destruct Hst|]. simpl List.length in *. lia.
  - intros j. destruct (cloud_query_page providerId cids j) as (H1 & H2 & _).
    split; assumption.
Qed.

(** The service of 2000, 2000 and 500 records: 4500 ids after the three
    fetches of pages 1, 2 and 3. *)
Lemma findCloudCollections_pages_witness :
  let cmr := stub_cmr paged_findCollections (fun c => c) in
  let pages := [stub_page 0 2000; stub_page 2000 2000; stub_page 4000 500] in
  pages_served cmr (cloud_params "PROV" JUndefined) 1 pages
  /\ stops_at 1 pages
  /\ findCloudCollections cmr "PROV" JUndefined []
     = (Ok (page_ids pages),
        [CallFindCollections (cloud_query "PROV" JUndefined 1);
         CallFindCollections (cloud_query "PROV" JUndefined 2);
         CallFindCollections (cloud_query "PROV" JUndefined 3)])
  /\ List.length (page_ids pages) = 4500%nat.
Proof.
  intros cmr pages.
  assert (Hs : pages_served cmr (cloud_params "PROV" JUndefined) 1 pages)
    by (repeat split).
  assert (Hst : stops_at 1 pages)
    by (unfold pages; cbn [stops_at]; unfold stub_page;
        rewrite !length_map, !length_seq; lia).
  split; [exact Hs|]. split; [exact Hst|]. split.
  - exact (proj1 (findCloudCollections_pages cmr "PROV" JUndefined pages []
                    Hs Hst)).
  - vm_compute. reflexivity.
Defined.

Lemma page_ids_length_repeat (p : list jsobj) (n : nat) :
  List.length (page_ids (repeat p n)) = (n * List.length p)%nat.
Proof.
  unfold page_ids. induction n as [|n IH]; simpl; auto.
  rewrite length_app, length_map, IH. reflexivity.
Qed.

(** C4, as the code has it.  When every one of the pages 1 to 9999 holds
    2000 records or more, [findCloudCollections] stops after page 9999 and
    returns the ids of those pages as its result; nothing is thrown. *)
Theorem findCloudCollections_cap (cmr : Cmr) (providerId : string)
    (cids : jsval) (pages : list (list jsobj)) (log : list call) :
  pages_served cmr (cloud_params providerId cids) 1 pages ->
  Z.of_nat (List.length pages) = 9999 ->
  Forall (fun p => 2000 <= Z.of_nat (List.length p)) pages ->
  findCloudCollections cmr providerId cids log
  = (Ok (page_ids pages),
     (log ++ map (fun j => CallFindCollections (cloud_query providerId cids j))
               (Zseq 1 (List.length pages)))%list)
  /\ 19998000 <= Z.of_nat (List.length (page_ids pages)).
Proof.
  intros Hs Hlen Hfull. split.
  - apply findCloudCollections_run; [exact Hs|].
    apply stops_at_full; [lia | exact Hfull | lia].
  - pose proof (page_ids_length_full pages Hfull). lia.
Qed.

Lemma findCloudCollections_cap_witness :
  let cmr := stub_cmr endless_findCollections (fun c => c) in
  let pages := repeat full_page (Z.to_nat 9999) in
  pages_served cmr (cloud_params "PROV" JUndefined) 1 pages
  /\ Z.of_nat (List.length pages) = 9999
  /\ Forall (fun p => 2000 <= Z.of_nat (List.length p)) pages
  /\ fst (findCloudCollections cmr "PROV" JUndefined []) = Ok (page_ids pages)
  /\ 19998000 <= Z.of_nat (List.length (page_ids pages)).
Proof.
  intros cmr pages.
  assert (Hs : pages_served cmr (cloud_params "PROV" JUndefined) 1 pages)
    by (apply pages_served_const; reflexivity).
  assert (Hlen : Z.of_nat (List.length pages) = 9999)
    by (unfold pages; rewrite repeat_length; lia).
  assert (Hfull : Forall (fun p => 2000 <= Z.of_nat (List.length p)) pages).
  { apply Forall_forall. intros p Hp. apply repeat_spec in Hp. subst p.
    unfold full_page. rewrite repeat_length. lia. }
  destruct (findCloudCollections_cap cmr "PROV" JUndefined pages []
              Hs Hlen Hfull) as [Hrun Hbig].
  refine (conj Hs (conj Hlen (conj Hfull (conj _ Hbig)))).
  exact (f_equal fst Hrun).
Defined.

(** Against C4 as it is stated: a service that answers each of the 9999
    pages with 2000 records makes the loop reach its cap, and
    [findCloudCollections] returns 19,998,000 ids as an ordinary result. *)
Lemma findCloudCollections_cap_counterexample :
  exists ids : list jsval,
    fst (findCloudCollections (stub_cmr endless_findCollections (fun c => c))
           "PROV" JUndefined [])
    = Ok ids
    /\ Z.of_nat (List.length ids) = 19998000
    /\ List.length
         (snd (findCloudCollections
                 (stub_cmr endless_findCollections (fun c => c))
                 "PROV" JUndefined []))
       = Z.to_nat 9999.
Proof.
  exists (page_ids (repeat full_page (Z.to_nat 9999))).
  rewrite (findCloudCollections_run
             (stub_cmr endless_findCollections (fun c => c)) "PROV" JUndefined
             (repeat full_page (Z.to_nat 9999)) []).
  - cbn [fst snd app]. split; [reflexivity|]. split.
    + rewrite page_ids_length_repeat. unfold full_page.
      rewrite repeat_length. lia.
    + rewrite length_map, Zseq_length, repeat_length. reflexivity.
  - apply pages_served_const. reflexivity.
  - apply stops_at_full.
    + lia.
    + apply Forall_forall. intros p Hp. apply repeat_spec in Hp. subst p.
      unfold full_page. rewrite repeat_length. lia.
    + rewrite repeat_length. lia.
Qed.

(** *** The links of the collections listing *)

Lemma has_link_app (r : string) (a b : list jsval) :
  has_link r (a ++ b) = has_link r a || has_link r b.
Proof. unfold has_link. apply existsb_app. Qed.


Section CollectionsListing.

Variable cmr : Cmr.
Variable util : Util.
Variable convert : Convert.
Variable validator : Validator.
Variable settings : Settings.

(** A document [getCollections] sends has the status 200; its links are
    [self] and [root], then [prev] when the page is after the first, then
    [next] when the collections are as many as the page size. *)
Lemma getCollections_links (request : Request) (log log' : list call)
    (status : Z) (doc : CollectionsResponse) :
  getCollections cmr util convert validator settings request log
  = (Ok (Json status doc), log') ->
  let nav := generateNavLinks util (event request) in
  exists (selfHref selfTitle rootHref rootTitle : string),
    status = 200
    /\ cr_links doc
       = ([createLink util "self" selfHref selfTitle;
           createLink util "root" rootHref rootTitle]
          ++ (if currPage nav >? 1 then [prev_link nav] else [])
          ++ (if length_strict_eq (List.length (cr_collections doc))
                   (pageSize_of settings request)
              then [next_link nav] else []))%list.
Proof.
  intros H nav.
  unfold getCollections in H. unfold_M_in H.
  destruct (convertParams cmr (providerId request) (query request))
    as [cmrParams|e]; [|discriminate].
  destruct (cloudstac settings);
    match type of H with
    | context [findCollections cmr ?q] =>
        destruct (findCollections cmr q) as [collections|e];
          [|discriminate]
    end;
    match type of H with
    | context [assertValid_collections validator ?d] =>
        destruct (assertValid_collections validator d) eqn:Hv;
          [|discriminate]
    end;
    injection H as Hst Hdoc Hlog; subst doc; subst nav;
    do 4 eexists; (split; [symmetry; exact Hst|]); clear Hv Hlog;
    cbn [cr_links List.length];
    change (Z.of_nat 2 >? 1) with true; rewrite andb_true_r;
    destruct (currPage (generateNavLinks util (event request)) >? 1);
    cbn [cr_links cr_collections cr_push_link];
    destruct (length_strict_eq _ _) eqn:E;
    cbn [cr_links cr_collections cr_push_link app];
    rewrite E; reflexivity.
Qed.

End CollectionsListing.

Section CollectionsLinks.

Variable cmr : Cmr.
Variable util : Util.
Variable convert : Convert.
Variable validator : Validator.
Variable settings : Settings.

(** A link made by [wfs.createLink] has the [rel] it was made with. *)
Hypothesis createLink_rel :
  forall rel href title : string,
    link_rel (createLink util rel href title) = JStr rel.

Lemma getCollections_rels (request : Request) (log log' : list call)
    (status : Z) (doc : CollectionsResponse) :
  getCollections cmr util convert validator settings request log
  = (Ok (Json status doc), log') ->
  map link_rel (cr_links doc)
  = ([JStr "self"; JStr "root"]
     ++ (if currPage (generateNavLinks util (event request)) >? 1
         then [JStr "prev"] else [])
     ++ (if length_strict_eq (List.length (cr_collections doc))
              (pageSize_of settings request)
         then [JStr "next"] else []))%list.
Proof.
  intros H. apply getCollections_links in H.
  destruct H as (sh & st & rh & rt & _ & Hl). rewrite Hl.
  rewrite !map_app. cbn [map app]. rewrite !createLink_rel.
  destruct (currPage _ >? 1); destruct (length_strict_eq _ _); reflexivity.
Qed.

Lemma has_link_rels (r : string) (ls : list jsval) :
  has_link r ls
  = existsb (fun v => match v with
                      | JStr s => (s =? r)%string
                      | _ => false
                      end) (map link_rel ls).
Proof.
  unfold has_link, rel_is. induction ls as [|l ls IH]; simpl; auto.
  rewrite IH. reflexivity.
Qed.

(** C2, as the code has it.  In a collections listing the [prev] link is
    there exactly when the page number is greater than 1: the links
    [self] and [root], always there, satisfy the test on the number of
    links.  The links are [self] and [root], then [prev] for a page after
    the first, then [next] for a full page. *)
Theorem getCollections_prev (request : Request) (log log' : list call)
    (status : Z) (doc : CollectionsResponse) :
  getCollections cmr util convert validator settings request log
  = (Ok (Json status doc), log') ->
  (has_link "prev" (cr_links doc) = true
   <-> 1 < currPage (generateNavLinks util (event request)))
  /\ map link_rel (cr_links doc)
     = ([JStr "self"; JStr "root"]
        ++ (if currPage (generateNavLinks util (event request)) >? 1
            then [JStr "prev"] else [])
        ++ (if length_strict_eq (List.length (cr_collections doc))
                 (pageSize_of settings request)
            then [JStr "next"] else []))%list.
Proof.
  intros H. pose proof (getCollections_rels _ _ _ _ _ H) as Hr.
  split; [|exact Hr].
  rewrite has_link_rels, Hr.
  destruct (currPage _ >? 1) eqn:E; destruct (length_strict_eq _ _);
    cbn; (split; [intros Ht | intros Hlt]);
    try discriminate; try reflexivity;
    try (apply Z.gtb_lt in E; lia).
  all: rewrite Z.gtb_ltb in E; apply Z.ltb_ge in E; lia.
Qed.


End CollectionsLinks.

Lemma stub_createLink_rel (page : Z) (rel href title : string) :
  link_rel (createLink (stub_util page) rel href title) = JStr rel.
Proof. reflexivity. Qed.

(** Page 2 with 3 collections and a page size of 10: [self], [root] and
    [prev]. *)
Lemma getCollections_prev_witness :
  let request := collections_request [("limit", JStr "10")] in
  let cmr := stub_cmr (count_findCollections 3) (fun c => c) in
  exists (doc : CollectionsResponse) (log' : list call),
    getCollections cmr (stub_util 2) stub_convert stub_validator
      (stub_settings "/stac") request []
    = (Ok (Json 200 doc), log')
    /\ List.length (cr_collections doc) = 3%nat
    /\ pageSize_of (stub_settings "/stac") request = NInt 10
    /\ (has_link "prev" (cr_links doc) = true <-> 1 < 2)
    /\ map link_rel (cr_links doc) = [JStr "self"; JStr "root"; JStr "prev"].
Proof.
  intros request cmr.
  destruct (getCollections cmr (stub_util 2) stub_convert stub_validator
              (stub_settings "/stac") request [])
    as [[[status doc | status msg] | e] log'] eqn:Hrun;
    try (vm_compute in Hrun; discriminate Hrun).
  exists doc, log'.
  pose proof (getCollections_prev cmr (stub_util 2) stub_convert
                stub_validator (stub_settings "/stac")
                (stub_createLink_rel 2) request [] log' status doc Hrun)
    as [Hprev Hrels].
  assert (Hlen : List.length (cr_collections doc) = 3%nat).
  { vm_compute in Hrun. injection Hrun as Hs Hd Hl. subst doc. reflexivity. }
  assert (Hst : status = 200).
  { vm_compute in Hrun. injection Hrun as Hs Hd Hl. symmetry. exact Hs. }
  subst status.
  split; [reflexivity|]. split; [exact Hlen|]. split; [reflexivity|].
  split; [exact Hprev|].
  rewrite Hrels, Hlen. reflexivity.
Defined.

(** Against C2 as it is stated: page 2 of a listing without any
    collection.  No link other than [self] and [root] is there, and the
    [prev] link is added all the same. *)
Lemma getCollections_prev_counterexample :
  exists (doc : CollectionsResponse) (log' : list call),
    getCollections (stub_cmr (count_findCollections 0) (fun c => c))
      (stub_util 2) stub_convert stub_validator (stub_settings "/stac")
      (collections_request []) []
    = (Ok (Json 200 doc), log')
    /\ cr_collections doc = []
    /\ map link_rel (cr_links doc) = [JStr "self"; JStr "root"; JStr "prev"].
Proof.
  eexists. eexists. split; [vm_compute; reflexivity|].
  split; reflexivity.
Qed.


(** *** Errors of the items and collection handlers *)

Lemma obj_has_delete_neq (k k' : string) (o : jsobj) :
  k <> k' -> obj_has k (obj_delete k' o) = obj_has k o.
Proof.
  intros N. induction o as [|[k0 w] r IH]; simpl; auto.
  destruct (k0 =? k')%string eqn:E'; simpl.
  - apply String.eqb_eq in E'. subst k0.
    destruct (k' =? k)%string eqn:E; auto.
    apply String.eqb_eq in E. congruence.
  - destruct (k0 =? k)%string; auto.
Qed.

Lemma collections_not_fields : "collections" <> "fields".
Proof. discriminate. Qed.

Section ItemsErrors.

Variable cmr : Cmr.
Variable util : Util.
Variable convert : Convert.
Variable stacExtension : StacExtension.
Variable validator : Validator.
Variable settings : Settings.

(** C5, as the code has it.  A request for the items of the collection of
    its path that also brings a [collections] parameter of a truthy value
    (the test of the code is [if (params.collections)]) is answered with a
    client error and a message; the only call made to the Catalog Service
    is the lookup of the collection of the path: nothing is translated and
    no search is made.  The status is 404 whenever that lookup returns. *)
Theorem getItems_both_scopes (request : Request) (prepared : jsobj)
    (log : list call) :
  truthy (collectionId request) = true ->
  extractParams stacExtension request = Ok prepared ->
  truthy (obj_get "collections" prepared) = true ->
  exists (status : Z) (msg : string),
    getItems cmr convert stacExtension validator settings request log
    = (Ok (JsonMsg status msg),
       (log ++ [CallStacIdToCmrCollectionId (providerId request)
                  (collectionId request)])%list)
    /\ 400 <= status < 500
    /\ (forall v : jsval,
          stacIdToCmrCollectionId cmr (providerId request)
            (collectionId request) = Ok v ->
          status = 404)
    /\ (forall v : jsval,
          stacIdToCmrCollectionId cmr (providerId request)
            (collectionId request) = Ok v ->
          truthy v = true ->
          msg = "Can not have collections param when there is collectionId ["
                  ++ toString (collectionId request) ++ "] specified.").
Proof.
  intros Hc Hext Hp.
  unfold getItems. unfold_M.
  rewrite Hext, Hc.
  rewrite (obj_get_delete_other _ _ prepared collections_not_fields), Hp.
  destruct (stacIdToCmrCollectionId cmr (providerId request)
              (collectionId request)) as [v|e].
  - destruct (truthy v) eqn:Hv; cbn [negb];
      do 2 eexists; (split; [reflexivity|]); (split; [lia|]);
      (split; [reflexivity|]); intros w Hw Ht; injection Hw as <-;
      congruence.
  - destruct (exn_invalidSort e);
      do 2 eexists; (split; [reflexivity|]); (split; [lia|]);
      split; intros; discriminate.
Qed.

(** C6. A collection for which the Catalog Service finds no record, in
    [getCollection], or no concept id, in [getItems], is answered with the
    status 404 and the message that names the collection and the provider;
    no document is sent. *)
Theorem collection_not_found (request : Request) (log : list call) :
  (forall cmrParams : jsobj,
     stacCollectionToCmrParams cmr (providerId request) (collectionId request)
     = Ok cmrParams ->
     findCollections cmr cmrParams = Ok [] ->
     getCollection cmr util convert validator settings request log
     = (Ok (JsonMsg 404
              ("Collection [" ++ toString (collectionId request)
                 ++ "] not found for provider [" ++ providerId request ++ "]")),
        (log ++ [CallStacCollectionToCmrParams (providerId request)
                   (collectionId request);
                 CallFindCollections cmrParams])%list))
  /\ (forall (prepared : jsobj) (v : jsval),
        truthy (collectionId request) = true ->
        extractParams stacExtension request = Ok prepared ->
        stacIdToCmrCollectionId cmr (providerId request)
          (collectionId request) = Ok v ->
        truthy v = false ->
        getItems cmr convert stacExtension validator settings request log
        = (Ok (JsonMsg 404
                 ("Collection [" ++ toString (collectionId request)
                    ++ "] not found for provider [" ++ providerId request
                    ++ "]")),
           (log ++ [CallStacIdToCmrCollectionId (providerId request)
                      (collectionId request)])%list)).
Proof.
  split.
  - intros cmrParams Hp Hf.
    unfold getCollection. unfold_M.
    rewrite Hp, Hf. rewrite <- app_assoc. reflexivity.
  - intros prepared v Hc Hext Hv Ht.
    unfold getItems. unfold_M.
    rewrite Hext, Hc, Hv, Ht. reflexivity.
Qed.

End ItemsErrors.

(** The items of the collection [C1.v1] of the path, asked for together
    with [collections=C2.v1]. *)
Lemma getItems_both_scopes_witness :
  let request := items_request (JStr "C1.v1") [("collections", JStr "C2.v1")] in
  let cmr := stub_cmr (count_findCollections 0) (fun c => c) in
  truthy (collectionId request) = true
  /\ extractParams stub_stacExtension request
     = Ok [("collections", JStr "C2.v1")]
  /\ getItems cmr stub_convert stub_stacExtension stub_validator
       (stub_settings "/stac") request []
     = (Ok (JsonMsg 404
              "Can not have collections param when there is collectionId [C1.v1] specified."),
        [CallStacIdToCmrCollectionId "PROV" (JStr "C1.v1")]).
Proof.
  intros request cmr.
  destruct (getItems_both_scopes cmr stub_convert stub_stacExtension
              stub_validator (stub_settings "/stac") request
              [("collections", JStr "C2.v1")] []
              eq_refl eq_refl eq_refl)
    as (status & msg & Hrun & _ & Hst & Hmsg).
  rewrite (Hst (JStr "C1.v1") eq_refl) in Hrun.
  rewrite (Hmsg (JStr "C1.v1") eq_refl eq_refl) in Hrun.
  split; [reflexivity|]. split; [reflexivity|]. exact Hrun.
Defined.

(** Against C5 as it is stated: the items of the collection [C1.v1] of the
    path, asked for with an empty [collections] parameter
    ([?collections=]).  The parameter is there and is not truthy: it is
    overwritten with the collection of the path, the parameters are
    translated, the granules are searched and the reply has the status
    200. *)
Lemma getItems_both_scopes_counterexample :
  let request := items_request (JStr "C1.v1") [("collections", JStr "")] in
  let cmr := stub_cmr (count_findCollections 0) (fun _ => JStr "C1-PROV") in
  truthy (collectionId request) = true
  /\ extractParams stub_stacExtension request = Ok [("collections", JStr "")]
  /\ obj_has "collections" [("collections", JStr "")] = true
  /\ getItems cmr stub_convert stub_stacExtension stub_validator
       (stub_settings "/stac") request []
     = (Ok (Json 200 (JObj [("type", JStr "FeatureCollection");
                            ("features", JArr [])])),
        [CallStacIdToCmrCollectionId "PROV" (JStr "C1.v1");
         CallConvertParams "PROV" [("collections", JArr [JStr "C1.v1"])];
         CallFindGranules
           (QueryObject [("collection_concept_id", JArr [JStr "C1.v1"])])]).
Proof.
  intros request cmr. repeat split.
Qed.

(** The collection [C9.v1], which the service does not know. *)
Lemma collection_not_found_witness :
  let request := items_request (JStr "C9.v1") [] in
  let cmr := stub_cmr (count_findCollections 0) (fun _ => JUndefined) in
  getCollection cmr (stub_util 1) stub_convert stub_validator
    (stub_settings "/stac") request []
  = (Ok (JsonMsg 404 "Collection [C9.v1] not found for provider [PROV]"),
     [CallStacCollectionToCmrParams "PROV" (JStr "C9.v1");
      CallFindCollections [("short_name", JStr "C9.v1")]])
  /\ getItems cmr stub_convert stub_stacExtension stub_validator
       (stub_settings "/stac") request []
     = (Ok (JsonMsg 404 "Collection [C9.v1] not found for provider [PROV]"),
        [CallStacIdToCmrCollectionId "PROV" (JStr "C9.v1")]).
Proof.
  intros request cmr.
  destruct (collection_not_found cmr (stub_util 1) stub_convert
              stub_stacExtension stub_validator (stub_settings "/stac")
              request []) as [Hcoll Hitems].
  split.
  - exact (Hcoll [("short_name", JStr "C9.v1")] eq_refl eq_refl).
  - exact (Hitems [] JUndefined eq_refl eq_refl eq_refl eq_refl).
Defined.

(** *** The granule search of the cloud-only mode *)

Lemma fold_usp_append (k : string) (ids : list jsval)
    (p : list (string * string)) :
  fold_left (fun p id => usp_append k id p) ids p
  = (p ++ map (fun id => (k, toString id)) ids)%list.
Proof.
  revert p. induction ids as [|id ids IH]; intros p; simpl.
  - rewrite app_nil_r. reflexivity.
  - rewrite IH. unfold usp_append. rewrite <- app_assoc. reflexivity.
Qed.

Lemma usp_has_concept_pairs (v : jsval) :
  usp_has "collection_concept_id" (concept_pairs v) = false.
Proof.
  destruct v; try reflexivity. unfold usp_has. simpl.
  induction l; simpl; auto.
Qed.

(** Without resolved collections the search parameters name no
    [collection_concept_id]. *)
Lemma cloud_post_no_collection (cmrParams : jsobj) :
  usp_has "collection_concept_id" (cloud_post cmrParams []) = false.
Proof.
  unfold cloud_post. rewrite !usp_has_app, usp_has_new.
  rewrite obj_has_delete_other by apply obj_has_delete.
  rewrite usp_has_concept_pairs. reflexivity.
Qed.

Section CloudSearch.

Variable cmr : Cmr.
Variable convert : Convert.
Variable stacExtension : StacExtension.
Variable validator : Validator.
Variable settings : Settings.

Lemma cloud_search_run (providerId : string) (cmrParams : jsobj)
    (pages : list (list jsobj)) (log : list call) :
  pages_served cmr
    (cloud_params providerId (obj_get "collection_concept_id" cmrParams))
    1 pages ->
  stops_at 1 pages ->
  forEach_ok (obj_get "concept_id" cmrParams) = true ->
  cloud_search cmr providerId cmrParams log
  = (findGranules cmr
       (QuerySearchParams (cloud_post cmrParams (page_ids pages))),
     (log
      ++ map (fun j =>
                CallFindCollections
                  (cloud_query providerId
                     (obj_get "collection_concept_id" cmrParams) j))
           (Zseq 1 (List.length pages))
      ++ [CallFindGranules
            (QuerySearchParams (cloud_post cmrParams (page_ids pages)))])%list).
Proof.
  intros Hs Hst Hok.
  unfold cloud_search, bind.
  rewrite (findCloudCollections_run cmr providerId _ pages log Hs Hst).
  assert (Hpost :
    (if negb (Z.of_nat (List.length (page_ids pages)) =? 0)
     then fold_left (fun p id => usp_append "collection_concept_id" id p)
            (page_ids pages)
            (URLSearchParams_new
               (obj_delete "concept_id"
                  (obj_delete "collection_concept_id" cmrParams)))
     else URLSearchParams_new
            (obj_delete "concept_id"
               (obj_delete "collection_concept_id" cmrParams)))
    = (URLSearchParams_new
         (obj_delete "concept_id"
            (obj_delete "collection_concept_id" cmrParams))
       ++ map (fun id => ("collection_concept_id", toString id))
            (page_ids pages))%list).
  { destruct (page_ids pages) as [|x xs].
    - simpl. rewrite app_nil_r. reflexivity.
    - assert (E : (Z.of_nat (List.length (x :: xs)) =? 0) = false)
        by (apply Z.eqb_neq; simpl List.length; lia).
      rewrite E. apply fold_usp_append. }
  rewrite Hpost. clear Hpost.
  unfold cloud_post, call_findGranules, cmr_call, ret, throw.
  destruct (obj_get "concept_id" cmrParams) as [| |b|z|s|ids|o];
    simpl in Hok; cbn [truthy concept_pairs];
    try rewrite Hok; try (rewrite negb_true_iff in Hok; rewrite Hok);
    try discriminate Hok;
    rewrite ?fold_usp_append, ?app_nil_r, <- ?app_assoc; reflexivity.
Qed.

End CloudSearch.

Lemma snd_try_catch {A} (m : M A) (h : exn -> M A) (log : list call) :
  (forall e l, snd (h e l) = l) ->
  snd (try_catch m h log) = snd (m log).
Proof.
  intros Hh. unfold try_catch.
  destruct (m log) as [[a|e] l]; simpl; auto.
Qed.

Section CloudItems.

Variable cmr : Cmr.
Variable convert : Convert.
Variable stacExtension : StacExtension.
Variable validator : Validator.
Variable settings : Settings.

(** The calls of the cloud-only search, after those of [log]. *)
Lemma search_items_cloud_log (request : Request) (fields : jsval)
    (params cmrParams : jsobj) (pages : list (list jsobj))
    (log : list call) :
  cloudstac settings = true ->
  convertParams cmr (providerId request) params = Ok cmrParams ->
  (obj_has "collections" params && obj_has "collection_concept_id" cmrParams)
  || negb (obj_has "collections" params) = true ->
  pages_served cmr
    (cloud_params (providerId request)
       (obj_get "collection_concept_id" cmrParams)) 1 pages ->
  stops_at 1 pages ->
  forEach_ok (obj_get "concept_id" cmrParams) = true ->
  snd (search_items cmr convert stacExtension validator settings request
         fields params log)
  = (log
     ++ [CallConvertParams (providerId request) params]
     ++ map (fun j =>
               CallFindCollections
                 (cloud_query (providerId request)
                    (obj_get "collection_concept_id" cmrParams) j))
          (Zseq 1 (List.length pages))
     ++ [CallFindGranules
           (QuerySearchParams (cloud_post cmrParams (page_ids pages)))])%list.
Proof.
  intros Hcloud Hconv Hcond Hs Hst Hok.
  unfold search_items, bind, call_convertParams, cmr_call.
  rewrite Hconv, Hcond, Hcloud.
  rewrite (cloud_search_run cmr (providerId request) cmrParams pages _
             Hs Hst Hok).
  rewrite <- !app_assoc.
  destruct (findGranules cmr _) as [granulesResult|e]; [|reflexivity].
  unfold lift, ret.
  destruct (cmrGranulesToStac convert _ _ _ _) as [fc|e]; [|reflexivity].
  destruct (assertValid_items validator fc) as [u|e]; [|reflexivity].
  destruct (format stacExtension _ _ _ _) as [formatted|e]; reflexivity.
Qed.

Lemma getItems_cloud_log (request : Request) (prepared cmrParams : jsobj)
    (pages : list (list jsobj)) (log : list call) :
  cloudstac settings = true ->
  extractParams stacExtension request = Ok prepared ->
  scope_resolved cmr request prepared ->
  convertParams cmr (providerId request) (items_params request prepared)
  = Ok cmrParams ->
  (obj_has "collections" (items_params request prepared)
   && obj_has "collection_concept_id" cmrParams)
  || negb (obj_has "collections" (items_params request prepared)) = true ->
  pages_served cmr
    (cloud_params (providerId request)
       (obj_get "collection_concept_id" cmrParams)) 1 pages ->
  stops_at 1 pages ->
  forEach_ok (obj_get "concept_id" cmrParams) = true ->
  snd (getItems cmr convert stacExtension validator settings request log)
  = (log
     ++ lookup_calls request
     ++ [CallConvertParams (providerId request)
           (items_params request prepared)]
     ++ map (fun j =>
               CallFindCollections
                 (cloud_query (providerId request)
                    (obj_get "collection_concept_id" cmrParams) j))
          (Zseq 1 (List.length pages))
     ++ [CallFindGranules
           (QuerySearchParams (cloud_post cmrParams (page_ids pages)))])%list.
Proof.
  intros Hcloud Hext Hscope Hconv Hcond Hs Hst Hok.
  unfold getItems, bind, lift. rewrite Hext.
  rewrite snd_try_catch
    by (intros e l; destruct (exn_invalidSort e); reflexivity).
  unfold items_params, lookup_calls in *.
  destruct Hscope as [Hc | (Hc & Hp & v & Hv & Ht)]; rewrite Hc in *.
  - rewrite (search_items_cloud_log request _ _ cmrParams pages log);
      auto.
  - unfold bind, call_stacIdToCmrCollectionId, cmr_call.
    rewrite Hv, Ht. cbn [negb].
    rewrite (obj_get_delete_other _ _ prepared collections_not_fields), Hp.
    rewrite (search_items_cloud_log request _ _ cmrParams pages _); auto.
    rewrite <- !app_assoc. reflexivity.
Qed.

(** C7. In the cloud-only mode, for a request that names no collection,
    neither in its path nor in a [collections] parameter, and for which no
    cloud-holding collection is found, [getItems] translates the
    parameters, asks for the first page of cloud-holding collections and
    then makes the granule search; the search parameters name no
    [collection_concept_id]. *)
Theorem getItems_cloud_unrequested (request : Request)
    (prepared cmrParams : jsobj) (log : list call) :
  cloudstac settings = true ->
  truthy (collectionId request) = false ->
  extractParams stacExtension request = Ok prepared ->
  obj_has "collections" prepared = false ->
  convertParams cmr (providerId request) (obj_delete "fields" prepared)
  = Ok cmrParams ->
  findCollections cmr
    (cloud_query (providerId request)
       (obj_get "collection_concept_id" cmrParams) 1) = Ok [] ->
  forEach_ok (obj_get "concept_id" cmrParams) = true ->
  snd (getItems cmr convert stacExtension validator settings request log)
  = (log
     ++ [CallConvertParams (providerId request)
           (obj_delete "fields" prepared);
         CallFindCollections
           (cloud_query (providerId request)
              (obj_get "collection_concept_id" cmrParams) 1);
         CallFindGranules (QuerySearchParams (cloud_post cmrParams []))])%list
  /\ usp_has "collection_concept_id" (cloud_post cmrParams []) = false.
Proof.
  intros Hcloud Hc Hext Hno Hconv Hpage Hok.
  split; [|apply cloud_post_no_collection].
  assert (Hparams : items_params request prepared
                    = obj_delete "fields" prepared)
    by (unfold items_params; rewrite Hc; reflexivity).
  rewrite (getItems_cloud_log request prepared cmrParams [[]] log); auto.
  - unfold lookup_calls. rewrite Hc, Hparams. reflexivity.
  - left. exact Hc.
  - rewrite Hparams. exact Hconv.
  - rewrite Hparams.
    rewrite (obj_has_delete_neq _ _ prepared collections_not_fields), Hno.
    reflexivity.
  - split; [exact Hpage | exact I].
  - simpl. lia.
Qed.

(** C10. In the cloud-only mode, when the translated query holds
    [collection_concept_id] values, these are taken out of the query and
    given to the resolver; the granule search is then made with the ids the
    resolver returns as its only [collection_concept_id] values.  When the
    resolver returns none, the search is made all the same and names no
    [collection_concept_id]: it is not restricted to the collections asked
    for. *)
Theorem getItems_cloud_no_holding (request : Request)
    (prepared cmrParams : jsobj) (pages : list (list jsobj))
    (log : list call) :
  cloudstac settings = true ->
  extractParams stacExtension request = Ok prepared ->
  scope_resolved cmr request prepared ->
  convertParams cmr (providerId request) (items_params request prepared)
  = Ok cmrParams ->
  obj_has "collection_concept_id" cmrParams = true ->
  pages_served cmr
    (cloud_params (providerId request)
       (obj_get "collection_concept_id" cmrParams)) 1 pages ->
  stops_at 1 pages ->
  forEach_ok (obj_get "concept_id" cmrParams) = true ->
  snd (getItems cmr convert stacExtension validator settings request log)
  = (log
     ++ lookup_calls request
     ++ [CallConvertParams (providerId request)
           (items_params request prepared)]
     ++ map (fun j =>
               CallFindCollections
                 (cloud_query (providerId request)
                    (obj_get "collection_concept_id" cmrParams) j))
          (Zseq 1 (List.length pages))
     ++ [CallFindGranules
           (QuerySearchParams (cloud_post cmrParams (page_ids pages)))])%list
  /\ usp_has "collection_concept_id"
       (URLSearchParams_new
          (obj_delete "concept_id"
             (obj_delete "collection_concept_id" cmrParams))) = false
  /\ (page_ids pages = [] ->
      usp_has "collection_concept_id" (cloud_post cmrParams (page_ids pages))
      = false)
  /\ (page_ids pages <> [] ->
      usp_has "collection_concept_id" (cloud_post cmrParams (page_ids pages))
      = true).
Proof.
  intros Hcloud Hext Hscope Hconv Hvalid Hs Hst Hok.
  split; [|split; [|split]].
  - apply getItems_cloud_log; auto.
    rewrite Hvalid.
    destruct (obj_has "collections" (items_params request prepared));
      reflexivity.
  - rewrite usp_has_new.
    apply obj_has_delete_other, obj_has_delete.
  - intros ->. apply cloud_post_no_collection.
  - intros Hne. unfold cloud_post. rewrite !usp_has_app.
    destruct (page_ids pages) as [|x xs]; [congruence|].
    cbn. rewrite orb_true_r. reflexivity.
Qed.

End CloudItems.

(** A search over the provider [PROV], which has no cloud-holding
    collection, with a bounding box only. *)
Lemma getItems_cloud_unrequested_witness :
  let request := items_request JUndefined [("bbox", JStr "-10,-10,10,10")] in
  let cmr := stub_cmr (count_findCollections 0) (fun c => c) in
  let params : jsobj := [("bbox", JStr "-10,-10,10,10")] in
  obj_has "collections" params = false
  /\ findCollections cmr (cloud_query "PROV" JUndefined 1) = Ok []
  /\ snd (getItems cmr stub_convert stub_stacExtension stub_validator
            (stub_settings "/cloudstac") request [])
     = [CallConvertParams "PROV" params;
        CallFindCollections (cloud_query "PROV" JUndefined 1);
        CallFindGranules (QuerySearchParams [("bbox", "-10,-10,10,10")])]
  /\ usp_has "collection_concept_id" [("bbox", "-10,-10,10,10")] = false.
Proof.
  intros request cmr params.
  split; [reflexivity|]. split; [reflexivity|].
  exact (getItems_cloud_unrequested cmr stub_convert stub_stacExtension
           stub_validator (stub_settings "/cloudstac") request params params
           [] eq_refl eq_refl eq_refl eq_refl eq_refl eq_refl eq_refl).
Defined.

(** A search for the collection [C1-PROV], which is not cloud-holding: the
    granule search is made without any [collection_concept_id]. *)
Lemma getItems_cloud_no_holding_witness :
  let request :=
    items_request JUndefined [("collections", JArr [JStr "C1-PROV"])] in
  let cmr := stub_cmr (count_findCollections 0) (fun c => c) in
  let cmrParams : jsobj := [("collection_concept_id", JArr [JStr "C1-PROV"])] in
  convertParams cmr "PROV" (query request) = Ok cmrParams
  /\ obj_get "concept_id"
       (cloud_query "PROV" (JArr [JStr "C1-PROV"]) 1)
     = JArr [JStr "C1-PROV"]
  /\ findCollections cmr (cloud_query "PROV" (JArr [JStr "C1-PROV"]) 1)
     = Ok []
  /\ snd (getItems cmr stub_convert stub_stacExtension stub_validator
            (stub_settings "/cloudstac") request [])
     = [CallConvertParams "PROV" (query request);
        CallFindCollections (cloud_query "PROV" (JArr [JStr "C1-PROV"]) 1);
        CallFindGranules (QuerySearchParams [])].
Proof.
  intros request cmr cmrParams.
  assert (Hst : stops_at 1 [[]]) by (simpl; lia).
  split; [reflexivity|]. split; [reflexivity|]. split; [reflexivity|].
  exact (proj1 (getItems_cloud_no_holding cmr stub_convert stub_stacExtension
                  stub_validator (stub_settings "/cloudstac") request
                  (query request) cmrParams [[]] []
                  eq_refl eq_refl (or_introl eq_refl) eq_refl eq_refl
                  (conj eq_refl I) Hst eq_refl)).
Defined.

(** *** Strings *)

Example split_char_date :
  split_char slash "2001/05/07" = ["2001"; "05"; "07"].
Proof. reflexivity. Qed.

Example split_char_trailing : split_char slash "2001/" = ["2001"; ""].
Proof. reflexivity. Qed.

Example split_char_empty : split_char slash "" = [""].
Proof. reflexivity. Qed.

Example strip_prefix_stac :
  strip_prefix "/stac" "/stac/PROV/collections/C1.v1/2001"
  = "/PROV/collections/C1.v1/2001".
Proof. reflexivity. Qed.

Example strip_prefix_other : strip_prefix "/cloudstac" "/stac/PROV" = "/stac/PROV".
Proof. reflexivity. Qed.

Example lastIndexOf_path : lastIndexOf slash "/a/bc" = 2.
Proof. reflexivity. Qed.

Example lastIndexOf_none : lastIndexOf slash "abc" = -1.
Proof. reflexivity. Qed.

Example slice0_negative : slice0 "abc" (-1) = "ab".
Proof. reflexivity. Qed.

Example toString_array :
  toString (JArr [JStr "C1"; JNull; JNum 12; JArr [JStr "a"; JStr "b"]])
  = "C1,,12,a,b".
Proof. reflexivity. Qed.

Example fromEntries_browse :
  fromEntries
    (template_entries ["year"; "month"; "day"] ["2001"; "05"])
  = [("year", JStr "2001"); ("month", JStr "05")].
Proof. reflexivity. Qed.

Lemma no_char_lastIndexOf (c : ascii) (s : string) :
  forall i, no_char c s = true -> lastIndexOf_from c s i = -1.
Proof.
  induction s as [|a r IH]; intros i H; simpl in *; auto.
  apply andb_true_iff in H. destruct H as [Ha Hr].
  rewrite (IH (i + 1) Hr). simpl.
  apply negb_true_iff in Ha. rewrite Ha. reflexivity.
Qed.

Lemma lastIndexOf_from_app (c : ascii) (a b : string) :
  forall i,
    0 <= i ->
    no_char c b = true ->
    lastIndexOf_from c (a ++ String c b) i = i + Z.of_nat (String.length a).
Proof.
  induction a as [|x a IH]; intros i Hi Hb.
  - simpl. rewrite (no_char_lastIndexOf c b (i + 1) Hb). simpl.
    rewrite Ascii.eqb_refl. lia.
  - cbn [append lastIndexOf_from String.length].
    rewrite (IH (i + 1)) by (auto; lia).
    assert (E : (0 <=? i + 1 + Z.of_nat (String.length a)) = true)
      by (apply Z.leb_le; lia).
    rewrite E. lia.
Qed.

Lemma substring_0_app (a r : string) :
  substring 0 (String.length a) (a ++ r) = a.
Proof.
  induction a as [|x a IH]; simpl.
  - destruct r; reflexivity.
  - rewrite IH. reflexivity.
Qed.

Lemma length_append (a b : string) :
  String.length (a ++ b) = (String.length a + String.length b)%nat.
Proof. induction a; simpl; auto. Qed.

(** Cutting a string at its last [/] leaves what is before the last
    segment. *)
Lemma slice0_lastIndexOf (a b : string) :
  no_char slash b = true ->
  slice0 (a ++ "/" ++ b) (lastIndexOf slash (a ++ "/" ++ b)) = a.
Proof.
  intros Hb. unfold lastIndexOf, slice0.
  change ("/" ++ b) with (String slash b).
  rewrite (lastIndexOf_from_app slash a b 0) by (auto; lia).
  rewrite length_append. cbn [String.length].
  assert (E : (0 + Z.of_nat (String.length a) <? 0) = false)
    by (apply Z.ltb_ge; lia).
  rewrite E.
  replace (Z.to_nat (Z.min (0 + Z.of_nat (String.length a))
                       (Z.of_nat (String.length a + S (String.length b)))))
    with (String.length a) by lia.
  apply substring_0_app.
Qed.

Lemma split_char_no (c : ascii) (s : string) :
  no_char c s = true -> split_char c s = [s].
Proof.
  induction s as [|a r IH]; intros H; simpl in *; auto.
  apply andb_true_iff in H. destruct H as [Ha Hr].
  apply negb_true_iff in Ha. rewrite Ha, (IH Hr). reflexivity.
Qed.

Lemma split_char_app (c : ascii) (a b : string) :
  no_char c a = true ->
  split_char c (a ++ String c b) = a :: split_char c b.
Proof.
  induction a as [|x a IH]; intros H; simpl in *.
  - rewrite Ascii.eqb_refl. reflexivity.
  - apply andb_true_iff in H. destruct H as [Hx Ha].
    apply negb_true_iff in Hx. rewrite Hx, (IH Ha). reflexivity.
Qed.

Lemma truthy_segment (s : string) : segment s -> truthy (JStr s) = true.
Proof.
  intros [Hne _]. simpl. apply negb_true_iff.
  apply String.eqb_neq. exact Hne.
Qed.

(** *** The browse catalog *)

Lemma links_of_app (r : string) (a b : list jsval) :
  links_of r (a ++ b) = (links_of r a ++ links_of r b)%list.
Proof. unfold links_of. apply filter_app. Qed.

Lemma links_of_other (r r' : string) (ls : list jsval) :
  r <> r' ->
  Forall (fun l => link_rel l = JStr r') ls ->
  links_of r ls = [].
Proof.
  intros N H. unfold links_of, rel_is.
  induction H as [|l ls Hl _ IH]; simpl; auto.
  rewrite Hl.
  destruct (r' =? r)%string eqn:E; [|exact IH].
  apply String.eqb_eq in E. congruence.
Qed.

Section BrowseCatalog.

Variable cmr : Cmr.
Variable util : Util.
Variable settings : Settings.
Variable urls : CatalogUrls.

(** The links [addChild] appends for the elements of [l]. *)
Lemma fold_addChild (title relpath : jsval -> string) (l : list jsval) :
  forall cat : Catalog,
    exists extra : list jsval,
      cat_links (fold_left (fun c x => addChild urls (title x) (relpath x) c)
                   l cat)
      = (cat_links cat ++ extra)%list
      /\ map link_kind extra
         = map (fun x => (JStr "child", JStr (title x))) l.
Proof.
  induction l as [|x l IH]; intros cat; simpl.
  - exists []. rewrite app_nil_r. split; reflexivity.
  - destruct (IH (addChild urls (title x) (relpath x) cat))
      as (extra & Hl & Hk).
    exists (mkLink "child" (child_href urls cat (relpath x)) (Some (title x))
              :: extra).
    split.
    + rewrite Hl. unfold addChild, cat_push. cbn [cat_links].
      rewrite <- app_assoc. reflexivity.
    + cbn [map]. rewrite Hk. reflexivity.
Qed.

(** The links [addItem] appends for the ids of [l]. *)
Lemma fold_addItem (providerId : string) (collectionId : jsval)
    (l : list jsval) :
  forall cat : Catalog,
    exists extra : list jsval,
      cat_links (fold_left
                   (fun c id => addItem urls id providerId collectionId id c)
                   l cat)
      = (cat_links cat ++ extra)%list
      /\ map link_kind extra
         = map (fun id => (JStr "item", JStr (toString id))) l.
Proof.
  induction l as [|x l IH]; intros cat; simpl.
  - exists []. rewrite app_nil_r. split; reflexivity.
  - destruct (IH (addItem urls x providerId collectionId x cat))
      as (extra & Hl & Hk).
    exists (mkLink "item" (item_href urls cat providerId collectionId x)
              (Some (toString x)) :: extra).
    split.
    + rewrite Hl. unfold addItem, cat_push. cbn [cat_links].
      rewrite <- app_assoc. reflexivity.
    + cbn [map]. rewrite Hk. reflexivity.
Qed.

Lemma kinds_rel (r : string) (extra : list jsval) (l : list jsval)
    (title : jsval -> string) :
  map link_kind extra = map (fun x => (JStr r, JStr (title x))) l ->
  Forall (fun k => link_rel k = JStr r) extra.
Proof.
  revert l. induction extra as [|k extra IH]; intros l H; [constructor|].
  destruct l as [|x l]; [discriminate|].
  cbn [map] in H. unfold link_kind at 1 in H.
  injection H as Hk Htitle Hrest.
  constructor; [exact Hk | exact (IH l Hrest)].
Qed.

(** The links [browse_links] adds are all [child] links or all [item]
    links. *)
Lemma browse_links_extra (request : Request) (year month day : jsval)
    (facets : Facets) (cat : Catalog) :
  exists extra : list jsval,
    cat_links (browse_links urls request year month day facets cat)
    = (cat_links cat ++ extra)%list
    /\ (Forall (fun k => link_rel k = JStr "child") extra
        \/ Forall (fun k => link_rel k = JStr "item") extra).
Proof.
  unfold browse_links.
  destruct (truthy day); [|destruct (truthy month); [|destruct (truthy year)]].
  - destruct (fold_addItem (providerId request) (collectionId request)
                (itemids facets) cat) as (extra & Hl & Hk).
    exists extra. split; [exact Hl|]. right.
    exact (kinds_rel "item" extra _ _ Hk).
  - destruct (fold_addChild
                (fun d => toString year ++ "-" ++ toString month ++ "-"
                            ++ toString d ++ " catalog")
                (fun d => "/" ++ toString d) (days facets) cat)
      as (extra & Hl & Hk).
    exists extra. split; [exact Hl|]. left.
    exact (kinds_rel "child" extra _ _ Hk).
  - destruct (fold_addChild
                (fun m => toString year ++ "-" ++ toString m ++ " catalog")
                (fun m => "/" ++ toString m) (months facets) cat)
      as (extra & Hl & Hk).
    exists extra. split; [exact Hl|]. left.
    exact (kinds_rel "child" extra _ _ Hk).
  - exists []. rewrite app_nil_r. split; [reflexivity|]. left. constructor.
Qed.

(** What [getCatalog] answers when the collection is found and the calls
    to the Catalog Service return. *)
Lemma getCatalog_run (request : Request) (browse_path : string) (v : jsval)
    (cmrParams : jsobj) (facets : Facets) (log : list call) :
  let bp := browse_params browse_path request in
  BROWSE_PATH settings = Some browse_path ->
  stacIdToCmrCollectionId cmr (providerId request) (collectionId request)
  = Ok v ->
  truthy v = true ->
  stacCollectionToCmrParams cmr (providerId request) (collectionId request)
  = Ok cmrParams ->
  getGranuleTemporalFacets cmr cmrParams (obj_get "year" bp)
    (obj_get "month" bp) (obj_get "day" bp) = Ok facets ->
  getCatalog cmr util settings urls request log
  = (Ok (Json 200
           (browse_links urls request (obj_get "year" bp)
              (obj_get "month" bp) (obj_get "day" bp) facets
              (catalog_base util settings request))),
     (log ++ [CallStacIdToCmrCollectionId (providerId request)
                (collectionId request);
              CallStacCollectionToCmrParams (providerId request)
                (collectionId request);
              CallGetGranuleTemporalFacets cmrParams (obj_get "year" bp)
                (obj_get "month" bp) (obj_get "day" bp)])%list).
Proof.
  intros bp Hbp Hv Ht Hp Hf.
  unfold getCatalog. rewrite Hbp. unfold_M.
  rewrite Hv, Ht. cbn [negb].
  rewrite Hp. fold (browse_params browse_path request). fold bp.
  rewrite Hf. rewrite <- !app_assoc. reflexivity.
Qed.

(** A catalog [getCatalog] sends is the base catalog of the request with
    the links for some facets. *)
Lemma getCatalog_inv (request : Request) (log log' : list call)
    (status : Z) (cat : Catalog) :
  getCatalog cmr util settings urls request log
  = (Ok (Json status cat), log') ->
  status = 200
  /\ exists (year month day : jsval) (facets : Facets),
       cat = browse_links urls request year month day facets
               (catalog_base util settings request).
Proof.
  unfold getCatalog.
  destruct (BROWSE_PATH settings) as [browse_path|]; [|discriminate].
  unfold_M.
  destruct (stacIdToCmrCollectionId cmr _ _) as [v|e]; [|discriminate].
  destruct (truthy v); cbn [negb]; [|discriminate].
  destruct (stacCollectionToCmrParams cmr _ _) as [cmrParams|e];
    [|discriminate].
  destruct (getGranuleTemporalFacets cmr _ _ _ _) as [facets|e];
    [|discriminate].
  intros H. injection H as Hs Hc _. split; [symmetry; exact Hs|].
  do 4 eexists. symmetry. exact Hc.
Qed.

End BrowseCatalog.

Lemma browse_template : split_char slash "year/month/day"
                        = ["year"; "month"; "day"].
Proof. reflexivity. Qed.

Lemma browse_params_year (request : Request) (y : string) :
  segment y -> star request = y ->
  browse_params "year/month/day" request = [("year", JStr y)].
Proof.
  intros [_ Hy] Hs. unfold browse_params.
  rewrite Hs, (split_char_no slash y Hy). reflexivity.
Qed.

Lemma browse_params_month (request : Request) (y m : string) :
  segment y -> segment m -> star request = y ++ "/" ++ m ->
  browse_params "year/month/day" request
  = [("year", JStr y); ("month", JStr m)].
Proof.
  intros [_ Hy] [_ Hm] Hs. unfold browse_params. rewrite Hs.
  change ("/" ++ m) with (String slash m).
  rewrite (split_char_app slash y m Hy), (split_char_no slash m Hm).
  reflexivity.
Qed.

Lemma browse_params_day (request : Request) (y m d : string) :
  segment y -> segment m -> segment d ->
  star request = y ++ "/" ++ m ++ "/" ++ d ->
  browse_params "year/month/day" request
  = [("year", JStr y); ("month", JStr m); ("day", JStr d)].
Proof.
  intros [_ Hy] [_ Hm] [_ Hd] Hs. unfold browse_params. rewrite Hs.
  change ("/" ++ m ++ "/" ++ d) with (String slash (m ++ String slash d)).
  rewrite (split_char_app slash y _ Hy), (split_char_app slash m d Hm),
    (split_char_no slash d Hd).
  reflexivity.
Qed.

Section BrowseSegments.

Variable cmr : Cmr.
Variable util : Util.
Variable settings : Settings.
Variable urls : CatalogUrls.

Lemma getCatalog_served (request : Request) (browse_path : string)
    (cmrParams : jsobj) (year month day : jsval) (facets : Facets)
    (log : list call) :
  BROWSE_PATH settings = Some browse_path ->
  obj_get "year" (browse_params browse_path request) = year ->
  obj_get "month" (browse_params browse_path request) = month ->
  obj_get "day" (browse_params browse_path request) = day ->
  catalog_served cmr request cmrParams year month day facets ->
  getCatalog cmr util settings urls request log
  = (Ok (Json 200
           (browse_links urls request year month day facets
              (catalog_base util settings request))),
     (log ++ catalog_calls request cmrParams year month day)%list).
Proof.
  intros Hbp Hy Hm Hd ((v & Hv & Ht) & Hp & Hf). subst year month day.
  exact (getCatalog_run cmr util settings urls request browse_path v
           cmrParams facets log Hbp Hv Ht Hp Hf).
Qed.

(** C8. With the browse path [year/month/day], [getCatalog] reads the
    segments of the date by their position.  For a year it adds one
    [child] link for each month of the facets; for a year and a month, one
    [child] link for each day; for a year, a month and a day, one [item]
    link for each granule id, and no [child] link.  Nothing else comes
    after the links [root], [self] and [parent]. *)
Theorem getCatalog_date_segments :
  BROWSE_PATH settings = Some "year/month/day" ->
  (forall (request : Request) (y : string) (cmrParams : jsobj)
          (facets : Facets) (log : list call),
      segment y ->
      star request = y ->
      catalog_served cmr request cmrParams (JStr y) JUndefined JUndefined
        facets ->
      exists cat : Catalog,
        getCatalog cmr util settings urls request log
        = (Ok (Json 200 cat),
           (log ++ catalog_calls request cmrParams (JStr y) JUndefined
                     JUndefined)%list)
        /\ map link_kind (cat_links cat)
           = (base_kinds
              ++ map (fun m => (JStr "child",
                                JStr (y ++ "-" ++ toString m ++ " catalog")))
                   (months facets))%list)
  /\ (forall (request : Request) (y m : string) (cmrParams : jsobj)
             (facets : Facets) (log : list call),
         segment y -> segment m ->
         star request = y ++ "/" ++ m ->
         catalog_served cmr request cmrParams (JStr y) (JStr m) JUndefined
           facets ->
         exists cat : Catalog,
           getCatalog cmr util settings urls request log
           = (Ok (Json 200 cat),
              (log ++ catalog_calls request cmrParams (JStr y) (JStr m)
                        JUndefined)%list)
           /\ map link_kind (cat_links cat)
              = (base_kinds
                 ++ map (fun d => (JStr "child",
                                   JStr (y ++ "-" ++ m ++ "-" ++ toString d
                                           ++ " catalog")))
                      (days facets))%list)
  /\ (forall (request : Request) (y m d : string) (cmrParams : jsobj)
             (facets : Facets) (log : list call),
         segment y -> segment m -> segment d ->
         star request = y ++ "/" ++ m ++ "/" ++ d ->
         catalog_served cmr request cmrParams (JStr y) (JStr m) (JStr d)
           facets ->
         exists cat : Catalog,
           getCatalog cmr util settings urls request log
           = (Ok (Json 200 cat),
              (log ++ catalog_calls request cmrParams (JStr y) (JStr m)
                        (JStr d))%list)
           /\ map link_kind (cat_links cat)
              = (base_kinds
                 ++ map (fun id => (JStr "item", JStr (toString id)))
                      (itemids facets))%list).
Proof.
  intros Hbp. split; [|split].
  - intros request y cmrParams facets log Hy Hs Hserved.
    pose proof (browse_params_year request y Hy Hs) as Hparams.
    eexists. split.
    + apply (getCatalog_served request "year/month/day" cmrParams);
        try exact Hbp; try exact Hserved; rewrite Hparams; reflexivity.
    + unfold browse_links. change (truthy JUndefined) with false.
      rewrite (truthy_segment y Hy).
      destruct (fold_addChild urls
                  (fun m => toString (JStr y) ++ "-" ++ toString m
                              ++ " catalog")
                  (fun m => "/" ++ toString m) (months facets)
                  (catalog_base util settings request))
        as (extra & Hl & Hk).
      rewrite Hl, map_app, Hk. reflexivity.
  - intros request y m cmrParams facets log Hy Hm Hs Hserved.
    pose proof (browse_params_month request y m Hy Hm Hs) as Hparams.
    eexists. split.
    + apply (getCatalog_served request "year/month/day" cmrParams);
        try exact Hbp; try exact Hserved; rewrite Hparams; reflexivity.
    + unfold browse_links. change (truthy JUndefined) with false.
      rewrite (truthy_segment m Hm).
      destruct (fold_addChild urls
                  (fun d => toString (JStr y) ++ "-" ++ toString (JStr m)
                              ++ "-" ++ toString d ++ " catalog")
                  (fun d => "/" ++ toString d) (days facets)
                  (catalog_base util settings request))
        as (extra & Hl & Hk).
      rewrite Hl, map_app, Hk. reflexivity.
  - intros request y m d cmrParams facets log Hy Hm Hd Hs Hserved.
    pose proof (browse_params_day request y m d Hy Hm Hd Hs) as Hparams.
    eexists. split.
    + apply (getCatalog_served request "year/month/day" cmrParams);
        try exact Hbp; try exact Hserved; rewrite Hparams; reflexivity.
    + unfold browse_links. rewrite (truthy_segment d Hd).
      destruct (fold_addItem urls (providerId request)
                  (collectionId request) (itemids facets)
                  (catalog_base util settings request))
        as (extra & Hl & Hk).
      rewrite Hl, map_app, Hk. reflexivity.
Qed.

(** C9. A catalog [getCatalog] sends has one [self] link, one [root] link
    and one [parent] link; the address of the parent is the address of the
    catalog cut at its last [/], that is, without its last segment.  The
    links added for the facets are the only others, and they are all
    [child] links or all [item] links. *)
Theorem getCatalog_node_links (request : Request) (log log' : list call)
    (status : Z) (cat : Catalog) :
  getCatalog cmr util settings urls request log
  = (Ok (Json status cat), log') ->
  let selfUrl := catalog_selfUrl util settings request in
  links_of "self" (cat_links cat) = [mkLink "self" selfUrl None]
  /\ links_of "root" (cat_links cat)
     = [mkLink "root" (generateAppUrl util (event request) "") None]
  /\ links_of "parent" (cat_links cat)
     = [mkLink "parent" (slice0 selfUrl (lastIndexOf slash selfUrl)) None]
  /\ (forall a b : string,
        selfUrl = a ++ "/" ++ b ->
        no_char slash b = true ->
        links_of "parent" (cat_links cat) = [mkLink "parent" a None])
  /\ (links_of "child" (cat_links cat) = []
      \/ links_of "item" (cat_links cat) = []).
Proof.
  intros H selfUrl.
  apply getCatalog_inv in H.
  destruct H as (_ & year & month & day & facets & ->).
  destruct (browse_links_extra urls request year month day facets
              (catalog_base util settings request))
    as (extra & Hl & Hrel).
  rewrite Hl. rewrite !links_of_app.
  assert (Hself : links_of "self" extra = [])
    by (destruct Hrel as [Hr|Hr];
        [apply (links_of_other "self" "child") | apply (links_of_other "self" "item")];
        (discriminate || exact Hr)).
  assert (Hroot : links_of "root" extra = [])
    by (destruct Hrel as [Hr|Hr];
        [apply (links_of_other "root" "child") | apply (links_of_other "root" "item")];
        (discriminate || exact Hr)).
  assert (Hparent : links_of "parent" extra = [])
    by (destruct Hrel as [Hr|Hr];
        [apply (links_of_other "parent" "child") | apply (links_of_other "parent" "item")];
        (discriminate || exact Hr)).
  rewrite Hself, Hroot, Hparent, !app_nil_r.
  split; [reflexivity|]. split; [reflexivity|]. split; [reflexivity|].
  split.
  - intros a b Hab Hb.
    change (links_of "parent" (cat_links (catalog_base util settings request)))
      with [mkLink "parent" (slice0 selfUrl (lastIndexOf slash selfUrl)) None].
    rewrite Hab, (slice0_lastIndexOf a b Hb). reflexivity.
  - destruct Hrel as [Hr|Hr].
    + right. rewrite (links_of_other "item" "child" extra) by
        (discriminate || exact Hr).
      reflexivity.
    + left. rewrite (links_of_other "child" "item" extra) by
        (discriminate || exact Hr).
      reflexivity.
Qed.

End BrowseSegments.

Lemma browse_cmr_served (request : Request) (year month day : jsval) :
  catalog_served browse_cmr request [("short_name", collectionId request)]
    year month day browse_facets.
Proof.
  split; [|split; reflexivity].
  exists (JStr "C1-PROV"). split; reflexivity.
Qed.

(** The catalogs of the year 2001, of its month 05 and of the day 07 of
    that month: two months, three days, two granules. *)
Lemma getCatalog_date_segments_witness :
  let run := getCatalog browse_cmr (stub_util 1) (stub_settings "/stac")
               stub_urls in
  BROWSE_PATH (stub_settings "/stac") = Some "year/month/day"
  /\ (exists cat : Catalog,
        fst (run (catalog_request "2001") []) = Ok (Json 200 cat)
        /\ map link_kind (cat_links cat)
           = (base_kinds
              ++ [(JStr "child", JStr "2001-01 catalog");
                  (JStr "child", JStr "2001-02 catalog")])%list)
  /\ (exists cat : Catalog,
        fst (run (catalog_request "2001/05") []) = Ok (Json 200 cat)
        /\ map link_kind (cat_links cat)
           = (base_kinds
              ++ [(JStr "child", JStr "2001-05-05 catalog");
                  (JStr "child", JStr "2001-05-06 catalog");
                  (JStr "child", JStr "2001-05-07 catalog")])%list)
  /\ (exists cat : Catalog,
        fst (run (catalog_request "2001/05/07") []) = Ok (Json 200 cat)
        /\ map link_kind (cat_links cat)
           = (base_kinds
              ++ [(JStr "item", JStr "G1-PROV");
                  (JStr "item", JStr "G2-PROV")])%list).
Proof.
  intros run.
  assert (S2001 : segment "2001") by (split; [discriminate | reflexivity]).
  assert (S05 : segment "05") by (split; [discriminate | reflexivity]).
  assert (S07 : segment "07") by (split; [discriminate | reflexivity]).
  destruct (getCatalog_date_segments browse_cmr (stub_util 1)
              (stub_settings "/stac") stub_urls eq_refl)
    as (Hyear & Hmonth & Hday).
  split; [reflexivity|]. split; [|split].
  - destruct (Hyear (catalog_request "2001") "2001" _ browse_facets []
                S2001 eq_refl (browse_cmr_served _ _ _ _))
      as (cat & Hrun & Hk).
    exists cat. split; [exact (f_equal fst Hrun) | exact Hk].
  - destruct (Hmonth (catalog_request "2001/05") "2001" "05" _ browse_facets
                [] S2001 S05 eq_refl (browse_cmr_served _ _ _ _))
      as (cat & Hrun & Hk).
    exists cat. split; [exact (f_equal fst Hrun) | exact Hk].
  - destruct (Hday (catalog_request "2001/05/07") "2001" "05" "07" _
                browse_facets [] S2001 S05 S07 eq_refl
                (browse_cmr_served _ _ _ _))
      as (cat & Hrun & Hk).
    exists cat. split; [exact (f_equal fst Hrun) | exact Hk].
Defined.

(** The catalog of the month 2001/05: its parent is the catalog of the
    year 2001. *)
Lemma getCatalog_node_links_witness :
  exists (cat : Catalog) (log' : list call),
    getCatalog browse_cmr (stub_util 1) (stub_settings "/stac") stub_urls
      (catalog_request "2001/05") []
    = (Ok (Json 200 cat), log')
    /\ links_of "self" (cat_links cat)
       = [mkLink "self"
            "https://cmr.example/stac/PROV/collections/C1.v1/2001/05" None]
    /\ links_of "root" (cat_links cat)
       = [mkLink "root" "https://cmr.example/stac" None]
    /\ links_of "parent" (cat_links cat)
       = [mkLink "parent"
            "https://cmr.example/stac/PROV/collections/C1.v1/2001" None]
    /\ List.length (links_of "child" (cat_links cat)) = 3%nat
    /\ links_of "item" (cat_links cat) = [].
Proof.
  destruct (getCatalog browse_cmr (stub_util 1) (stub_settings "/stac")
              stub_urls (catalog_request "2001/05") [])
    as [[[status cat | status msg] | e] log'] eqn:Hrun;
    try (vm_compute in Hrun; discriminate Hrun).
  exists cat, log'.
  destruct (getCatalog_node_links browse_cmr (stub_util 1)
              (stub_settings "/stac") stub_urls (catalog_request "2001/05")
              [] log' status cat Hrun)
    as (Hself & Hroot & _ & Hparent & _).
  assert (Hcat : status = 200 /\ List.length (links_of "child" (cat_links cat)) = 3%nat
                 /\ links_of "item" (cat_links cat) = []).
  { vm_compute in Hrun. injection Hrun as Hs Hc Hl. subst status cat.
    repeat split. }
  destruct Hcat as (-> & Hchild & Hitem).
  split; [reflexivity|]. split; [exact Hself|]. split; [exact Hroot|].
  split; [|split; [exact Hchild | exact Hitem]].
  exact (Hparent "https://cmr.example/stac/PROV/collections/C1.v1/2001" "05"
           eq_refl eq_refl).
Defined.

(* ================================================================== *)
(** ** Further properties of the handlers *)
(* ================================================================== *)

(** *** Objects *)

Lemma obj_get_set_other (k k' : string) (v : jsval) (o : jsobj) :
  k <> k' -> obj_get k (obj_set k' v o) = obj_get k o.
Proof.
  intros N. induction o as [|[k0 w] r IH]; simpl.
  - destruct (k' =? k)%string eqn:E; auto.
    apply String.eqb_eq in E. congruence.
  - destruct (k0 =? k')%string eqn:E'; simpl.
    + apply String.eqb_eq in E'. subst k0.
      destruct (k' =? k)%string eqn:E; auto.
      apply String.eqb_eq in E. congruence.
    + destruct (k0 =? k)%string; auto.
Qed.

Lemma obj_has_set_other (k k' : string) (v : jsval) (o : jsobj) :
  k <> k' -> obj_has k (obj_set k' v o) = obj_has k o.
Proof.
  intros N. induction o as [|[k0 w] r IH]; simpl.
  - destruct (k' =? k)%string eqn:E; auto.
    apply String.eqb_eq in E. congruence.
  - destruct (k0 =? k')%string eqn:E'; simpl.
    + apply String.eqb_eq in E'. subst k0.
      destruct (k' =? k)%string; auto.
    + destruct (k0 =? k)%string; auto.
Qed.

Lemma obj_has_set_same (k : string) (v : jsval) (o : jsobj) :
  obj_has k (obj_set k v o) = true.
Proof.
  induction o as [|[k0 w] r IH]; simpl.
  - rewrite String.eqb_refl. reflexivity.
  - destruct (k0 =? k)%string eqn:E; simpl.
    + rewrite String.eqb_refl. reflexivity.
    + rewrite E. exact IH.
Qed.

Lemma obj_delete_set (k : string) (v : jsval) (o : jsobj) :
  obj_delete k (obj_set k v o) = obj_delete k o.
Proof.
  induction o as [|[k0 w] r IH]; simpl.
  - rewrite String.eqb_refl. reflexivity.
  - destruct (k0 =? k)%string eqn:E; simpl.
    + rewrite String.eqb_refl. reflexivity.
    + rewrite E, IH. reflexivity.
Qed.

(** *** The collections listing *)

Section ListingReplies.

Variable cmr : Cmr.
Variable util : Util.
Variable convert : Convert.
Variable validator : Validator.
Variable settings : Settings.

(** X1. [getCollections] never rejects: whatever the Catalog Service and
    the validator do, it sends a reply, with the status 200 or 400. *)
Theorem getCollections_always_replies (request : Request) (log : list call) :
  exists r : reply CollectionsResponse,
    fst (getCollections cmr util convert validator settings request log)
    = Ok r
    /\ (reply_status r = 200 \/ reply_status r = 400).
Proof.
  unfold getCollections. unfold_M.
  destruct (convertParams cmr (providerId request) (query request))
    as [cmrParams|e]; [|eexists; split; [reflexivity | right; reflexivity]].
  destruct (cloudstac settings);
    match goal with
    | |- context [findCollections cmr ?q] =>
        destruct (findCollections cmr q) as [collections|e]
    end;
    try (eexists; split; [reflexivity | right; reflexivity]);
    match goal with
    | |- context [assertValid_collections validator ?d] =>
        destruct (assertValid_collections validator d)
    end;
    eexists; (split; [reflexivity|]); cbn; auto.
Qed.

(** X2. An error thrown while the parameters are translated, while the
    collections are searched or while the document is validated is answered
    with the status 400 and the message of the error; after a failed
    translation the collections are not searched.  The document that is
    validated is the one that is sent when the validator accepts it. *)
Theorem getCollections_error (request : Request) (e : exn)
    (log : list call) :
  let run := getCollections cmr util convert validator settings request log in
  (convertParams cmr (providerId request) (query request) = Throw e ->
   run = (Ok (JsonMsg 400 (exn_message e)),
          (log ++ [CallConvertParams (providerId request) (query request)])%list))
  /\ (forall cmrParams : jsobj,
        convertParams cmr (providerId request) (query request) = Ok cmrParams ->
        findCollections cmr (collections_query settings cmrParams) = Throw e ->
        run = (Ok (JsonMsg 400 (exn_message e)),
               (log ++ [CallConvertParams (providerId request) (query request);
                        CallFindCollections
                          (collections_query settings cmrParams)])%list))
  /\ (forall (cmrParams : jsobj) (collections : list jsobj),
        convertParams cmr (providerId request) (query request) = Ok cmrParams ->
        findCollections cmr (collections_query settings cmrParams)
        = Ok collections ->
        assertValid_collections validator
          (collections_document util convert settings request collections)
        = Throw e ->
        run = (Ok (JsonMsg 400 (exn_message e)),
               (log ++ [CallConvertParams (providerId request) (query request);
                        CallFindCollections
                          (collections_query settings cmrParams)])%list))
  /\ (forall (cmrParams : jsobj) (collections : list jsobj),
        convertParams cmr (providerId request) (query request) = Ok cmrParams ->
        findCollections cmr (collections_query settings cmrParams)
        = Ok collections ->
        assertValid_collections validator
          (collections_document util convert settings request collections)
        = Ok tt ->
        run = (Ok (Json 200
                     (collections_document util convert settings request
                        collections)),
               (log ++ [CallConvertParams (providerId request) (query request);
                        CallFindCollections
                          (collections_query settings cmrParams)])%list)).
Proof.
  intros run. subst run.
  unfold getCollections, collections_query, collections_document,
    prev_link, next_link.
  unfold_M.
  split; [|split; [|split]].
  - intros ->. reflexivity.
  - intros cmrParams -> Hf.
    destruct (cloudstac settings); cbn [obj_assign fold_left fst snd] in *;
      fold cloud_tag; rewrite Hf; rewrite <- app_assoc; reflexivity.
  - intros cmrParams collections -> Hf Hv.
    destruct (cloudstac settings); cbn [obj_assign fold_left fst snd] in *;
      fold cloud_tag; rewrite Hf; cbv zeta in Hv |- *; rewrite Hv;
      rewrite <- app_assoc; reflexivity.
  - intros cmrParams collections -> Hf Hv.
    destruct (cloudstac settings); cbn [obj_assign fold_left fst snd] in *;
      fold cloud_tag; rewrite Hf; cbv zeta in Hv |- *; rewrite Hv;
      rewrite <- app_assoc; reflexivity.
Qed.

(** X3. When the parameters are translated, the second and last call of
    [getCollections] is the collection search.  In the cloud-only mode its
    query is the translated one with [tag_key] set to the tag of the
    cloud-holding collections, whatever [tag_key] was translated, and every
    other parameter unchanged; otherwise it is the translated query. *)
Theorem getCollections_query (request : Request) (cmrParams : jsobj)
    (log : list call) :
  convertParams cmr (providerId request) (query request) = Ok cmrParams ->
  snd (getCollections cmr util convert validator settings request log)
  = (log ++ [CallConvertParams (providerId request) (query request);
             CallFindCollections (collections_query settings cmrParams)])%list
  /\ (cloudstac settings = true ->
      obj_get "tag_key" (collections_query settings cmrParams) = cloud_tag
      /\ forall k : string,
           k <> "tag_key" ->
           obj_get k (collections_query settings cmrParams)
           = obj_get k cmrParams)
  /\ (cloudstac settings = false ->
      collections_query settings cmrParams = cmrParams).
Proof.
  intros Hc. split; [|split].
  - unfold getCollections, collections_query. unfold_M. rewrite Hc.
    destruct (cloudstac settings); cbn [obj_assign fold_left fst snd];
      fold cloud_tag;
      match goal with
      | |- context [findCollections cmr ?q] =>
          destruct (findCollections cmr q) as [collections|e]
      end;
      try (cbn [snd]; rewrite <- app_assoc; reflexivity);
      match goal with
      | |- context [assertValid_collections validator ?d] =>
          destruct (assertValid_collections validator d)
      end;
      cbn [snd]; rewrite <- app_assoc; reflexivity.
  - intros Hm. unfold collections_query. rewrite Hm. split.
    + apply obj_get_set_same.
    + intros k Hk. apply obj_get_set_other. exact Hk.
  - intros Hm. unfold collections_query. rewrite Hm. reflexivity.
Qed.

End ListingReplies.

(** A translation that fails, a collection search that fails, and a
    listing without collections that the validator refuses. *)
Lemma getCollections_error_witness :
  let failing_translation :=
    with_convertParams (fun _ _ => Throw upstream_error)
      (stub_cmr (count_findCollections 3) (fun c => c)) in
  let failing_search := stub_cmr failing_findCollections (fun c => c) in
  let empty_search := stub_cmr (count_findCollections 0) (fun c => c) in
  getCollections failing_translation (stub_util 1) stub_convert stub_validator
    (stub_settings "/stac") (collections_request []) []
  = (Ok (JsonMsg 400 "Request failed with status code 500"),
     [CallConvertParams "PROV" []])
  /\ getCollections failing_search (stub_util 1) stub_convert stub_validator
       (stub_settings "/cloudstac") (collections_request []) []
     = (Ok (JsonMsg 400 "Request failed with status code 500"),
        [CallConvertParams "PROV" [];
         CallFindCollections [("tag_key", cloud_tag)]])
  /\ getCollections empty_search (stub_util 1) stub_convert picky_validator
       (stub_settings "/stac") (collections_request []) []
     = (Ok (JsonMsg 400 "data should have required property 'license'"),
        [CallConvertParams "PROV" []; CallFindCollections []])
  /\ fst (getCollections (stub_cmr (count_findCollections 3) (fun c => c))
            (stub_util 1) stub_convert picky_validator
            (stub_settings "/stac") (collections_request []) [])
     = Ok (Json 200
             (collections_document (stub_util 1) stub_convert
                (stub_settings "/stac") (collections_request [])
                (stub_page 0 3))).
Proof.
  intros failing_translation failing_search empty_search.
  split; [|split; [|split]].
  - exact (proj1 (getCollections_error failing_translation (stub_util 1)
                    stub_convert stub_validator (stub_settings "/stac")
                    (collections_request []) upstream_error [])
             eq_refl).
  - exact (proj1 (proj2 (getCollections_error failing_search (stub_util 1)
                           stub_convert stub_validator
                           (stub_settings "/cloudstac")
                           (collections_request []) upstream_error []))
             [] eq_refl eq_refl).
  - exact (proj1 (proj2 (proj2 (getCollections_error empty_search
                                  (stub_util 1) stub_convert picky_validator
                                  (stub_settings "/stac")
                                  (collections_request []) validation_error
                                  [])))
             [] [] eq_refl eq_refl eq_refl).
  - exact (f_equal fst
             (proj2 (proj2 (proj2 (getCollections_error
                                     (stub_cmr (count_findCollections 3)
                                        (fun c => c))
                                     (stub_util 1) stub_convert
                                     picky_validator (stub_settings "/stac")
                                     (collections_request [])
                                     validation_error [])))
                [] (stub_page 0 3) eq_refl eq_refl eq_refl)).
Defined.

(** A translated query that already has a [tag_key]: in the cloud-only mode
    it is replaced, and the page size is kept. *)
Lemma getCollections_query_witness :
  let cmr :=
    with_convertParams
      (fun _ _ => Ok [("tag_key", JStr "other"); ("page_size", JStr "5")])
      (stub_cmr (count_findCollections 3) (fun c => c)) in
  snd (getCollections cmr (stub_util 1) stub_convert stub_validator
         (stub_settings "/cloudstac") (collections_request []) [])
  = [CallConvertParams "PROV" [];
     CallFindCollections [("tag_key", cloud_tag); ("page_size", JStr "5")]].
Proof.
  intros cmr.
  exact (proj1 (getCollections_query cmr (stub_util 1) stub_convert
                  stub_validator (stub_settings "/cloudstac")
                  (collections_request [])
                  [("tag_key", JStr "other"); ("page_size", JStr "5")] []
                  eq_refl)).
Defined.

Section ListingPageSize.

Variable cmr : Cmr.
Variable util : Util.
Variable convert : Convert.
Variable validator : Validator.
Variable settings : Settings.

Hypothesis createLink_rel :
  forall rel href title : string,
    link_rel (createLink util rel href title) = JStr rel.

(** X4. Without a [limit] in the query, or with an empty one, the page size
    is 10 whatever [Number] makes of strings: the listing has a [next] link
    exactly when it holds 10 collections. *)
Theorem getCollections_default_page_size (request : Request)
    (log log' : list call) (status : Z) (doc : CollectionsResponse) :
  truthy (obj_get "limit" (query request)) = false ->
  getCollections cmr util convert validator settings request log
  = (Ok (Json status doc), log') ->
  pageSize_of settings request = NInt 10
  /\ (has_link "next" (cr_links doc) = true
      <-> List.length (cr_collections doc) = 10%nat).
Proof.
  intros Hl H.
  assert (Hp : pageSize_of settings request = NInt 10)
    by (unfold pageSize_of; rewrite Hl; reflexivity).
  split; [exact Hp|].
  pose proof (getCollections_rels cmr util convert validator settings
                createLink_rel request log log' status doc H) as Hr.
  rewrite has_link_rels, Hr, Hp. cbn [length_strict_eq].
  destruct (currPage _ >? 1);
    destruct (Z.eqb_spec (Z.of_nat (List.length (cr_collections doc))) 10)
      as [E|E];
    cbn; split; intros Ht; try discriminate; try reflexivity; try lia.
Qed.

End ListingPageSize.

(** Ten collections and no [limit]. *)
Lemma getCollections_default_page_size_witness :
  let request := collections_request [("limit", JStr "")] in
  let cmr := stub_cmr (count_findCollections 10) (fun c => c) in
  exists (doc : CollectionsResponse) (log' : list call),
    getCollections cmr (stub_util 1) stub_convert stub_validator
      (stub_settings "/stac") request []
    = (Ok (Json 200 doc), log')
    /\ List.length (cr_collections doc) = 10%nat
    /\ has_link "next" (cr_links doc) = true.
Proof.
  intros request cmr.
  destruct (getCollections cmr (stub_util 1) stub_convert stub_validator
              (stub_settings "/stac") request [])
    as [[[status doc | status msg] | e] log'] eqn:Hrun;
    try (vm_compute in Hrun; discriminate Hrun).
  exists doc, log'.
  destruct (getCollections_default_page_size cmr (stub_util 1) stub_convert
              stub_validator (stub_settings "/stac") (stub_createLink_rel 1)
              request [] log' status doc eq_refl Hrun) as [_ Hnext].
  assert (Hlen : List.length (cr_collections doc) = 10%nat).
  { vm_compute in Hrun. injection Hrun as Hs Hd Hl. subst doc. reflexivity. }
  assert (Hst : status = 200).
  { vm_compute in Hrun. injection Hrun as Hs Hd Hl. symmetry. exact Hs. }
  subst status.
  split; [reflexivity|]. split; [exact Hlen|]. apply Hnext. exact Hlen.
Defined.

(** *** The single collection *)

Section CollectionReplies.

Variable cmr : Cmr.
Variable util : Util.
Variable convert : Convert.
Variable validator : Validator.
Variable settings : Settings.

(** X5. [getCollection] never rejects: it sends a reply with the status
    200 or 404, whatever the Catalog Service and the validator do. *)
Theorem getCollection_always_replies (request : Request) (log : list call) :
  exists r : reply jsobj,
    fst (getCollection cmr util convert validator settings request log) = Ok r
    /\ (reply_status r = 200 \/ reply_status r = 404).
Proof.
  unfold getCollection. unfold_M.
  destruct (stacCollectionToCmrParams cmr _ _) as [cmrParams|e];
    [|eexists; split; [reflexivity | right; reflexivity]].
  destruct (findCollections cmr cmrParams) as [[|first rest]|e];
    try (eexists; split; [reflexivity | right; reflexivity]).
  destruct (browse_enabled settings).
  - destruct (getGranuleTemporalFacets cmr _ _ _ _) as [facets|e];
      [|eexists; split; [reflexivity | right; reflexivity]].
    destruct (obj_get "links" _);
      try (eexists; split; [reflexivity | right; reflexivity]).
    match goal with
    | |- context [assertValid_collection validator ?d] =>
        destruct (assertValid_collection validator d)
    end; eexists; (split; [reflexivity|]); cbn; auto.
  - match goal with
    | |- context [assertValid_collection validator ?d] =>
        destruct (assertValid_collection validator d)
    end; eexists; (split; [reflexivity|]); cbn; auto.
Qed.

(** X6. An error thrown while the collection is looked up or while its
    facets are asked for, and a document the validator refuses, with or
    without browse links, are answered with the status 404 and a message
    that quotes the error and names the collection and the provider; after
    a failed translation of the collection id no search is made. *)
Theorem getCollection_error (request : Request) (e : exn) (log : list call) :
  let run := getCollection cmr util convert validator settings request log in
  let toParams :=
    CallStacCollectionToCmrParams (providerId request) (collectionId request) in
  let reply : reply jsobj := JsonMsg 404 (collection_error_msg request e) in
  (stacCollectionToCmrParams cmr (providerId request) (collectionId request)
   = Throw e ->
   run = (Ok reply, (log ++ [toParams])%list))
  /\ (forall cmrParams : jsobj,
        stacCollectionToCmrParams cmr (providerId request)
          (collectionId request) = Ok cmrParams ->
        findCollections cmr cmrParams = Throw e ->
        run = (Ok reply,
               (log ++ [toParams; CallFindCollections cmrParams])%list))
  /\ (forall (cmrParams : jsobj) (first : jsobj) (rest : list jsobj),
        stacCollectionToCmrParams cmr (providerId request)
          (collectionId request) = Ok cmrParams ->
        findCollections cmr cmrParams = Ok (first :: rest) ->
        browse_enabled settings = false ->
        assertValid_collection validator
          (cmrCollToWFSColl convert (event request) first) = Throw e ->
        run = (Ok reply,
               (log ++ [toParams; CallFindCollections cmrParams])%list))
  /\ (forall (cmrParams : jsobj) (first : jsobj) (rest : list jsobj),
        stacCollectionToCmrParams cmr (providerId request)
          (collectionId request) = Ok cmrParams ->
        findCollections cmr cmrParams = Ok (first :: rest) ->
        browse_enabled settings = true ->
        getGranuleTemporalFacets cmr cmrParams JUndefined JUndefined
          JUndefined = Throw e ->
        run = (Ok reply,
               (log ++ [toParams; CallFindCollections cmrParams;
                        CallGetGranuleTemporalFacets cmrParams JUndefined
                          JUndefined JUndefined])%list))
  /\ (forall (cmrParams : jsobj) (first : jsobj) (rest : list jsobj)
             (links : list jsval) (facets : Facets),
        stacCollectionToCmrParams cmr (providerId request)
          (collectionId request) = Ok cmrParams ->
        findCollections cmr cmrParams = Ok (first :: rest) ->
        browse_enabled settings = true ->
        getGranuleTemporalFacets cmr cmrParams JUndefined JUndefined
          JUndefined = Ok facets ->
        obj_get "links" (cmrCollToWFSColl convert (event request) first)
        = JArr links ->
        assertValid_collection validator
          (collection_with_years util request
             (cmrCollToWFSColl convert (event request) first) links facets)
        = Throw e ->
        run = (Ok reply,
               (log ++ [toParams; CallFindCollections cmrParams;
                        CallGetGranuleTemporalFacets cmrParams JUndefined
                          JUndefined JUndefined])%list)).
Proof.
  intros run toParams reply. subst run toParams reply.
  unfold getCollection, collection_error_msg, collection_with_years.
  unfold_M.
  split; [|split; [|split; [|split]]].
  - intros ->. reflexivity.
  - intros cmrParams -> ->. rewrite <- app_assoc. reflexivity.
  - intros cmrParams first rest -> -> -> ->.
    rewrite <- app_assoc. reflexivity.
  - intros cmrParams first rest -> -> -> ->.
    rewrite <- !app_assoc. reflexivity.
  - intros cmrParams first rest links facets -> -> -> -> -> Hv.
    fold (year_links util request (years facets)).
    rewrite Hv. rewrite <- !app_assoc. reflexivity.
Qed.

(** X7. Without a browse path, [getCollection] sends the conversion of the
    first record found, and of it alone; it makes two calls and does not
    ask for the temporal facets. *)
Theorem getCollection_no_browse (request : Request) (cmrParams : jsobj)
    (first : jsobj) (rest : list jsobj) (log : list call) :
  browse_enabled settings = false ->
  stacCollectionToCmrParams cmr (providerId request) (collectionId request)
  = Ok cmrParams ->
  findCollections cmr cmrParams = Ok (first :: rest) ->
  assertValid_collection validator
    (cmrCollToWFSColl convert (event request) first) = Ok tt ->
  getCollection cmr util convert validator settings request log
  = (Ok (Json 200 (cmrCollToWFSColl convert (event request) first)),
     (log ++ [CallStacCollectionToCmrParams (providerId request)
                (collectionId request);
              CallFindCollections cmrParams])%list).
Proof.
  intros Hb Hp Hf Hv. unfold getCollection. unfold_M.
  rewrite Hp, Hf, Hb, Hv. rewrite <- app_assoc. reflexivity.
Qed.

(** X8. With a browse path, [getCollection] asks for the temporal facets
    of the collection, without a year, month or day, and appends to the
    links of the document one [child] link for each year, in order; the
    other properties of the document are those of the conversion. *)
Theorem getCollection_browse_links (request : Request) (cmrParams : jsobj)
    (first : jsobj) (rest : list jsobj) (links : list jsval)
    (facets : Facets) (log : list call) :
  let base := cmrCollToWFSColl convert (event request) first in
  let doc :=
    obj_set "links" (JArr (links ++ year_links util request (years facets)))
      base in
  browse_enabled settings = true ->
  stacCollectionToCmrParams cmr (providerId request) (collectionId request)
  = Ok cmrParams ->
  findCollections cmr cmrParams = Ok (first :: rest) ->
  obj_get "links" base = JArr links ->
  getGranuleTemporalFacets cmr cmrParams JUndefined JUndefined JUndefined
  = Ok facets ->
  assertValid_collection validator doc = Ok tt ->
  getCollection cmr util convert validator settings request log
  = (Ok (Json 200 doc),
     (log ++ [CallStacCollectionToCmrParams (providerId request)
                (collectionId request);
              CallFindCollections cmrParams;
              CallGetGranuleTemporalFacets cmrParams JUndefined JUndefined
                JUndefined])%list)
  /\ obj_get "links" doc
     = JArr (links ++ year_links util request (years facets))
  /\ List.length (year_links util request (years facets))
     = List.length (years facets)
  /\ (forall k : string, k <> "links" -> obj_get k doc = obj_get k base).
Proof.
  intros base doc Hb Hp Hf Hl Hfac Hv. subst base doc.
  split; [|split; [|split]].
  - unfold getCollection. unfold_M.
    rewrite Hp, Hf, Hb, Hfac, Hl.
    fold (year_links util request (years facets)).
    rewrite Hv. rewrite <- !app_assoc. reflexivity.
  - apply obj_get_set_same.
  - unfold year_links. apply length_map.
  - intros k Hk. apply obj_get_set_other. exact Hk.
Qed.

End CollectionReplies.

(** A collection id that cannot be translated, a collection search that
    fails, and a document without a license that the validator refuses,
    without and with browse links. *)
Lemma getCollection_error_witness :
  let failing_translation :=
    with_toParams (fun _ _ => Throw upstream_error)
      (stub_cmr (count_findCollections 1) (fun c => c)) in
  let failing_search := stub_cmr failing_findCollections (fun c => c) in
  let msg :=
    "Error [Error: Request failed with status code 500] occurred when getting Collection C1.v1 for provider PROV" in
  let refused :=
    "Error [Error: data should have required property 'license'] occurred when getting Collection C1.v1 for provider PROV" in
  getCollection failing_translation (stub_util 1) stub_convert stub_validator
    plain_settings (collection_request (JStr "C1.v1")) []
  = (Ok (JsonMsg 404 msg),
     [CallStacCollectionToCmrParams "PROV" (JStr "C1.v1")])
  /\ getCollection failing_search (stub_util 1) stub_convert stub_validator
       plain_settings (collection_request (JStr "C1.v1")) []
     = (Ok (JsonMsg 404 msg),
        [CallStacCollectionToCmrParams "PROV" (JStr "C1.v1");
         CallFindCollections [("short_name", JStr "C1.v1")]])
  /\ getCollection browse_cmr (stub_util 1) stub_convert picky_validator
       plain_settings (collection_request (JStr "C1.v1")) []
     = (Ok (JsonMsg 404 refused),
        [CallStacCollectionToCmrParams "PROV" (JStr "C1.v1");
         CallFindCollections [("short_name", JStr "C1.v1")]])
  /\ getCollection browse_cmr (stub_util 1) stub_convert picky_validator
       (stub_settings "/stac") (collection_request (JStr "C1.v1")) []
     = (Ok (JsonMsg 404 refused),
        [CallStacCollectionToCmrParams "PROV" (JStr "C1.v1");
         CallFindCollections [("short_name", JStr "C1.v1")];
         CallGetGranuleTemporalFacets [("short_name", JStr "C1.v1")]
           JUndefined JUndefined JUndefined]).
Proof.
  intros failing_translation failing_search msg refused.
  split; [|split; [|split]].
  - exact (proj1 (getCollection_error failing_translation (stub_util 1)
                    stub_convert stub_validator plain_settings
                    (collection_request (JStr "C1.v1")) upstream_error [])
             eq_refl).
  - exact (proj1 (proj2 (getCollection_error failing_search (stub_util 1)
                           stub_convert stub_validator plain_settings
                           (collection_request (JStr "C1.v1"))
                           upstream_error []))
             [("short_name", JStr "C1.v1")] eq_refl eq_refl).
  - exact (proj1 (proj2 (proj2 (getCollection_error browse_cmr (stub_util 1)
                                  stub_convert picky_validator plain_settings
                                  (collection_request (JStr "C1.v1"))
                                  validation_error [])))
             [("short_name", JStr "C1.v1")] (stub_record 1) []
             eq_refl eq_refl eq_refl eq_refl).
  - exact (proj2 (proj2 (proj2 (proj2
             (getCollection_error browse_cmr (stub_util 1) stub_convert
                picky_validator (stub_settings "/stac")
                (collection_request (JStr "C1.v1")) validation_error []))))
             [("short_name", JStr "C1.v1")] (stub_record 1) [] []
             browse_facets eq_refl eq_refl eq_refl eq_refl eq_refl eq_refl).
Defined.

(** A search that finds three records: the first one is sent. *)
Lemma getCollection_no_browse_witness :
  getCollection (stub_cmr (count_findCollections 3) (fun c => c))
    (stub_util 1) stub_convert stub_validator plain_settings
    (collection_request (JStr "C1.v1")) []
  = (Ok (Json 200 [("links", JArr []); ("id", JStr "C0-PROV")]),
     [CallStacCollectionToCmrParams "PROV" (JStr "C1.v1");
      CallFindCollections [("short_name", JStr "C1.v1")]]).
Proof.
  exact (getCollection_no_browse
           (stub_cmr (count_findCollections 3) (fun c => c))
           (stub_util 1) stub_convert stub_validator plain_settings
           (collection_request (JStr "C1.v1"))
           [("short_name", JStr "C1.v1")]
           (stub_record 0) [stub_record 1; stub_record 2] []
           eq_refl eq_refl eq_refl eq_refl).
Defined.

(** A collection with granules of the year 2001. *)
Lemma getCollection_browse_links_witness :
  exists doc : jsobj,
    fst (getCollection browse_cmr (stub_util 1) stub_convert stub_validator
           (stub_settings "/stac") (collection_request (JStr "C1.v1")) [])
    = Ok (Json 200 doc)
    /\ map link_rel
         (match obj_get "links" doc with
          | JArr l => l
          | _ => []
          end)
       = [JStr "child"]
    /\ obj_get "id" doc = JStr "C1-PROV".
Proof.
  destruct (getCollection_browse_links browse_cmr (stub_util 1) stub_convert
              stub_validator (stub_settings "/stac")
              (collection_request (JStr "C1.v1"))
              [("short_name", JStr "C1.v1")] (stub_record 1) [] []
              browse_facets [] eq_refl eq_refl eq_refl eq_refl eq_refl
              eq_refl)
    as (Hrun & Hlinks & _ & Hother).
  eexists. split; [exact (f_equal fst Hrun)|]. split.
  - rewrite Hlinks. reflexivity.
  - rewrite (Hother "id") by discriminate. reflexivity.
Defined.

(** *** A page of the resolver that fails *)

Lemma pages_served_set (cmr : Cmr) (params : jsobj) (v : jsval)
    (pages : list (list jsobj)) :
  forall i,
    pages_served cmr params i pages ->
    pages_served cmr (obj_set "page_num" v params) i pages.
Proof.
  induction pages as [|p rest IH]; intros i H; simpl in *; auto.
  destruct H as [H1 H2]. rewrite obj_set_set. split; auto.
Qed.

Section PagingErrors.

Variable cmr : Cmr.

Lemma cloud_pages_step_throw (fuel : nat) (i : Z) (params : jsobj)
    (all : list jsval) (log : list call) (e : exn) :
  i < 10000 ->
  findCollections cmr (obj_set "page_num" (JNum i) params) = Throw e ->
  cloud_pages cmr (S fuel) i params all log
  = (Throw e,
     (log ++ [CallFindCollections (obj_set "page_num" (JNum i) params)])%list).
Proof.
  intros Hi Hp. simpl. apply Z.ltb_lt in Hi. rewrite Hi.
  unfold bind, call_findCollections, cmr_call. rewrite Hp. reflexivity.
Qed.

Lemma cloud_pages_error (pages : list (list jsobj)) :
  forall (fuel : nat) (i : Z) (params : jsobj) (all : list jsval)
         (log : list call) (e : exn),
    (List.length pages < fuel)%nat ->
    1 <= i ->
    i + Z.of_nat (List.length pages) <= 9999 ->
    pages_served cmr params i pages ->
    all_full pages ->
    findCollections cmr
      (obj_set "page_num" (JNum (i + Z.of_nat (List.length pages))) params)
    = Throw e ->
    cloud_pages cmr fuel i params all log
    = (Throw e,
       (log ++ map (fun j => CallFindCollections
                               (obj_set "page_num" (JNum j) params))
                 (Zseq i (S (List.length pages))))%list).
Proof.
  induction pages as [|p rest IH];
    intros fuel i params all log e Hf Hi Hb Hs Hfull He.
  - destruct fuel as [|fuel]; [simpl in Hf; lia|].
    simpl List.length in *. rewrite Z.add_0_r in He.
    rewrite (cloud_pages_step_throw fuel i params all log e) by (auto; lia).
    reflexivity.
  - destruct fuel as [|fuel]; [simpl in Hf; lia|].
    destruct Hs as [Hp Hrest].
    unfold all_full in Hfull.
    inversion Hfull as [|? ? Hpfull Hrestfull]; subst.
    change (List.length (p :: rest)) with (S (List.length rest)) in *.
    rewrite (cloud_pages_step cmr fuel i params all log p) by (auto; lia).
    assert (E : (Z.of_nat (List.length p) <? 2000) = false)
      by (apply Z.ltb_ge; exact Hpfull).
    rewrite E.
    rewrite (IH fuel (i + 1) (obj_set "page_num" (JNum i) params)
               (push_ids p all) _ e).
    + cbn [Zseq map]. rewrite <- app_assoc. cbn [app].
      rewrite obj_set_set. do 4 f_equal.
      apply map_ext. intros j. rewrite obj_set_set. reflexivity.
    + lia.
    + lia.
    + lia.
    + apply pages_served_set. exact Hrest.
    + exact Hrestfull.
    + rewrite obj_set_set.
      replace (i + 1 + Z.of_nat (List.length rest))
        with (i + Z.of_nat (S (List.length rest))) by lia.
      exact He.
Qed.

(** The resolver when a page fails after some full pages. *)
Lemma findCloudCollections_error_run (providerId : string) (cids : jsval)
    (pages : list (list jsobj)) (e : exn) (log : list call) :
  pages_served cmr (cloud_params providerId cids) 1 pages ->
  all_full pages ->
  Z.of_nat (List.length pages) < 9999 ->
  findCollections cmr
    (cloud_query providerId cids (1 + Z.of_nat (List.length pages)))
  = Throw e ->
  findCloudCollections cmr providerId cids log
  = (Throw e,
     (log ++ map (fun j => CallFindCollections (cloud_query providerId cids j))
               (Zseq 1 (S (List.length pages))))%list).
Proof.
  intros Hs Hfull Hlen He. unfold findCloudCollections.
  apply cloud_pages_error; auto; lia.
Qed.

(** X9. When the search of a page fails, [findCloudCollections] throws the
    error of that page: the ids of the full pages fetched before it are not
    returned, and no further page is asked for. *)
Theorem findCloudCollections_page_error (providerId : string) (cids : jsval)
    (pages : list (list jsobj)) (e : exn) (log : list call) :
  pages_served cmr (cloud_params providerId cids) 1 pages ->
  all_full pages ->
  Z.of_nat (List.length pages) < 9999 ->
  findCollections cmr
    (cloud_query providerId cids (1 + Z.of_nat (List.length pages)))
  = Throw e ->
  findCloudCollections cmr providerId cids log
  = (Throw e,
     (log ++ map (fun j => CallFindCollections (cloud_query providerId cids j))
               (Zseq 1 (S (List.length pages))))%list).
Proof.
  intros Hs Hfull Hlen He. unfold findCloudCollections.
  apply (cloud_pages_error pages (Z.to_nat 10000) 1
           (cloud_params providerId cids) [] log e).
  - lia.
  - lia.
  - lia.
  - exact Hs.
  - exact Hfull.
  - exact He.
Qed.

End PagingErrors.

Lemma full_page_full : all_full [full_page].
Proof.
  constructor; [|constructor].
  unfold full_page. rewrite repeat_length. lia.
Qed.

(** A first page of 2000 records and a second page that fails. *)
Lemma findCloudCollections_page_error_witness :
  findCloudCollections (stub_cmr second_page_fails (fun c => c)) "PROV"
    JUndefined []
  = (Throw upstream_error,
     [CallFindCollections (cloud_query "PROV" JUndefined 1);
      CallFindCollections (cloud_query "PROV" JUndefined 2)]).
Proof.
  assert (Hlen : Z.of_nat (List.length [full_page]) < 9999)
    by (simpl List.length; lia).
  exact (findCloudCollections_page_error
           (stub_cmr second_page_fails (fun c => c)) "PROV" JUndefined
           [full_page] upstream_error [] (conj eq_refl I) full_page_full
           Hlen eq_refl).
Defined.

(** *** The replies of the items handler *)

Lemma bind_Ok_inv {A B} (m : M A) (k : A -> M B) (log l : list call) (b : B) :
  bind m k log = (Ok b, l) ->
  exists (a : A) (l0 : list call), m log = (Ok a, l0) /\ k a l0 = (Ok b, l).
Proof.
  unfold bind. destruct (m log) as [[a|e] l0]; intros H; [|discriminate].
  exists a, l0. split; [reflexivity | exact H].
Qed.

Section ItemsReplies.

Variable cmr : Cmr.
Variable convert : Convert.
Variable stacExtension : StacExtension.
Variable validator : Validator.
Variable settings : Settings.

Abbreviation run_getItems :=
  (getItems cmr convert stacExtension validator settings).
Abbreviation run_search :=
  (search_items cmr convert stacExtension validator settings).

(** A reply of [search_items] is a document with the status 200. *)
Lemma search_items_status (request : Request) (fields : jsval)
    (params : jsobj) (log l : list call) (r : reply jsval) :
  run_search request fields params log = (Ok r, l) -> reply_status r = 200.
Proof.
  unfold search_items. intros H.
  repeat (apply bind_Ok_inv in H; destruct H as (? & ? & _ & H)).
  injection H as <- _. reflexivity.
Qed.

(** [getItems], once the parameters are extracted and the collection of
    the path is resolved, is [search_items] under the [catch] block. *)
Lemma getItems_search_items (request : Request) (prepared : jsobj)
    (log : list call) :
  extractParams stacExtension request = Ok prepared ->
  scope_resolved cmr request prepared ->
  run_getItems request log
  = match run_search request (obj_get "fields" prepared)
            (items_params request prepared)
            (log ++ lookup_calls request)%list with
    | (Ok r, l) => (Ok r, l)
    | (Throw e, l) => (Ok (error_reply e), l)
    end.
Proof.
  intros Hext Hscope. unfold getItems, error_reply.
  unfold bind at 1. unfold lift at 1. rewrite Hext.
  unfold try_catch, items_params, lookup_calls.
  destruct Hscope as [Hc | (Hc & Hp & v & Hv & Ht)]; rewrite Hc.
  - rewrite app_nil_r.
    destruct (run_search _ _ _ _) as [[r|e] l]; [reflexivity|].
    destruct (exn_invalidSort e); reflexivity.
  - unfold bind at 1. unfold call_stacIdToCmrCollectionId, cmr_call.
    rewrite Hv, Ht. cbn [negb].
    rewrite (obj_get_delete_other _ _ prepared collections_not_fields), Hp.
    destruct (run_search _ _ _ _) as [[r|e] l]; [reflexivity|].
    destruct (exn_invalidSort e); unfold ret; reflexivity.
Qed.

(** X10. An error thrown while the parameters are extracted is not caught:
    [getItems] rejects with it and calls nothing.  This is so for a method
    other than GET and POST and for an error of the preparation of the
    extensions, an invalid sort property included, which is therefore not
    answered with the status 422. *)
Theorem getItems_extract_error (request : Request) (log : list call) :
  (httpMethod (event request) <> "GET" ->
   httpMethod (event request) <> "POST" ->
   run_getItems request log
   = (Throw (Error ("Invalid httpMethod " ++ httpMethod (event request))),
      log))
  /\ (forall e : exn,
        httpMethod (event request) = "GET" ->
        prepare stacExtension (JObj (query request)) = Throw e ->
        run_getItems request log = (Throw e, log))
  /\ (forall e : exn,
        httpMethod (event request) = "POST" ->
        prepare stacExtension (body request) = Throw e ->
        run_getItems request log = (Throw e, log)).
Proof.
  unfold getItems, extractParams. unfold bind at 1. unfold lift at 1.
  split; [|split].
  - intros Hg Hp.
    apply String.eqb_neq in Hg. apply String.eqb_neq in Hp.
    rewrite Hg, Hp. reflexivity.
  - intros e Hm He. rewrite Hm, He. reflexivity.
  - intros e Hm He. rewrite Hm, He. reflexivity.
Qed.

(** X11. Once the parameters are extracted, [getItems] always sends a
    reply, and its status is 200, 400, 404 or 422. *)
Theorem getItems_always_replies (request : Request) (prepared : jsobj)
    (log : list call) :
  extractParams stacExtension request = Ok prepared ->
  exists r : reply jsval,
    fst (run_getItems request log) = Ok r
    /\ (reply_status r = 200 \/ reply_status r = 400
        \/ reply_status r = 404 \/ reply_status r = 422).
Proof.
  intros Hext. unfold getItems.
  unfold bind at 1. unfold lift at 1. rewrite Hext.
  unfold try_catch.
  match goal with
  | |- context [match ?m log with _ => _ end] =>
      destruct (m log) as [[r|e] l] eqn:Hm
  end.
  - exists r. split; [reflexivity|].
    destruct (truthy (collectionId request)).
    + apply bind_Ok_inv in Hm. destruct Hm as (v & l0 & _ & Hm).
      destruct (negb (truthy v)).
      * injection Hm as <- _. cbn. auto.
      * destruct (truthy _).
        -- injection Hm as <- _. cbn. auto.
        -- left. exact (search_items_status _ _ _ _ _ _ Hm).
    + left. exact (search_items_status _ _ _ _ _ _ Hm).
  - destruct (exn_invalidSort e); eexists; (split; [reflexivity|]);
      cbn; auto.
Qed.

(** X12. When the translation of the parameters fails, [getItems] answers
    with the message of the error, with the status 422 for an invalid sort
    property and 400 otherwise, and makes no search. *)
Theorem getItems_translation_error (request : Request) (prepared : jsobj)
    (e : exn) (log : list call) :
  extractParams stacExtension request = Ok prepared ->
  scope_resolved cmr request prepared ->
  convertParams cmr (providerId request) (items_params request prepared)
  = Throw e ->
  run_getItems request log
  = (Ok (JsonMsg (if exn_invalidSort e then 422 else 400) (exn_message e)),
     (log ++ lookup_calls request
      ++ [CallConvertParams (providerId request)
            (items_params request prepared)])%list).
Proof.
  intros Hext Hscope He.
  rewrite (getItems_search_items request prepared log Hext Hscope).
  unfold search_items, bind, call_convertParams, cmr_call.
  rewrite He. rewrite <- app_assoc. reflexivity.
Qed.

(** X13. When the request names collections and the translation keeps none
    of them, no [collection_concept_id] being translated, [getItems] makes
    no search at all, in either mode: the only call after the lookup of
    the path is the translation, and the reply is assembled from an empty
    list of granules and 0 hits. *)
Theorem getItems_no_valid_collections (request : Request)
    (prepared cmrParams : jsobj) (log : list call) :
  extractParams stacExtension request = Ok prepared ->
  scope_resolved cmr request prepared ->
  convertParams cmr (providerId request) (items_params request prepared)
  = Ok cmrParams ->
  obj_has "collections" (items_params request prepared) = true ->
  obj_has "collection_concept_id" cmrParams = false ->
  snd (run_getItems request log)
  = (log ++ lookup_calls request
     ++ [CallConvertParams (providerId request)
           (items_params request prepared)])%list
  /\ (forall formatted : jsval,
        items_assembled convert stacExtension validator settings request
          prepared no_granules formatted ->
        fst (run_getItems request log) = Ok (Json 200 formatted)).
Proof.
  intros Hext Hscope Hconv Hreq Hvalid.
  rewrite (getItems_search_items request prepared log Hext Hscope).
  unfold search_items, bind, call_convertParams, cmr_call.
  rewrite Hconv, Hreq, Hvalid. cbn [andb orb negb].
  unfold ret at 1. unfold lift, ret.
  fold no_granules. fold (final_params request prepared).
  split.
  - rewrite <- app_assoc.
    destruct (cmrGranulesToStac convert _ _ _ _) as [fc|e]; [|reflexivity].
    destruct (assertValid_items validator fc) as [u|e]; [|reflexivity].
    destruct (format stacExtension _ _ _ _) as [formatted|e]; reflexivity.
  - intros formatted (fc & H1 & H2 & H3).
    rewrite H1, H2, H3. reflexivity.
Qed.

(** X14. Outside the cloud-only mode, when the search is made, it is one
    granule search with the translated parameters as they are; the reply
    is assembled from its result, with the parameters of the request from
    which the collection of the path is removed again.  A search that
    fails is answered with the status 400, or 422, and the message of the
    error. *)
Theorem getItems_plain_search (request : Request)
    (prepared cmrParams : jsobj) (log : list call) :
  cloudstac settings = false ->
  extractParams stacExtension request = Ok prepared ->
  scope_resolved cmr request prepared ->
  convertParams cmr (providerId request) (items_params request prepared)
  = Ok cmrParams ->
  (obj_has "collections" (items_params request prepared)
   && obj_has "collection_concept_id" cmrParams)
  || negb (obj_has "collections" (items_params request prepared)) = true ->
  snd (run_getItems request log)
  = (log ++ lookup_calls request
     ++ [CallConvertParams (providerId request)
           (items_params request prepared);
         CallFindGranules (QueryObject cmrParams)])%list
  /\ (forall (granulesResult : jsobj) (formatted : jsval),
        findGranules cmr (QueryObject cmrParams) = Ok granulesResult ->
        items_assembled convert stacExtension validator settings request
          prepared granulesResult formatted ->
        fst (run_getItems request log) = Ok (Json 200 formatted))
  /\ (forall e : exn,
        findGranules cmr (QueryObject cmrParams) = Throw e ->
        fst (run_getItems request log) = Ok (error_reply e))
  /\ (truthy (collectionId request) = true ->
      obj_has "collections" (final_params request prepared) = false).
Proof.
  intros Hmode Hext Hscope Hconv Hcond.
  rewrite (getItems_search_items request prepared log Hext Hscope).
  unfold search_items, bind, call_convertParams, call_findGranules, cmr_call.
  rewrite Hconv, Hcond, Hmode.
  unfold lift, ret. fold (final_params request prepared).
  split; [|split; [|split]].
  - rewrite <- !app_assoc.
    destruct (findGranules cmr _) as [gr|e]; [|reflexivity].
    destruct (cmrGranulesToStac convert _ _ _ _) as [fc|e]; [|reflexivity].
    destruct (assertValid_items validator fc) as [u|e]; [|reflexivity].
    destruct (format stacExtension _ _ _ _) as [formatted|e]; reflexivity.
  - intros gr formatted Hg (fc & H1 & H2 & H3).
    rewrite Hg, H1, H2, H3. reflexivity.
  - intros e Hg. rewrite Hg. reflexivity.
  - intros Hc. unfold final_params. rewrite Hc. apply obj_has_delete.
Qed.

(** X15. In the cloud-only mode, when a page of the resolver fails,
    [getItems] answers with the message of the error and the status 400, or
    422; no granule search is made with the collections resolved so far. *)
Theorem getItems_resolver_error (request : Request)
    (prepared cmrParams : jsobj) (pages : list (list jsobj)) (e : exn)
    (log : list call) :
  let cids := obj_get "collection_concept_id" cmrParams in
  cloudstac settings = true ->
  extractParams stacExtension request = Ok prepared ->
  scope_resolved cmr request prepared ->
  convertParams cmr (providerId request) (items_params request prepared)
  = Ok cmrParams ->
  (obj_has "collections" (items_params request prepared)
   && obj_has "collection_concept_id" cmrParams)
  || negb (obj_has "collections" (items_params request prepared)) = true ->
  pages_served cmr (cloud_params (providerId request) cids) 1 pages ->
  all_full pages ->
  Z.of_nat (List.length pages) < 9999 ->
  findCollections cmr
    (cloud_query (providerId request) cids
       (1 + Z.of_nat (List.length pages))) = Throw e ->
  run_getItems request log
  = (Ok (error_reply e),
     (log ++ lookup_calls request
      ++ [CallConvertParams (providerId request)
            (items_params request prepared)]
      ++ map (fun j =>
                CallFindCollections (cloud_query (providerId request) cids j))
           (Zseq 1 (S (List.length pages))))%list).
Proof.
  intros cids Hmode Hext Hscope Hconv Hcond Hs Hfull Hlen He.
  rewrite (getItems_search_items request prepared log Hext Hscope).
  unfold search_items, bind, call_convertParams, cmr_call.
  rewrite Hconv, Hcond, Hmode.
  unfold cloud_search, bind.
  rewrite (findCloudCollections_error_run cmr (providerId request) cids
             pages e _ Hs Hfull Hlen He).
  rewrite <- !app_assoc. reflexivity.
Qed.

End ItemsReplies.

(** A PUT request, and a GET request whose sort the preparation refuses. *)
Lemma getItems_extract_error_witness :
  getItems (stub_cmr (count_findCollections 0) (fun c => c)) stub_convert
    stub_stacExtension stub_validator (stub_settings "/stac")
    (method_request "PUT" JUndefined [] JUndefined) []
  = (Throw (Error "Invalid httpMethod PUT"), [])
  /\ getItems (stub_cmr (count_findCollections 0) (fun c => c)) stub_convert
       strict_stacExtension stub_validator (stub_settings "/stac")
       (method_request "GET" JUndefined [("sortby", JStr "foo")] JUndefined) []
     = (Throw sort_error, []).
Proof.
  assert (Hg : "PUT" <> "GET") by discriminate.
  assert (Hp : "PUT" <> "POST") by discriminate.
  split.
  - exact (proj1 (getItems_extract_error
                    (stub_cmr (count_findCollections 0) (fun c => c))
                    stub_convert stub_stacExtension stub_validator
                    (stub_settings "/stac")
                    (method_request "PUT" JUndefined [] JUndefined) [])
             Hg Hp).
  - exact (proj1 (proj2 (getItems_extract_error
                           (stub_cmr (count_findCollections 0) (fun c => c))
                           stub_convert strict_stacExtension stub_validator
                           (stub_settings "/stac")
                           (method_request "GET" JUndefined
                              [("sortby", JStr "foo")] JUndefined) []))
             sort_error eq_refl eq_refl).
Defined.

(** A search over the provider that finds nothing: the status is 200. *)
Lemma getItems_always_replies_witness :
  exists r : reply jsval,
    fst (getItems (stub_cmr (count_findCollections 0) (fun c => c))
           stub_convert stub_stacExtension stub_validator
           (stub_settings "/stac") (items_request JUndefined []) [])
    = Ok r
    /\ reply_status r = 200.
Proof.
  destruct (getItems_always_replies
              (stub_cmr (count_findCollections 0) (fun c => c))
              stub_convert stub_stacExtension stub_validator
              (stub_settings "/stac") (items_request JUndefined []) [] []
              eq_refl) as (r & Hr & _).
  exists r. split; [exact Hr|].
  vm_compute in Hr. injection Hr as <-. reflexivity.
Defined.

(** A translation that refuses the sort property: status 422. *)
Lemma getItems_translation_error_witness :
  getItems (with_convertParams (fun _ _ => Throw sort_error)
              (stub_cmr (count_findCollections 0) (fun c => c)))
    stub_convert stub_stacExtension stub_validator (stub_settings "/stac")
    (items_request (JStr "C1.v1") [("sortby", JStr "foo")]) []
  = (Ok (JsonMsg 422 "Property [foo] is not sortable"),
     [CallStacIdToCmrCollectionId "PROV" (JStr "C1.v1");
      CallConvertParams "PROV"
        [("sortby", JStr "foo"); ("collections", JArr [JStr "C1.v1"])]]).
Proof.
  apply (getItems_translation_error
           (with_convertParams (fun _ _ => Throw sort_error)
              (stub_cmr (count_findCollections 0) (fun c => c)))
           stub_convert stub_stacExtension stub_validator
           (stub_settings "/stac")
           (items_request (JStr "C1.v1") [("sortby", JStr "foo")])
           [("sortby", JStr "foo")] sort_error []).
  - reflexivity.
  - right. split; [reflexivity|]. split; [reflexivity|].
    exists (JStr "C1.v1"). split; reflexivity.
  - reflexivity.
Defined.

(** A search for a collection the translation does not keep: no call but
    the translation, in the cloud-only mode too. *)
Lemma getItems_no_valid_collections_witness :
  let cmr :=
    with_convertParams (fun _ o => Ok (obj_delete "collections" o))
      (stub_cmr (count_findCollections 3) (fun c => c)) in
  let request :=
    items_request JUndefined [("collections", JArr [JStr "unknown"])] in
  getItems cmr stub_convert stub_stacExtension stub_validator
    (stub_settings "/cloudstac") request []
  = (Ok (Json 200 (JObj [("type", JStr "FeatureCollection");
                         ("features", JArr [])])),
     [CallConvertParams "PROV" [("collections", JArr [JStr "unknown"])]]).
Proof.
  intros cmr request.
  destruct (getItems_no_valid_collections cmr stub_convert stub_stacExtension
              stub_validator (stub_settings "/cloudstac") request
              [("collections", JArr [JStr "unknown"])] [] []
              eq_refl (or_introl eq_refl) eq_refl eq_refl eq_refl)
    as [Hlog Hreply].
  apply injective_projections; [|exact Hlog].
  apply Hreply. eexists. repeat split.
Defined.

(** The items of the collection of the path, outside the cloud-only mode. *)
Lemma getItems_plain_search_witness :
  let cmr := stub_cmr (count_findCollections 0) (fun _ => JStr "C1-PROV") in
  let request := items_request (JStr "C1.v1") [("limit", JStr "5")] in
  getItems cmr stub_convert stub_stacExtension stub_validator
    (stub_settings "/stac") request []
  = (Ok (Json 200 (JObj [("type", JStr "FeatureCollection");
                         ("features", JArr [])])),
     [CallStacIdToCmrCollectionId "PROV" (JStr "C1.v1");
      CallConvertParams "PROV"
        [("limit", JStr "5"); ("collections", JArr [JStr "C1.v1"])];
      CallFindGranules
        (QueryObject
           [("limit", JStr "5");
            ("collection_concept_id", JArr [JStr "C1.v1"])])])
  /\ final_params request [("limit", JStr "5")] = [("limit", JStr "5")].
Proof.
  intros cmr request.
  assert (Hscope : scope_resolved cmr request [("limit", JStr "5")]).
  { right. split; [reflexivity|]. split; [reflexivity|].
    exists (JStr "C1-PROV"). split; reflexivity. }
  destruct (getItems_plain_search cmr stub_convert stub_stacExtension
              stub_validator (stub_settings "/stac") request
              [("limit", JStr "5")]
              [("limit", JStr "5");
               ("collection_concept_id", JArr [JStr "C1.v1"])] []
              eq_refl eq_refl Hscope eq_refl eq_refl)
    as (Hlog & Hreply & _ & _).
  split; [|reflexivity].
  apply injective_projections; [|exact Hlog].
  apply (Hreply [("granules", JArr []); ("hits", JStr "0")]);
    [reflexivity|].
  eexists. repeat split.
Defined.

(** The cloud-only search when the second page of the resolver fails. *)
Lemma getItems_resolver_error_witness :
  getItems (stub_cmr second_page_fails (fun c => c)) stub_convert
    stub_stacExtension stub_validator (stub_settings "/cloudstac")
    (items_request JUndefined []) []
  = (Ok (JsonMsg 400 "Request failed with status code 500"),
     [CallConvertParams "PROV" [];
      CallFindCollections (cloud_query "PROV" JUndefined 1);
      CallFindCollections (cloud_query "PROV" JUndefined 2)]).
Proof.
  assert (Hlen : Z.of_nat (List.length [full_page]) < 9999)
    by (simpl List.length; lia).
  exact (getItems_resolver_error (stub_cmr second_page_fails (fun c => c))
           stub_convert stub_stacExtension stub_validator
           (stub_settings "/cloudstac") (items_request JUndefined [])
           [] [] [full_page] upstream_error []
           eq_refl eq_refl (or_introl eq_refl) eq_refl eq_refl
           (conj eq_refl I) full_page_full Hlen eq_refl).
Defined.

(** *** The single item *)

Section ItemReplies.

Variable cmr : Cmr.
Variable util : Util.
Variable convert : Convert.
Variable validator : Validator.
Variable settings : Settings.
Variable urls : CatalogUrls.

(** X16. A collection that resolves to no concept id is answered by
    [getItem], and by [getCatalog], with the status 404 and the message
    that names the collection and the provider; nothing is called after
    the lookup. *)
Theorem item_and_catalog_not_found (request : Request) (v : jsval)
    (log : list call) :
  stacIdToCmrCollectionId cmr (providerId request) (collectionId request)
  = Ok v ->
  truthy v = false ->
  getItem cmr convert validator request log
  = (Ok (JsonMsg 404
           ("Collection [" ++ toString (collectionId request)
              ++ "] not found for provider [" ++ providerId request ++ "]")),
     (log ++ [CallStacIdToCmrCollectionId (providerId request)
                (collectionId request)])%list)
  /\ (BROWSE_PATH settings <> None ->
      getCatalog cmr util settings urls request log
      = (Ok (JsonMsg 404
               ("Collection [" ++ toString (collectionId request)
                  ++ "] not found for provider [" ++ providerId request
                  ++ "]")),
         (log ++ [CallStacIdToCmrCollectionId (providerId request)
                    (collectionId request)])%list)).
Proof.
  intros Hv Ht. split.
  - unfold getItem. unfold_M. rewrite Hv, Ht. reflexivity.
  - intros Hb. unfold getCatalog.
    destruct (BROWSE_PATH settings) as [bp|]; [|congruence].
    unfold_M. rewrite Hv, Ht. reflexivity.
Qed.

(** X17. For a collection that resolves to the concept id [v], [getItem]
    makes one granule search, of the item of the path first and of the
    concept id of the collection second, and sends the conversion of the
    first granule found. *)
Theorem getItem_search (request : Request) (v : jsval) (log : list call) :
  let search :=
    QuerySearchParams
      [("concept_id", toString (itemId request));
       ("collection_concept_id", toString v)] in
  stacIdToCmrCollectionId cmr (providerId request) (collectionId request)
  = Ok v ->
  truthy v = true ->
  snd (getItem cmr convert validator request log)
  = (log ++ [CallStacIdToCmrCollectionId (providerId request)
               (collectionId request);
             CallFindGranules search])%list
  /\ (forall (granulesResult : jsobj) (first : jsval) (others : list jsval)
             (doc : jsval),
        findGranules cmr search = Ok granulesResult ->
        obj_get "granules" granulesResult = JArr (first :: others) ->
        cmrGranuleToStac convert (event request) first = Ok doc ->
        assertValid_item validator doc = Ok tt ->
        fst (getItem cmr convert validator request log) = Ok (Json 200 doc)).
Proof.
  intros search Hv Ht. subst search. unfold getItem. unfold_M.
  rewrite Hv, Ht. cbn [negb obj_assign fold_left fst snd obj_set
                        URLSearchParams_new map].
  change (("concept_id" =? "collection_concept_id")%string) with false.
  cbn [URLSearchParams_new map fst snd].
  split.
  - rewrite <- app_assoc.
    destruct (findGranules cmr _) as [gr|e]; [|reflexivity].
    destruct (index0 _) as [g|e]; [|reflexivity].
    destruct (cmrGranuleToStac convert _ g) as [doc|e]; [|reflexivity].
    destruct (assertValid_item validator doc); reflexivity.
  - intros gr first others doc Hg Hgr Hc Hval.
    rewrite Hg, Hgr. cbn [index0 hd]. rewrite Hc, Hval. reflexivity.
Qed.

(** X18. [getItem] has no [catch]: it rejects with the error of the lookup
    or of the granule search.  When the search finds no granule, the reply
    is not 404: the converter is given [undefined], and [getItem] rejects
    if the converter throws. *)
Theorem getItem_rejects (request : Request) (e : exn) (log : list call) :
  let search v :=
    QuerySearchParams
      [("concept_id", toString (itemId request));
       ("collection_concept_id", toString v)] in
  (stacIdToCmrCollectionId cmr (providerId request) (collectionId request)
   = Throw e ->
   getItem cmr convert validator request log
   = (Throw e,
      (log ++ [CallStacIdToCmrCollectionId (providerId request)
                 (collectionId request)])%list))
  /\ (forall v : jsval,
        stacIdToCmrCollectionId cmr (providerId request)
          (collectionId request) = Ok v ->
        truthy v = true ->
        findGranules cmr (search v) = Throw e ->
        fst (getItem cmr convert validator request log) = Throw e)
  /\ (forall (v : jsval) (granulesResult : jsobj),
        stacIdToCmrCollectionId cmr (providerId request)
          (collectionId request) = Ok v ->
        truthy v = true ->
        findGranules cmr (search v) = Ok granulesResult ->
        obj_get "granules" granulesResult = JArr [] ->
        cmrGranuleToStac convert (event request) JUndefined = Throw e ->
        fst (getItem cmr convert validator request log) = Throw e).
Proof.
  intros search. subst search. unfold getItem. unfold_M.
  split; [|split].
  - intros ->. reflexivity.
  - intros v -> -> Hg.
    cbn [negb obj_assign fold_left fst snd obj_set URLSearchParams_new map].
    change (("concept_id" =? "collection_concept_id")%string) with false.
    cbn [URLSearchParams_new map fst snd]. rewrite Hg. reflexivity.
  - intros v gr -> -> Hg Hgr Hc.
    cbn [negb obj_assign fold_left fst snd obj_set URLSearchParams_new map].
    change (("concept_id" =? "collection_concept_id")%string) with false.
    cbn [URLSearchParams_new map fst snd].
    rewrite Hg, Hgr. cbn [index0 hd]. rewrite Hc. reflexivity.
Qed.

End ItemReplies.

(** An item and a catalog of the collection C9.v1, which is unknown. *)
Lemma item_and_catalog_not_found_witness :
  let cmr := stub_cmr (count_findCollections 0) (fun _ => JUndefined) in
  getItem cmr stub_convert stub_validator
    (item_request (JStr "C9.v1") (JStr "G1-PROV")) []
  = (Ok (JsonMsg 404 "Collection [C9.v1] not found for provider [PROV]"),
     [CallStacIdToCmrCollectionId "PROV" (JStr "C9.v1")])
  /\ getCatalog cmr (stub_util 1) (stub_settings "/stac") stub_urls
       (item_request (JStr "C9.v1") JUndefined) []
     = (Ok (JsonMsg 404 "Collection [C9.v1] not found for provider [PROV]"),
        [CallStacIdToCmrCollectionId "PROV" (JStr "C9.v1")]).
Proof.
  intros cmr.
  assert (Hb : BROWSE_PATH (stub_settings "/stac") <> None) by discriminate.
  split.
  - exact (proj1 (item_and_catalog_not_found cmr (stub_util 1) stub_convert
                    stub_validator (stub_settings "/stac") stub_urls
                    (item_request (JStr "C9.v1") (JStr "G1-PROV"))
                    JUndefined [] eq_refl eq_refl)).
  - exact (proj2 (item_and_catalog_not_found cmr (stub_util 1) stub_convert
                    stub_validator (stub_settings "/stac") stub_urls
                    (item_request (JStr "C9.v1") JUndefined)
                    JUndefined [] eq_refl eq_refl) Hb).
Defined.

(** The item G1 of a collection in which the search finds two granules. *)
Lemma getItem_search_witness :
  let cmr :=
    with_findGranules two_granules
      (stub_cmr (count_findCollections 0) (fun _ => JStr "C1-PROV")) in
  getItem cmr stub_convert stub_validator
    (item_request (JStr "C1.v1") (JStr "G1-PROV")) []
  = (Ok (Json 200 (JObj [("id", JStr "G1-PROV")])),
     [CallStacIdToCmrCollectionId "PROV" (JStr "C1.v1");
      CallFindGranules
        (QuerySearchParams
           [("concept_id", "G1-PROV"); ("collection_concept_id", "C1-PROV")])]).
Proof.
  intros cmr.
  destruct (getItem_search cmr stub_convert stub_validator
              (item_request (JStr "C1.v1") (JStr "G1-PROV"))
              (JStr "C1-PROV") [] eq_refl eq_refl) as [Hlog Hreply].
  apply injective_projections; [|exact Hlog].
  exact (Hreply _ (JObj [("id", JStr "G1-PROV")])
           [JObj [("id", JStr "G2-PROV")]] (JObj [("id", JStr "G1-PROV")])
           eq_refl eq_refl eq_refl eq_refl).
Defined.

(** An item that the search does not find, with a converter that reads the
    granule: [getItem] rejects. *)
Lemma getItem_rejects_witness :
  let cmr := stub_cmr (count_findCollections 0) (fun _ => JStr "C1-PROV") in
  fst (getItem cmr strict_convert stub_validator
         (item_request (JStr "C1.v1") (JStr "G404-PROV")) [])
  = Throw missing_granule_error.
Proof.
  intros cmr.
  exact (proj2 (proj2 (getItem_rejects cmr strict_convert stub_validator
                         (item_request (JStr "C1.v1") (JStr "G404-PROV"))
                         missing_granule_error []))
           (JStr "C1-PROV") [("granules", JArr []); ("hits", JStr "0")]
           eq_refl eq_refl eq_refl eq_refl eq_refl).
Defined.

(** *** [Object.fromEntries] *)

Lemma find_app_first {A} (f : A -> bool) (a b : list A) :
  find f (a ++ b)
  = match find f a with
    | Some x => Some x
    | None => find f b
    end.
Proof.
  induction a as [|x a IH]; simpl; auto.
  destruct (f x); auto.
Qed.

(** The value of [k] in [o] after the entries of [l] are set one by one. *)
Lemma fold_obj_set_get (k : string) (l : list (string * jsval)) :
  forall o : jsobj,
    obj_get k (fold_left (fun a kv => obj_set (fst kv) (snd kv) a) l o)
    = match find (fun kv => (fst kv =? k)%string) (rev l) with
      | Some kv => snd kv
      | None => obj_get k o
      end.
Proof.
  induction l as [|[k' v'] l IH]; intros o; simpl; auto.
  rewrite IH, find_app_first.
  destruct (find _ (rev l)); auto.
  simpl. destruct (k' =? k)%string eqn:E.
  - apply String.eqb_eq in E. subst k'. apply obj_get_set_same.
  - apply obj_get_set_other. apply String.eqb_neq in E. congruence.
Qed.

Lemma obj_has_In (k : string) (o : jsobj) :
  obj_has k o = true <-> In k (map fst o).
Proof.
  induction o as [|[k' v] r IH]; simpl.
  - split; [discriminate | tauto].
  - destruct (k' =? k)%string eqn:E.
    + apply String.eqb_eq in E. subst k'. tauto.
    + apply String.eqb_neq in E. rewrite IH. tauto.
Qed.

Lemma obj_set_keys (k : string) (v : jsval) (o : jsobj) :
  map fst (obj_set k v o)
  = if obj_has k o then map fst o else (map fst o ++ [k])%list.
Proof.
  induction o as [|[k' w] r IH]; simpl; auto.
  destruct (k' =? k)%string eqn:E; simpl.
  - apply String.eqb_eq in E. subst k'. reflexivity.
  - rewrite IH. destruct (obj_has k r); reflexivity.
Qed.


Lemma obj_set_NoDup (k : string) (v : jsval) (o : jsobj) :
  NoDup (map fst o) -> NoDup (map fst (obj_set k v o)).
Proof.
  intros H. rewrite obj_set_keys.
  destruct (obj_has k o) eqn:E; [exact H|].
  apply NoDup_app; [exact H | constructor; [tauto | constructor] |].
  intros x Hx [<-|[]].
  apply obj_has_In in Hx. congruence.
Qed.

Lemma fold_obj_set_NoDup (l : list (string * jsval)) :
  forall o : jsobj,
    NoDup (map fst o) ->
    NoDup (map fst (fold_left (fun a kv => obj_set (fst kv) (snd kv) a) l o)).
Proof.
  induction l as [|kv l IH]; intros o H; simpl; auto.
  apply IH, obj_set_NoDup, H.
Qed.


Lemma fromEntries_lookup_helper (l : list (string * jsval)) :
  (forall k : string,
     obj_get k (fromEntries l)
     = match find (fun kv => (fst kv =? k)%string) (rev l) with
       | Some kv => snd kv
       | None => JUndefined
       end)
  /\ NoDup (map fst (fromEntries l)).
Proof.
  unfold fromEntries. split.
  - intros k. apply (fold_obj_set_get k l []).
  - apply fold_obj_set_NoDup. constructor.
Qed.



(** *** The date of a catalog *)

Lemma split_char_nonempty (c : ascii) (s : string) : split_char c s <> [].
Proof.
  destruct s as [|a r]; simpl; [discriminate|].
  destruct (Ascii.eqb a c); [discriminate|].
  destruct (split_char c r); discriminate.
Qed.

(** Replacing every [c] by [d] is splitting at [c] and joining with [d]. *)
Lemma replace_all_char_join (c d : ascii) (s : string) :
  replace_all_char c d s = String.concat (String d "") (split_char c s).
Proof.
  induction s as [|a r IH]; [reflexivity|].
  cbn [replace_all_char split_char]. rewrite IH.
  pose proof (split_char_nonempty c r) as Hne.
  destruct (Ascii.eqb a c).
  - destruct (split_char c r) as [|h t]; [congruence|]. reflexivity.
  - destruct (split_char c r) as [|h t]; [congruence|].
    destruct t; reflexivity.
Qed.

(** *** The browse catalog: empty and surplus segments *)

Lemma template_entries_nil (params : list string) :
  template_entries [] params
  = map (fun val => ("undefined", JStr val)) params.
Proof. induction params as [|v r IH]; simpl; [|rewrite IH]; reflexivity. Qed.

Lemma find_none_map {A} (f : A -> bool) (l : list A) :
  (forall x, In x l -> f x = false) -> find f l = None.
Proof.
  induction l as [|x l IH]; intros H; simpl; auto.
  rewrite (H x (or_introl eq_refl)). apply IH.
  intros y Hy. apply H. right. exact Hy.
Qed.

(** Segments past the end of the template do not change the value of a key
    other than [undefined]. *)
Lemma surplus_segments_get (k : string) (params : list string) (o : jsobj) :
  k <> "undefined" ->
  obj_get k
    (fold_left (fun a kv => obj_set (fst kv) (snd kv) a)
       (template_entries [] params) o)
  = obj_get k o.
Proof.
  intros Hk. rewrite fold_obj_set_get, template_entries_nil.
  rewrite find_none_map; [reflexivity|].
  intros [k' v] Hin. apply in_rev in Hin. apply in_map_iff in Hin.
  destruct Hin as (val & Heq & _). injection Heq as <- _.
  cbn [fst]. apply String.eqb_neq. congruence.
Qed.

Lemma append_empty_r_local (s : string) : s ++ "" = s.
Proof. induction s as [|a r IH]; simpl; [|rewrite IH]; reflexivity. Qed.

(** The browse parameters of a path with a third segment [d], whatever
    comes after it. *)
Lemma browse_params_day_tail (request : Request) (y m d tail : string) :
  no_char slash y = true ->
  no_char slash m = true ->
  no_char slash d = true ->
  tail = "" \/ (exists r, tail = "/" ++ r) ->
  star request = y ++ "/" ++ m ++ "/" ++ d ++ tail ->
  let bp := browse_params "year/month/day" request in
  obj_get "year" bp = JStr y
  /\ obj_get "month" bp = JStr m
  /\ obj_get "day" bp = JStr d.
Proof.
  intros Hy Hm Hd Htail Hs bp. subst bp. unfold browse_params. rewrite Hs.
  change ("/" ++ m ++ "/" ++ d ++ tail)
    with (String slash (m ++ String slash (d ++ tail))).
  rewrite (split_char_app slash y _ Hy), (split_char_app slash m _ Hm).
  destruct Htail as [-> | [r ->]].
  - rewrite append_empty_r_local, (split_char_no slash d Hd).
    repeat split; reflexivity.
  - change ("/" ++ r) with (String slash r).
    rewrite (split_char_app slash d r Hd).
    rewrite browse_template. cbn [template_entries hd tl].
    unfold fromEntries. cbn [fold_left fst snd obj_set].
    change (("year" =? "month")%string) with false.
    change (("year" =? "day")%string) with false.
    change (("month" =? "day")%string) with false.
    cbn [fst snd obj_set].
    rewrite !surplus_segments_get by discriminate.
    repeat split; reflexivity.
Qed.

Section BrowseEdges.

Variable cmr : Cmr.
Variable util : Util.
Variable settings : Settings.
Variable urls : CatalogUrls.

(** X20. With the browse path [year/month/day], an empty segment counts as
    absent when the links are chosen, although it is given to the facets as
    an empty string: for an empty date the catalog has no link but [root],
    [self] and [parent]; for a year followed by a slash it lists the
    months, as for the year alone. *)
Theorem getCatalog_empty_segments :
  BROWSE_PATH settings = Some "year/month/day" ->
  (forall (request : Request) (cmrParams : jsobj) (facets : Facets)
          (log : list call),
      star request = "" ->
      catalog_served cmr request cmrParams (JStr "") JUndefined JUndefined
        facets ->
      exists cat : Catalog,
        getCatalog cmr util settings urls request log
        = (Ok (Json 200 cat),
           (log ++ catalog_calls request cmrParams (JStr "") JUndefined
                     JUndefined)%list)
        /\ map link_kind (cat_links cat) = base_kinds)
  /\ (forall (request : Request) (y : string) (cmrParams : jsobj)
             (facets : Facets) (log : list call),
         segment y ->
         star request = y ++ "/" ->
         catalog_served cmr request cmrParams (JStr y) (JStr "") JUndefined
           facets ->
         exists cat : Catalog,
           getCatalog cmr util settings urls request log
           = (Ok (Json 200 cat),
              (log ++ catalog_calls request cmrParams (JStr y) (JStr "")
                        JUndefined)%list)
           /\ map link_kind (cat_links cat)
              = (base_kinds
                 ++ map (fun m => (JStr "child",
                                   JStr (y ++ "-" ++ toString m ++ " catalog")))
                      (months facets))%list).
Proof.
  intros Hbp. split.
  - intros request cmrParams facets log Hs Hserved.
    assert (Hparams : browse_params "year/month/day" request
                      = [("year", JStr "")])
      by (unfold browse_params; rewrite Hs; reflexivity).
    eexists. split.
    + apply (getCatalog_served cmr util settings urls request
               "year/month/day" cmrParams);
        try exact Hbp; try exact Hserved; rewrite Hparams; reflexivity.
    + reflexivity.
  - intros request y cmrParams facets log Hy Hs Hserved.
    assert (Hparams : browse_params "year/month/day" request
                      = [("year", JStr y); ("month", JStr "")]).
    { unfold browse_params. rewrite Hs.
      change (y ++ "/") with (y ++ String slash "").
      rewrite (split_char_app slash y "" (proj2 Hy)). reflexivity. }
    eexists. split.
    + apply (getCatalog_served cmr util settings urls request
               "year/month/day" cmrParams);
        try exact Hbp; try exact Hserved; rewrite Hparams; reflexivity.
    + unfold browse_links. change (truthy JUndefined) with false.
      change (truthy (JStr "")) with false.
      rewrite (truthy_segment y Hy).
      destruct (fold_addChild urls
                  (fun m => toString (JStr y) ++ "-" ++ toString m
                              ++ " catalog")
                  (fun m => "/" ++ toString m) (months facets)
                  (catalog_base util settings request))
        as (extra & Hl & Hk).
      rewrite Hl, map_app, Hk. reflexivity.
Qed.

(** X21. With the browse path [year/month/day], a path whose third segment
    is not empty gives the catalog of a day, with one [item] link for each
    granule id: the year and the month may be empty, and what follows the
    third segment is ignored. *)
Theorem getCatalog_day_segment (request : Request) (y m d tail : string)
    (cmrParams : jsobj) (facets : Facets) (log : list call) :
  BROWSE_PATH settings = Some "year/month/day" ->
  no_char slash y = true ->
  no_char slash m = true ->
  segment d ->
  tail = "" \/ (exists r, tail = "/" ++ r) ->
  star request = y ++ "/" ++ m ++ "/" ++ d ++ tail ->
  catalog_served cmr request cmrParams (JStr y) (JStr m) (JStr d) facets ->
  exists cat : Catalog,
    getCatalog cmr util settings urls request log
    = (Ok (Json 200 cat),
       (log ++ catalog_calls request cmrParams (JStr y) (JStr m) (JStr d))%list)
    /\ map link_kind (cat_links cat)
       = (base_kinds
          ++ map (fun id => (JStr "item", JStr (toString id)))
               (itemids facets))%list.
Proof.
  intros Hbp Hy Hm Hd Htail Hs Hserved.
  destruct (browse_params_day_tail request y m d tail Hy Hm (proj2 Hd)
              Htail Hs) as (Hyear & Hmonth & Hday).
  eexists. split.
  - apply (getCatalog_served cmr util settings urls request "year/month/day"
             cmrParams); try exact Hbp; try exact Hserved; assumption.
  - unfold browse_links. rewrite (truthy_segment d Hd).
    destruct (fold_addItem urls (providerId request) (collectionId request)
                (itemids facets) (catalog_base util settings request))
      as (extra & Hl & Hk).
    rewrite Hl, map_app, Hk. reflexivity.
Qed.

End BrowseEdges.

(** The catalogs of the empty date and of [2001/]. *)
Lemma getCatalog_empty_segments_witness :
  let run := getCatalog browse_cmr (stub_util 1) (stub_settings "/stac")
               stub_urls in
  (exists cat : Catalog,
     fst (run (catalog_request "") []) = Ok (Json 200 cat)
     /\ map link_kind (cat_links cat) = base_kinds)
  /\ (exists cat : Catalog,
        fst (run (catalog_request "2001/") []) = Ok (Json 200 cat)
        /\ map link_kind (cat_links cat)
           = (base_kinds
              ++ [(JStr "child", JStr "2001-01 catalog");
                  (JStr "child", JStr "2001-02 catalog")])%list).
Proof.
  intros run.
  assert (S2001 : segment "2001") by (split; [discriminate | reflexivity]).
  destruct (getCatalog_empty_segments browse_cmr (stub_util 1)
              (stub_settings "/stac") stub_urls eq_refl)
    as (Hempty & Hslash).
  split.
  - destruct (Hempty (catalog_request "") _ browse_facets [] eq_refl
                (browse_cmr_served _ _ _ _)) as (cat & Hrun & Hk).
    exists cat. split; [exact (f_equal fst Hrun) | exact Hk].
  - destruct (Hslash (catalog_request "2001/") "2001" _ browse_facets []
                S2001 eq_refl (browse_cmr_served _ _ _ _))
      as (cat & Hrun & Hk).
    exists cat. split; [exact (f_equal fst Hrun) | exact Hk].
Defined.

(** The path [//07/more]: no year, no month, a day and a surplus segment. *)
Lemma getCatalog_day_segment_witness :
  exists cat : Catalog,
    fst (getCatalog browse_cmr (stub_util 1) (stub_settings "/stac") stub_urls
           (catalog_request "//07/more") [])
    = Ok (Json 200 cat)
    /\ map link_kind (cat_links cat)
       = (base_kinds
          ++ [(JStr "item", JStr "G1-PROV");
              (JStr "item", JStr "G2-PROV")])%list.
Proof.
  assert (S07 : segment "07") by (split; [discriminate | reflexivity]).
  destruct (getCatalog_day_segment browse_cmr (stub_util 1)
              (stub_settings "/stac") stub_urls
              (catalog_request "//07/more") "" "" "07" "/more" _
              browse_facets [] eq_refl eq_refl eq_refl S07
              (or_intror (ex_intro _ "more" eq_refl)) eq_refl
              (browse_cmr_served _ _ _ _))
    as (cat & Hrun & Hk).
  exists cat. split; [exact (f_equal fst Hrun) | exact Hk].
Defined.

(** *** The identity of a catalog, the template and the routes *)

Lemma fold_left_cat_push {A} (f : Catalog -> A -> jsval) (l : list A) :
  forall c : Catalog,
    let c' := fold_left (fun c x => cat_push (f c x) c) l c in
    cat_id c' = cat_id c /\ cat_title c' = cat_title c
    /\ cat_description c' = cat_description c
    /\ cat_stac_version c' = cat_stac_version c.
Proof.
  induction l as [|x l IH]; intros c; simpl; auto.
  destruct (IH (cat_push (f c x) c)) as (H1 & H2 & H3 & H4).
  simpl in *. auto.
Qed.

Section CatalogIdentity.

Variable cmr : Cmr.
Variable util : Util.
Variable settings : Settings.
Variable urls : CatalogUrls.

Lemma browse_links_identity (request : Request) (year month day : jsval)
    (facets : Facets) (c : Catalog) :
  let c' := browse_links urls request year month day facets c in
  cat_id c' = cat_id c /\ cat_title c' = cat_title c
  /\ cat_description c' = cat_description c
  /\ cat_stac_version c' = cat_stac_version c.
Proof.
  unfold browse_links, addItem, addChild.
  destruct (truthy day); [|destruct (truthy month); [|destruct (truthy year)]].
  - apply (fold_left_cat_push
             (fun c id =>
                mkLink "item"
                  (item_href urls c (providerId request)
                     (collectionId request) id)
                  (Some (toString id)))).
  - apply (fold_left_cat_push
             (fun c d =>
                mkLink "child" (child_href urls c ("/" ++ toString d))
                  (Some (toString year ++ "-" ++ toString month ++ "-"
                           ++ toString d ++ " catalog")))).
  - apply (fold_left_cat_push
             (fun c m =>
                mkLink "child" (child_href urls c ("/" ++ toString m))
                  (Some (toString year ++ "-" ++ toString m ++ " catalog")))).
  - auto.
Qed.

(** X22. The id, the title and the description of a catalog [getCatalog]
    sends name the collection and the date of the path, which is its
    segments joined with dashes; the version is the one of the settings.
    The links added for the facets change none of them. *)
Theorem getCatalog_identity (request : Request) (log log' : list call)
    (status : Z) (cat : Catalog) :
  getCatalog cmr util settings urls request log
  = (Ok (Json status cat), log') ->
  let date := String.concat "-" (split_char slash (star request)) in
  cat_id cat = toString (collectionId request) ++ "-" ++ date
  /\ cat_title cat = toString (collectionId request) ++ " " ++ date
  /\ cat_description cat = providerId request ++ " sub-catalog for " ++ date
  /\ cat_stac_version cat = stac_version settings.
Proof.
  intros H date. apply getCatalog_inv in H.
  destruct H as (_ & year & month & day & facets & ->).
  destruct (browse_links_identity request year month day facets
              (catalog_base util settings request))
    as (H1 & H2 & H3 & H4).
  rewrite H1, H2, H3, H4. subst date.
  unfold catalog_base. cbn [cat_id cat_title cat_description cat_stac_version].
  rewrite (replace_all_char_join slash "-"%char (star request)).
  repeat split; reflexivity.
Qed.

(** X23. The route of [getCatalog] is registered exactly when the browse
    path is defined, and every route is a GET route.  Without a browse
    path [getCatalog] throws a [TypeError] before it calls anything; when
    it is routed, it begins with the lookup of the collection. *)
Theorem routes_getCatalog :
  (In (mkRoute "GET" "/:providerId/collections/:collectionId/*"
         Handler_getCatalog) (routes settings)
   <-> BROWSE_PATH settings <> None)
  /\ (forall r : Route, In r (routes settings) -> route_method r = "GET")
  /\ (BROWSE_PATH settings = None ->
      forall (request : Request) (log : list call),
      exists e : exn,
        getCatalog cmr util settings urls request log = (Throw e, log)
        /\ exn_name e = "TypeError")
  /\ (forall r : Route,
        In r (routes settings) ->
        route_handler r = Handler_getCatalog ->
        forall (request : Request) (log : list call),
        exists rest : list call,
          snd (getCatalog cmr util settings urls request log)
          = (log ++ CallStacIdToCmrCollectionId (providerId request)
                      (collectionId request) :: rest)%list).
Proof.
  unfold routes, createRoutes. split; [|split; [|split]].
  - destruct (BROWSE_PATH settings) as [bp|]; simpl; split.
    + discriminate.
    + intros _. do 4 right. left. reflexivity.
    + intros [H|[H|[H|[H|[]]]]]; discriminate H.
    + congruence.
  - intros r Hr. destruct (BROWSE_PATH settings) as [bp|]; simpl in Hr;
      repeat (destruct Hr as [<-|Hr]; [reflexivity|]); destruct Hr.
  - intros Hb request log. unfold getCatalog. rewrite Hb.
    eexists. split; reflexivity.
  - intros r Hr Hh request log. unfold getCatalog.
    destruct (BROWSE_PATH settings) as [bp|].
    + unfold_M.
      destruct (stacIdToCmrCollectionId cmr _ _) as [v|e];
        [|exists []; reflexivity].
      destruct (negb (truthy v)); [exists []; reflexivity|].
      destruct (stacCollectionToCmrParams cmr _ _) as [cmrParams|e];
        [|eexists; cbn [snd]; rewrite <- app_assoc; reflexivity].
      destruct (getGranuleTemporalFacets cmr _ _ _ _) as [facets|e];
        eexists; cbn [snd]; rewrite <- !app_assoc; reflexivity.
    + simpl in Hr.
      repeat (destruct Hr as [<-|Hr]; [discriminate Hh|]). destruct Hr.
Qed.

(** X24. Only the names [year], [month] and [day] of the browse path are
    read: with a browse path that has none of them, the empty one for
    instance, the facets are asked for without a year, month or day and
    the catalog has no link but [root], [self] and [parent]. *)
Theorem getCatalog_unnamed_template (request : Request)
    (browse_path : string) (cmrParams : jsobj) (facets : Facets)
    (log : list call) :
  BROWSE_PATH settings = Some browse_path ->
  (forall k, In k (split_char slash browse_path) ->
             k <> "year" /\ k <> "month" /\ k <> "day") ->
  catalog_served cmr request cmrParams JUndefined JUndefined JUndefined
    facets ->
  exists cat : Catalog,
    getCatalog cmr util settings urls request log
    = (Ok (Json 200 cat),
       (log ++ catalog_calls request cmrParams JUndefined JUndefined
                 JUndefined)%list)
    /\ map link_kind (cat_links cat) = base_kinds.
Proof.
  intros Hbp Hnames Hserved.
  assert (Hkeys : forall k,
            k = "year" \/ k = "month" \/ k = "day" ->
            obj_get k (browse_params browse_path request) = JUndefined).
  { intros k Hk. unfold browse_params.
    rewrite (proj1 (fromEntries_lookup_helper _) k).
    rewrite find_none_map; [reflexivity|].
    intros [k' v] Hin. apply in_rev in Hin. cbn [fst].
    apply String.eqb_neq. intros ->.
    revert Hin. generalize (split_char slash (star request)).
    generalize (split_char slash browse_path) Hnames.
    intros template Htemplate params. revert template Htemplate.
    induction params as [|p params IH]; intros template Htemplate Hin;
      [destruct Hin|].
    destruct Hin as [Heq|Hin].
    - injection Heq as Hkey _.
      destruct template as [|t template]; simpl in Hkey.
      + subst k. destruct Hk as [H|[H|H]]; discriminate H.
      + subst t. destruct (Htemplate k (or_introl eq_refl)) as (A & B & C).
        destruct Hk as [H|[H|H]]; congruence.
    - apply (IH (tl template)); [|exact Hin].
      intros k0 Hk0. apply Htemplate.
      destruct template; [destruct Hk0 | right; exact Hk0]. }
  eexists. split.
  - apply (getCatalog_served cmr util settings urls request browse_path
             cmrParams); try exact Hbp; try exact Hserved;
      apply Hkeys; auto.
  - reflexivity.
Qed.

End CatalogIdentity.

(** The catalog of the day 2001/05/07 of the collection C1.v1. *)
Lemma getCatalog_identity_witness :
  exists (cat : Catalog) (log' : list call),
    getCatalog browse_cmr (stub_util 1) (stub_settings "/stac") stub_urls
      (catalog_request "2001/05/07") []
    = (Ok (Json 200 cat), log')
    /\ cat_id cat = "C1.v1-2001-05-07"
    /\ cat_title cat = "C1.v1 2001-05-07"
    /\ cat_description cat = "PROV sub-catalog for 2001-05-07"
    /\ cat_stac_version cat = JStr "1.0.0".
Proof.
  destruct (getCatalog browse_cmr (stub_util 1) (stub_settings "/stac")
              stub_urls (catalog_request "2001/05/07") [])
    as [[[status cat | status msg] | e] log'] eqn:Hrun;
    try (vm_compute in Hrun; discriminate Hrun).
  exists cat, log'.
  destruct (getCatalog_identity browse_cmr (stub_util 1)
              (stub_settings "/stac") stub_urls (catalog_request "2001/05/07")
              [] log' status cat Hrun) as (Hid & Htitle & Hdesc & Hver).
  assert (Hst : status = 200).
  { vm_compute in Hrun. injection Hrun as Hs _ _. symmetry. exact Hs. }
  subst status.
  split; [reflexivity|].
  split; [exact Hid|]. split; [exact Htitle|]. split; [exact Hdesc|].
  exact Hver.
Defined.

(** With the browse path [year/month/day] the route of the catalogs is the
    fifth route; without a browse path there are four, and [getCatalog]
    throws. *)
Lemma routes_getCatalog_witness :
  List.length (routes (stub_settings "/stac")) = 5%nat
  /\ List.length (routes plain_settings) = 4%nat
  /\ (exists e : exn,
        getCatalog browse_cmr (stub_util 1) plain_settings stub_urls
          (catalog_request "2001") []
        = (Throw e, [])
        /\ exn_name e = "TypeError").
Proof.
  split; [reflexivity|]. split; [reflexivity|].
  exact (proj1 (proj2 (proj2 (routes_getCatalog browse_cmr (stub_util 1)
                                plain_settings stub_urls)))
           eq_refl (catalog_request "2001") []).
Defined.

(** An empty browse path: the catalog of 2001 lists nothing. *)
Lemma getCatalog_unnamed_template_witness :
  let settings :=
    mkSettings "/stac" (JStr "1.0.0") (Some "") decimal_StringToNumber
      (fun v => v) in
  browse_enabled settings = false
  /\ exists cat : Catalog,
       fst (getCatalog browse_cmr (stub_util 1) settings stub_urls
              (catalog_request "2001") [])
       = Ok (Json 200 cat)
       /\ map link_kind (cat_links cat) = base_kinds.
Proof.
  intros settings. split; [reflexivity|].
  destruct (getCatalog_unnamed_template browse_cmr (stub_util 1) settings
              stub_urls (catalog_request "2001") ""
              [("short_name", JStr "C1.v1")] browse_facets [] eq_refl)
    as (cat & Hrun & Hk).
  - intros k [<-|[]]. repeat split; discriminate.
  - apply browse_cmr_served.
  - exists cat. split; [exact (f_equal fst Hrun) | exact Hk].
Defined.
